(** * Buyer-lead intake: validation schemas, persistence transforms,
      CSV import/export and the change-history trigger

    A shallow embedding of
      - [src/lib/validations] (the zod schemas [buyerSchema] and
        [csvBuyerSchema]),
      - the submit handlers of the NewBuyer and EditBuyer pages, and
        [fetchBuyer] and [handleDelete] of the detail page,
      - [BuyerForm] (the submit wrapper and the tag editor),
      - [BuyersList] (the filters kept in the URL, and paging),
      - [BuyerImportExport] (file upload, validation and batched import,
        export),
      - the [buyers] / [buyer_history] tables with their CHECK constraints,
        row-level policies and triggers (the SQL migrations).

    Conventions.
      - A JavaScript string is a [string]: a sequence of code units, here
        restricted to the code units below 256.
      - A JavaScript number is an integer [Z] or [NaN]; fractions, infinities
        and the loss of precision above 2^53 lie outside the model.
      - The only arrays that reach the schemas are arrays of strings (the tag
        list of the form). *)

From Stdlib Require Import ZArith Ascii Lia.
From stdpp Require Import base option list strings gmap.

Local Open Scope Z_scope.
Local Open Scope nat_scope.

(** ** Strings: the String.prototype and RegExp pieces the sources use *)

Definition isDigit (c : ascii) : bool :=
  (48 <=? nat_of_ascii c) && (nat_of_ascii c <=? 57).

Definition isLetter (c : ascii) : bool :=
  let n := nat_of_ascii c in
  ((65 <=? n) && (n <=? 90)) || ((97 <=? n) && (n <=? 122)).

(** WhiteSpace and LineTerminator code units below 256:
    TAB, LF, VT, FF, CR, SP, NBSP. *)
Definition isWhiteSpace (c : ascii) : bool :=
  let n := nat_of_ascii c in
  ((9 <=? n) && (n <=? 13)) || (n =? 32) || (n =? 160).

Fixpoint allChars (p : ascii -> bool) (s : string) : bool :=
  match s with
  | EmptyString => true
  | String c s' => p c && allChars p s'
  end.

Fixpoint hasChar (c : ascii) (s : string) : bool :=
  match s with
  | EmptyString => false
  | String d s' => Ascii.eqb c d || hasChar c s'
  end.

(** [/^\d{10,15}$/.test(s)] *)
Definition phoneRegex (s : string) : bool :=
  allChars isDigit s && (10 <=? String.length s) && (String.length s <=? 15).

(** [/^\d*$/.test(s)] *)
Definition digitsRegex (s : string) : bool := allChars isDigit s.

(** [s.trimStart()], [s.trimEnd()], [s.trim()] *)
Fixpoint trimStart (s : string) : string :=
  match s with
  | EmptyString => EmptyString
  | String c s' => if isWhiteSpace c then trimStart s' else s
  end.

Fixpoint trimEnd (s : string) : string :=
  match s with
  | EmptyString => EmptyString
  | String c s' =>
      match trimEnd s' with
      | EmptyString => if isWhiteSpace c then EmptyString else String c EmptyString
      | r => String c r
      end
  end.

Definition trim (s : string) : string := trimEnd (trimStart s).

Definition startsWithWhiteSpace (s : string) : bool :=
  match s with
  | String c _ => isWhiteSpace c
  | EmptyString => false
  end.

Fixpoint endsWithWhiteSpace (s : string) : bool :=
  match s with
  | EmptyString => false
  | String c EmptyString => isWhiteSpace c
  | String _ s' => endsWithWhiteSpace s'
  end.

(** [s.split(sep)] for a one-character separator: never empty, the empty
    string splits into one empty piece. *)
Fixpoint split (sep : ascii) (s : string) : list string :=
  match s with
  | EmptyString => [EmptyString]
  | String c s' =>
      if Ascii.eqb c sep then EmptyString :: split sep s'
      else match split sep s' with
           | p :: ps => String c p :: ps
           | [] => [String c EmptyString]
           end
  end.

(** [l.join(sep)] *)
Fixpoint join (sep : string) (l : list string) : string :=
  match l with
  | [] => EmptyString
  | [x] => x
  | x :: rest => x +:+ sep +:+ join sep rest
  end.

(** ** Numbers and their decimal text *)

Definition digitChar (d : N) : ascii := ascii_of_N (48 + d).

(** Value of a character as a digit in some radix up to 36. *)
Definition digitValue (c : ascii) : option N :=
  let n := N_of_ascii c in
  if isDigit c then Some (n - 48)%N
  else if (97 <=? n)%N && (n <=? 122)%N then Some (n - 87)%N
  else if (65 <=? n)%N && (n <=? 90)%N then Some (n - 55)%N
  else None.

(** The digits of the longest prefix of [s] made of radix-[R] digits. *)
Fixpoint takeDigits (R : N) (s : string) : list N :=
  match s with
  | EmptyString => []
  | String c s' =>
      match digitValue c with
      | Some d => if (d <? R)%N then d :: takeDigits R s' else []
      | None => []
      end
  end.

Definition digitsToN (R : N) (ds : list N) : N :=
  fold_left (fun acc d => (R * acc + d)%N) ds 0%N.

(** Decimal digits of [n], most significant first, pushed in front of [acc]. *)
Fixpoint digitsOf (fuel : nat) (n : N) (acc : string) : string :=
  match fuel with
  | O => acc
  | S fuel' =>
      let acc' := String (digitChar (n mod 10)) acc in
      if (n / 10 =? 0)%N then acc' else digitsOf fuel' (n / 10) acc'
  end.

(** [String(n)] for an integer [n] (below 10^21 in absolute value, where
    JavaScript does not switch to exponent notation). *)
Definition numberToString (n : Z) : string :=
  let digits (m : N) := digitsOf (S (N.to_nat (N.log2 m))) m EmptyString in
  match n with
  | Z0 => "0"
  | Zpos p => digits (Npos p)
  | Zneg p => String "-" (digits (Npos p))
  end.

(** The number a string of decimal digits denotes. *)
Definition decimalValue (s : string) : N := digitsToN 10 (takeDigits 10 s).

(** ** JavaScript values *)

Inductive JsValue :=
  | JUndefined
  | JNull
  | JNaN
  | JNumber (n : Z)
  | JString (s : string)
  | JArray (l : list string).

Global Instance JsValue_eq_dec : EqDecision JsValue.
Proof. solve_decision. Defined.

(** ToBoolean *)
Definition truthy (v : JsValue) : bool :=
  match v with
  | JUndefined | JNull | JNaN => false
  | JNumber n => negb (n =? 0)%Z
  | JString s => negb (String.eqb s "")
  | JArray _ => true
  end.

(** [a || b] *)
Definition jsOr (a b : JsValue) : JsValue := if truthy a then a else b.

(** [v === "lit"] *)
Definition strictEqString (v : JsValue) (lit : string) : bool :=
  match v with
  | JString s => String.eqb s lit
  | _ => false
  end.

(** [parseInt(s)] with no radix argument: leading white space and a sign are
    skipped, a [0x] prefix selects radix 16, then the longest run of digits is
    read; no digit at all gives [NaN]. *)
Definition parseInt (s : string) : JsValue :=
  let S0 := trimStart s in
  let '(neg, S1) :=
    match S0 with
    | String c r =>
        if Ascii.eqb c "-" then (true, r)
        else if Ascii.eqb c "+" then (false, r)
        else (false, S0)
    | EmptyString => (false, S0)
    end in
  let '(R, S2) :=
    match S1 with
    | String c0 (String c1 r) =>
        if Ascii.eqb c0 "0" && (Ascii.eqb c1 "x" || Ascii.eqb c1 "X")
        then (16%N, r) else (10%N, S1)
    | _ => (10%N, S1)
    end in
  match takeDigits R S2 with
  | [] => JNaN
  | ds => let m := Z.of_N (digitsToN R ds) in
          JNumber (if neg then (- m)%Z else m)
  end.

(** [parseInt(s, radix)]: radix 0 is the same as no radix argument; a radix
    outside 2..36 gives [NaN]; the [0x] prefix is skipped for radix 16 only. *)
Definition parseIntRadix (s : string) (radix : N) : JsValue :=
  if (radix =? 0)%N then parseInt s
  else if (radix <? 2)%N || (36 <? radix)%N then JNaN
  else
    let S0 := trimStart s in
    let '(neg, S1) :=
      match S0 with
      | String c r =>
          if Ascii.eqb c "-" then (true, r)
          else if Ascii.eqb c "+" then (false, r)
          else (false, S0)
      | EmptyString => (false, S0)
      end in
    let S2 :=
      match S1 with
      | String c0 (String c1 r) =>
          if (radix =? 16)%N && Ascii.eqb c0 "0"
             && (Ascii.eqb c1 "x" || Ascii.eqb c1 "X")
          then r else S1
      | _ => S1
      end in
    match takeDigits radix S2 with
    | [] => JNaN
    | ds => let m := Z.of_N (digitsToN radix ds) in
            JNumber (if neg then (- m)%Z else m)
    end.

(** [Math.ceil(a / b)] for integers [a] and [b > 0]. *)
Definition ceilDiv (a b : Z) : Z := (- ((- a) / b))%Z.

(** ** zod: the fragment of the parser the two schemas are built from

    A parse returns a status, the parsed value unless it aborted, and the
    issues it raised.  A failed check ([min], [max], [regex], [email], a
    refinement) makes the result [dirty] and parsing goes on; a value of the
    wrong type, a value outside an enum, a failed literal or a transform over
    a result that is not valid makes it [aborted].  A message of [None] stands
    for the default text zod derives from the issue code. *)
Module Zod.

Inductive ParseStatus := valid | dirty | aborted.

Inductive ZodIssueCode :=
  | invalid_type | invalid_literal | invalid_union | invalid_enum_value
  | invalid_string | too_small | too_big | custom.

Record ZodIssue := mkIssue {
  code : ZodIssueCode;
  path : list string;
  message : option string }.

Record ParseReturn (A : Type) := mkReturn {
  status : ParseStatus;
  value : option A;
  issues : list ZodIssue }.
Arguments mkReturn {A}.
Arguments status {A}.
Arguments value {A}.
Arguments issues {A}.

Global Instance ParseStatus_eq_dec : EqDecision ParseStatus.
Proof. solve_decision. Defined.
Global Instance ZodIssueCode_eq_dec : EqDecision ZodIssueCode.
Proof. solve_decision. Defined.
Global Instance ZodIssue_eq_dec : EqDecision ZodIssue.
Proof. solve_decision. Defined.

Definition OK {A} (v : A) : ParseReturn A := mkReturn valid (Some v) [].
Definition INVALID {A} (iss : list ZodIssue) : ParseReturn A :=
  mkReturn aborted None iss.

Definition isValid {A} (r : ParseReturn A) : bool :=
  bool_decide (status r = valid).
Definition isAborted {A} (r : ParseReturn A) : bool :=
  bool_decide (status r = aborted).

(** A schema parses the datum found at a path. *)
Definition Schema := list string -> JsValue -> ParseReturn JsValue.

Inductive ZodStringCheck :=
  | min (n : nat) (msg : option string)
  | max (n : nat) (msg : option string)
  | regex (re : string -> bool) (msg : option string)
  | email (re : string -> bool) (msg : option string).

Definition runStringCheck (p : list string) (s : string)
    (check : ZodStringCheck) : list ZodIssue :=
  match check with
  | min n msg => if String.length s <? n then [mkIssue too_small p msg] else []
  | max n msg => if n <? String.length s then [mkIssue too_big p msg] else []
  | regex re msg => if re s then [] else [mkIssue invalid_string p msg]
  | email re msg => if re s then [] else [mkIssue invalid_string p msg]
  end.

(** [z.string()] followed by its checks: every check runs. *)
Definition z_string (checks : list ZodStringCheck) : Schema := fun p d =>
  match d with
  | JString s =>
      let iss := flat_map (runStringCheck p s) checks in
      mkReturn (match iss with [] => valid | _ => dirty end) (Some d) iss
  | _ => INVALID [mkIssue invalid_type p None]
  end.

(** [z.number().min(m, msg)]; [NaN] is not of type number. *)
Definition z_number_min (m : Z) (msg : option string) : Schema := fun p d =>
  match d with
  | JNumber n =>
      if (n <? m)%Z then mkReturn dirty (Some d) [mkIssue too_small p msg]
      else OK d
  | _ => INVALID [mkIssue invalid_type p None]
  end.

(** [z.enum([...])] *)
Definition z_enum (values : list string) : Schema := fun p d =>
  match d with
  | JString s =>
      if bool_decide (s ∈ values) then OK d
      else INVALID [mkIssue invalid_enum_value p None]
  | _ => INVALID [mkIssue invalid_type p None]
  end.

(** [z.literal("...")] *)
Definition z_literal (lit : string) : Schema := fun p d =>
  if strictEqString d lit then OK d
  else INVALID [mkIssue invalid_literal p None].

(** [z.array(z.string())] *)
Definition z_array_string : Schema := fun p d =>
  match d with
  | JArray _ => OK d
  | _ => INVALID [mkIssue invalid_type p None]
  end.

(** [schema.optional()] *)
Definition z_optional (inner : Schema) : Schema := fun p d =>
  match d with
  | JUndefined => OK JUndefined
  | _ => inner p d
  end.

(** [schema.default(dflt)] *)
Definition z_default (inner : Schema) (dflt : JsValue) : Schema := fun p d =>
  match d with
  | JUndefined => inner p dflt
  | _ => inner p d
  end.

(** [a.or(b)]: the first option that is valid wins; failing that, the first
    dirty option is returned with its own issues; failing that, the union
    aborts with a single [invalid_union] issue. *)
Definition z_or (a b : Schema) : Schema := fun p d =>
  let ra := a p d in
  let rb := b p d in
  if isValid ra then ra
  else if isValid rb then rb
  else match status ra, status rb with
       | dirty, _ => ra
       | _, dirty => rb
       | _, _ => INVALID [mkIssue invalid_union p None]
       end.

(** [schema.transform(f)]: [f] runs on a valid inner result only; over any
    other inner result the transform is INVALID (the issues stay). *)
Definition z_transform (inner : Schema) (f : JsValue -> JsValue) : Schema :=
  fun p d =>
    let base := inner p d in
    match status base, value base with
    | valid, Some v => mkReturn valid (Some (f v)) (issues base)
    | _, _ => INVALID (issues base)
    end.

(** Status of an object or of a chain of results: aborted dominates
    dirty, dirty dominates valid. *)
Definition mergeStatus (a b : ParseStatus) : ParseStatus :=
  match a, b with
  | aborted, _ | _, aborted => aborted
  | dirty, _ | _, dirty => dirty
  | valid, valid => valid
  end.

(** [schema.refine(check, {message, path})]: skipped when the inner parse
    aborted; otherwise a failing check adds one [custom] issue at [path]
    (relative to the top of the parsed object) and makes the result dirty. *)
Definition z_refine {A} (inner : A -> ParseReturn A) (check : A -> bool)
    (msg : option string) (pth : list string) : A -> ParseReturn A :=
  fun d =>
    let r := inner d in
    match status r, value r with
    | aborted, _ | _, None => INVALID (issues r)
    | _, Some v =>
        if check v then r
        else mkReturn dirty (Some v) (issues r ++ [mkIssue custom pth msg])
    end.

(** [schema.parse(d)] throws a ZodError carrying the issues unless the
    result is valid; [safeParse] reports the same two outcomes. *)
Definition parse {A} (schema : A -> ParseReturn A) (d : A)
    : A + list ZodIssue :=
  let r := schema d in
  match status r, value r with
  | valid, Some v => inl v
  | _, _ => inr (issues r)
  end.

End Zod.

(** ** The row objects handed to supabase-js

    [insert] and [update] receive an object keyed by column name. *)
Module Payload.

Record t := mk {
  full_name : JsValue;
  email : JsValue;
  phone : JsValue;
  city : JsValue;
  property_type : JsValue;
  bhk : JsValue;
  purpose : JsValue;
  budget_min : JsValue;
  budget_max : JsValue;
  timeline : JsValue;
  source : JsValue;
  status : JsValue;
  notes : JsValue;
  tags : JsValue }.

End Payload.

(** ** supabase/migrations: tables, constraints, policies, triggers *)
Module Sql.

(** Enum types.  [property_type] is also a column name, and ['Other'] is a
    label of two enums, hence the suffixes. *)
Inductive city_type := Chandigarh | Mohali | Zirakpur | Panchkula | Other_city.
Inductive property_type_enum := Apartment | Villa | Plot | Office | Retail.
Inductive bhk_type := bhk_1 | bhk_2 | bhk_3 | bhk_4 | Studio.
Inductive purpose_type := Buy | Rent.
Inductive timeline_type := m0_3 | m3_6 | over_6m | Exploring.
Inductive source_type := Website | Referral | Walk_in | Call | Other_source.
Inductive status_type :=
  | New | Qualified | Contacted | Visited | Negotiation | Converted | Dropped.

(** An enum type has a label per value ([value::TEXT]) and the list of its
    values in declaration order. *)
Class PgEnum (A : Type) := { label : A -> string; enum_range : list A }.

Global Instance city_enum : PgEnum city_type := {|
  label v := match v with
             | Chandigarh => "Chandigarh" | Mohali => "Mohali"
             | Zirakpur => "Zirakpur" | Panchkula => "Panchkula"
             | Other_city => "Other" end;
  enum_range := [Chandigarh; Mohali; Zirakpur; Panchkula; Other_city] |}.
Global Instance property_enum : PgEnum property_type_enum := {|
  label v := match v with
             | Apartment => "Apartment" | Villa => "Villa" | Plot => "Plot"
             | Office => "Office" | Retail => "Retail" end;
  enum_range := [Apartment; Villa; Plot; Office; Retail] |}.
Global Instance bhk_enum : PgEnum bhk_type := {|
  label v := match v with
             | bhk_1 => "1" | bhk_2 => "2" | bhk_3 => "3" | bhk_4 => "4"
             | Studio => "Studio" end;
  enum_range := [bhk_1; bhk_2; bhk_3; bhk_4; Studio] |}.
Global Instance purpose_enum : PgEnum purpose_type := {|
  label v := match v with Buy => "Buy" | Rent => "Rent" end;
  enum_range := [Buy; Rent] |}.
Global Instance timeline_enum : PgEnum timeline_type := {|
  label v := match v with
             | m0_3 => "0-3m" | m3_6 => "3-6m" | over_6m => ">6m"
             | Exploring => "Exploring" end;
  enum_range := [m0_3; m3_6; over_6m; Exploring] |}.
Global Instance source_enum : PgEnum source_type := {|
  label v := match v with
             | Website => "Website" | Referral => "Referral"
             | Walk_in => "Walk-in" | Call => "Call"
             | Other_source => "Other" end;
  enum_range := [Website; Referral; Walk_in; Call; Other_source] |}.
Global Instance status_enum : PgEnum status_type := {|
  label v := match v with
             | New => "New" | Qualified => "Qualified"
             | Contacted => "Contacted" | Visited => "Visited"
             | Negotiation => "Negotiation" | Converted => "Converted"
             | Dropped => "Dropped" end;
  enum_range := [New; Qualified; Contacted; Visited; Negotiation; Converted;
                 Dropped] |}.

Global Instance city_type_eq_dec : EqDecision city_type.
Proof. solve_decision. Defined.
Global Instance property_type_eq_dec : EqDecision property_type_enum.
Proof. solve_decision. Defined.
Global Instance bhk_type_eq_dec : EqDecision bhk_type.
Proof. solve_decision. Defined.
Global Instance purpose_type_eq_dec : EqDecision purpose_type.
Proof. solve_decision. Defined.
Global Instance timeline_type_eq_dec : EqDecision timeline_type.
Proof. solve_decision. Defined.
Global Instance source_type_eq_dec : EqDecision source_type.
Proof. solve_decision. Defined.
Global Instance status_type_eq_dec : EqDecision status_type.
Proof. solve_decision. Defined.

(** ['text'::some_enum]: the value carrying that label, if any. *)
Definition enum_in {A} `{PgEnum A} (s : string) : option A :=
  List.find (fun v => String.eqb (label v) s) enum_range.

(** Identifiers ([UUID]) and timestamps are opaque; naturals and integers
    stand for them. *)
Definition uuid := nat.
Definition timestamptz := Z.

(** [CREATE TABLE public.buyers]: a [NOT NULL] column has the type of its
    values, a nullable column an [option]. *)
Record buyers := mkBuyers {
  id : uuid;
  full_name : string;
  email : option string;
  phone : string;
  city : city_type;
  property_type : property_type_enum;
  bhk : option bhk_type;
  purpose : purpose_type;
  budget_min : option Z;
  budget_max : option Z;
  timeline : timeline_type;
  source : source_type;
  status : status_type;
  notes : option string;
  tags : option (list string);
  owner_id : uuid;
  created_at : timestamptz;
  updated_at : timestamptz }.

Global Instance buyers_eq_dec : EqDecision buyers.
Proof. solve_decision. Defined.

(** [jsonb]: the scalars and arrays that occur as column values, objects of
    them, and objects of those (the [diff] column). *)
Inductive jsonb_value :=
  | jb_null
  | jb_string (s : string)
  | jb_number (n : Z)
  | jb_array (l : list string).

Inductive jsonb :=
  | jb_scalar (v : jsonb_value)
  | jb_object (o : gmap string jsonb_value).

Global Instance jsonb_value_eq_dec : EqDecision jsonb_value.
Proof. solve_decision. Defined.
Global Instance jsonb_eq_dec : EqDecision jsonb.
Proof. solve_decision. Defined.

(** [CREATE TABLE public.buyer_history] *)
Record buyer_history := mkHistory {
  h_id : uuid;
  buyer_id : uuid;
  changed_by : option uuid;
  changed_at : timestamptz;
  diff : gmap string jsonb }.

(** [to_jsonb] of a column value *)
Definition of_text (s : string) : jsonb_value := jb_string s.
Definition of_nullable {A} (f : A -> jsonb_value) (v : option A) : jsonb_value :=
  match v with
  | Some x => f x
  | None => jb_null
  end.
Definition of_enum {A} `{PgEnum A} (v : A) : jsonb_value := jb_string (label v).

(** [a || b] on jsonb objects: the keys of [b] win. *)
Definition jsonb_concat (a b : gmap string jsonb) : gmap string jsonb := b ∪ a.

(** [jsonb_build_object(k, jsonb_build_object('old', o, 'new', n))] *)
Definition old_new (k : string) (o n : jsonb_value) : gmap string jsonb :=
  {[ k := jb_object (<["new" := n]> {[ "old" := o ]}) ]}.

(** [a IS DISTINCT FROM b]: inequality that treats NULL as a value. *)
Definition is_distinct_from {A} `{EqDecision A} (a b : A) : bool :=
  bool_decide (a ≠ b).

(** The body of [public.track_buyer_changes()] up to the final [IF]: the
    [changes] object built from [OLD] and [NEW]. *)
Definition track_buyer_changes_diff (OLD NEW : buyers) : gmap string jsonb :=
  let changes : gmap string jsonb := ∅ in
  let changes :=
    if is_distinct_from (full_name OLD) (full_name NEW)
    then jsonb_concat changes
           (old_new "full_name" (of_text (full_name OLD)) (of_text (full_name NEW)))
    else changes in
  let changes :=
    if is_distinct_from (email OLD) (email NEW)
    then jsonb_concat changes
           (old_new "email" (of_nullable of_text (email OLD))
              (of_nullable of_text (email NEW)))
    else changes in
  let changes :=
    if is_distinct_from (phone OLD) (phone NEW)
    then jsonb_concat changes
           (old_new "phone" (of_text (phone OLD)) (of_text (phone NEW)))
    else changes in
  let changes :=
    if is_distinct_from (city OLD) (city NEW)
    then jsonb_concat changes
           (old_new "city" (of_enum (city OLD)) (of_enum (city NEW)))
    else changes in
  let changes :=
    if is_distinct_from (property_type OLD) (property_type NEW)
    then jsonb_concat changes
           (old_new "property_type" (of_enum (property_type OLD))
              (of_enum (property_type NEW)))
    else changes in
  let changes :=
    if is_distinct_from (bhk OLD) (bhk NEW)
    then jsonb_concat changes
           (old_new "bhk" (of_nullable of_enum (bhk OLD))
              (of_nullable of_enum (bhk NEW)))
    else changes in
  let changes :=
    if is_distinct_from (purpose OLD) (purpose NEW)
    then jsonb_concat changes
           (old_new "purpose" (of_enum (purpose OLD)) (of_enum (purpose NEW)))
    else changes in
  let changes :=
    if is_distinct_from (budget_min OLD) (budget_min NEW)
    then jsonb_concat changes
           (old_new "budget_min" (of_nullable jb_number (budget_min OLD))
              (of_nullable jb_number (budget_min NEW)))
    else changes in
  let changes :=
    if is_distinct_from (budget_max OLD) (budget_max NEW)
    then jsonb_concat changes
           (old_new "budget_max" (of_nullable jb_number (budget_max OLD))
              (of_nullable jb_number (budget_max NEW)))
    else changes in
  let changes :=
    if is_distinct_from (timeline OLD) (timeline NEW)
    then jsonb_concat changes
           (old_new "timeline" (of_enum (timeline OLD)) (of_enum (timeline NEW)))
    else changes in
  let changes :=
    if is_distinct_from (source OLD) (source NEW)
    then jsonb_concat changes
           (old_new "source" (of_enum (source OLD)) (of_enum (source NEW)))
    else changes in
  let changes :=
    if is_distinct_from (status OLD) (status NEW)
    then jsonb_concat changes
           (old_new "status" (of_enum (status OLD)) (of_enum (status NEW)))
    else changes in
  let changes :=
    if is_distinct_from (notes OLD) (notes NEW)
    then jsonb_concat changes
           (old_new "notes" (of_nullable of_text (notes OLD))
              (of_nullable of_text (notes NEW)))
    else changes in
  let changes :=
    if is_distinct_from (tags OLD) (tags NEW)
    then jsonb_concat changes
           (old_new "tags" (of_nullable jb_array (tags OLD))
              (of_nullable jb_array (tags NEW)))
    else changes in
  changes.

(** The database: the two tables and the state of the identifier
    generator ([gen_random_uuid()] never repeats). *)
Record database := mkDb {
  tbl_buyers : list buyers;
  tbl_buyer_history : list buyer_history;
  next_uuid : uuid }.

(** [INSERT INTO public.buyer_history (buyer_id, changed_by, diff)] *)
Definition insert_history (uid : uuid) (now : timestamptz) (b : uuid)
    (d : gmap string jsonb) (db : database) : database :=
  mkDb (tbl_buyers db)
       (tbl_buyer_history db ++ [mkHistory (next_uuid db) b (Some uid) now d])
       (S (next_uuid db)).

(** [public.track_buyer_changes()], the AFTER UPDATE trigger. *)
Definition track_buyer_changes (uid : uuid) (now : timestamptz)
    (OLD NEW : buyers) (db : database) : database :=
  let changes := track_buyer_changes_diff OLD NEW in
  if bool_decide (changes ≠ ∅) then insert_history uid now (id NEW) changes db
  else db.

(** [public.log_buyer_creation()], the AFTER INSERT trigger. *)
Definition log_buyer_creation (uid : uuid) (now : timestamptz)
    (NEW : buyers) (db : database) : database :=
  insert_history uid now (id NEW)
    {[ "action" := jb_scalar (jb_string "created") ]} db.

(** [public.update_updated_at_column()], the BEFORE UPDATE trigger. *)
Definition update_updated_at_column (now : timestamptz) (NEW : buyers) : buyers :=
  mkBuyers (id NEW) (full_name NEW) (email NEW) (phone NEW) (city NEW)
    (property_type NEW) (bhk NEW) (purpose NEW) (budget_min NEW)
    (budget_max NEW) (timeline NEW) (source NEW) (status NEW) (notes NEW)
    (tags NEW) (owner_id NEW) (created_at NEW) now.

(** The pattern of the CHECK on [email], matched with [~*]:
    [^[A-Za-z0-9._%+-]+@[A-Za-z0-9.-]+\.[A-Za-z]{2,}$].  No class contains
    [@], so the local part ends at the first [@]; the last group has no dot,
    so it starts after the last dot. *)
Fixpoint splitAtFirst (c : ascii) (s : string) : option (string * string) :=
  match s with
  | EmptyString => None
  | String x s' =>
      if Ascii.eqb x c then Some (EmptyString, s')
      else match splitAtFirst c s' with
           | Some (p, q) => Some (String x p, q)
           | None => None
           end
  end.

Fixpoint splitAtLast (c : ascii) (s : string) : option (string * string) :=
  match s with
  | EmptyString => None
  | String x s' =>
      match splitAtLast c s' with
      | Some (p, q) => Some (String x p, q)
      | None => if Ascii.eqb x c then Some (EmptyString, s') else None
      end
  end.

Definition email_pattern (s : string) : bool :=
  let localChar c := isLetter c || isDigit c || hasChar c "._%+-" in
  let domainChar c := isLetter c || isDigit c || hasChar c ".-" in
  match splitAtFirst "@" s with
  | Some (loc, rest) =>
      match splitAtLast "." rest with
      | Some (dom, tld) =>
          (1 <=? String.length loc) && allChars localChar loc
          && (1 <=? String.length dom) && allChars domainChar dom
          && (2 <=? String.length tld) && allChars isLetter tld
      | None => false
      end
  | None => false
  end.

Inductive error :=
  | invalid_input (column : string)
  | not_null_violation (column : string)
  | check_violation (constraint : string)
  | row_level_security.

Global Instance error_eq_dec : EqDecision error.
Proof. solve_decision. Defined.

(** Statements either fail with an error or return: the error monad on
    [error + _]. *)
Global Instance error_ret : MRet (sum error) := fun A x => inr x.
Global Instance error_bind : MBind (sum error) := fun A B f m =>
  match m with
  | inl e => inl e
  | inr x => f x
  end.

(** The column CHECKs and the two table constraints of [buyers], in the
    order they are declared. *)
Definition null_or {A} (p : A -> bool) (v : option A) : bool :=
  match v with
  | Some x => p x
  | None => true
  end.

Definition check_constraints (r : buyers) : option error :=
  if negb ((2 <=? String.length (full_name r))
           && (String.length (full_name r) <=? 80))
  then Some (check_violation "buyers_full_name_check")
  else if negb (null_or email_pattern (email r))
  then Some (check_violation "buyers_email_check")
  else if negb (phoneRegex (phone r))
  then Some (check_violation "buyers_phone_check")
  else if negb (null_or (fun n => (0 <=? n)%Z) (budget_min r))
  then Some (check_violation "buyers_budget_min_check")
  else if negb (null_or (fun n => (0 <=? n)%Z) (budget_max r))
  then Some (check_violation "buyers_budget_max_check")
  else if negb (null_or (fun s => String.length s <=? 1000) (notes r))
  then Some (check_violation "buyers_notes_check")
  else if negb (match budget_min r, budget_max r with
                | Some lo, Some hi => (lo <=? hi)%Z
                | _, _ => true
                end)
  then Some (check_violation "budget_range_check")
  else if negb (match property_type r with
                | Apartment | Villa => bool_decide (bhk r ≠ None)
                | _ => true
                end)
  then Some (check_violation "bhk_requirement_check")
  else None.

(** Reading a JSON value into a column: an error when the value cannot be
    read as the column type, otherwise the value or SQL NULL. *)
Definition to_text (col : string) (v : JsValue) : error + option string :=
  match v with
  | JNull | JNaN => inr None
  | JString s => inr (Some s)
  | _ => inl (invalid_input col)
  end.

Definition to_integer (col : string) (v : JsValue) : error + option Z :=
  match v with
  | JNull | JNaN => inr None
  | JNumber n =>
      if ((- 2147483648 <=? n) && (n <=? 2147483647))%Z then inr (Some n)
      else inl (invalid_input col)
  | _ => inl (invalid_input col)
  end.

Definition to_enum {A} `{PgEnum A} (col : string) (v : JsValue)
    : error + option A :=
  match v with
  | JNull | JNaN => inr None
  | JString s =>
      match enum_in s with
      | Some x => inr (Some x)
      | None => inl (invalid_input col)
      end
  | _ => inl (invalid_input col)
  end.

Definition to_text_array (col : string) (v : JsValue)
    : error + option (list string) :=
  match v with
  | JNull | JNaN => inr None
  | JArray l => inr (Some l)
  | _ => inl (invalid_input col)
  end.

(** A property that is [undefined] is left out of the request body: the
    column keeps [current] (its DEFAULT on insert, its old value on update). *)
Definition column {A} (read : string -> JsValue -> error + option A)
    (col : string) (current : option A) (v : JsValue) : error + option A :=
  match v with
  | JUndefined => inr current
  | _ => read col v
  end.

Definition not_null {A} (col : string) (v : error + option A) : error + A :=
  match v with
  | inl e => inl e
  | inr None => inl (not_null_violation col)
  | inr (Some x) => inr x
  end.

(** The row that results from writing payload [p] over the column values
    [cur] ([cur] holds the defaults for an insert, the old row for an
    update); [None] in [cur] for a NOT NULL column means it has no default. *)
Definition assign (p : Payload.t) (rid owner : uuid) (created updated : timestamptz)
    (cur_full_name : option string) (cur_email : option string)
    (cur_phone : option string) (cur_city : option city_type)
    (cur_property_type : option property_type_enum) (cur_bhk : option bhk_type)
    (cur_purpose : option purpose_type) (cur_budget_min cur_budget_max : option Z)
    (cur_timeline : option timeline_type) (cur_source : option source_type)
    (cur_status : option status_type) (cur_notes : option string)
    (cur_tags : option (list string)) : error + buyers :=
  f_full_name ← not_null "full_name"
    (column to_text "full_name" cur_full_name (Payload.full_name p));
  f_email ← column to_text "email" cur_email (Payload.email p);
  f_phone ← not_null "phone"
    (column to_text "phone" cur_phone (Payload.phone p));
  f_city ← not_null "city"
    (column to_enum "city" cur_city (Payload.city p));
  f_property_type ← not_null "property_type"
    (column to_enum "property_type" cur_property_type (Payload.property_type p));
  f_bhk ← column to_enum "bhk" cur_bhk (Payload.bhk p);
  f_purpose ← not_null "purpose"
    (column to_enum "purpose" cur_purpose (Payload.purpose p));
  f_budget_min ← column to_integer "budget_min" cur_budget_min (Payload.budget_min p);
  f_budget_max ← column to_integer "budget_max" cur_budget_max (Payload.budget_max p);
  f_timeline ← not_null "timeline"
    (column to_enum "timeline" cur_timeline (Payload.timeline p));
  f_source ← not_null "source"
    (column to_enum "source" cur_source (Payload.source p));
  f_status ← not_null "status"
    (column to_enum "status" cur_status (Payload.status p));
  f_notes ← column to_text "notes" cur_notes (Payload.notes p);
  f_tags ← column to_text_array "tags" cur_tags (Payload.tags p);
  inr (mkBuyers rid f_full_name f_email f_phone f_city f_property_type f_bhk
         f_purpose f_budget_min f_budget_max f_timeline f_source f_status
         f_notes f_tags owner created updated).

(** [supabase.from('buyers').insert(row)] for one row, as user [uid] at time
    [now]: column defaults, the policy "Users can create buyers"
    ([auth.uid() = owner_id]), the CHECKs, then the AFTER INSERT trigger. *)
Definition insert_row (uid : uuid) (now : timestamptz)
    (row : Payload.t * uuid) (db : database) : error + database :=
  NEW ← assign row.1 (next_uuid db) row.2 now now
          None None None None None None None None None None None (Some New)
          None None;
  if negb (bool_decide (uid = owner_id NEW)) then inl row_level_security
  else match check_constraints NEW with
       | Some e => inl e
       | None =>
           inr (log_buyer_creation uid now NEW
                  (mkDb (tbl_buyers db ++ [NEW]) (tbl_buyer_history db)
                     (S (next_uuid db))))
       end.

(** [supabase.from('buyers').insert(rows)]: one statement, all rows or none. *)
Fixpoint insert_rows (uid : uuid) (now : timestamptz)
    (rows : list (Payload.t * uuid)) (db : database) : error + database :=
  match rows with
  | [] => inr db
  | row :: rest => db' ← insert_row uid now row db; insert_rows uid now rest db'
  end.

(** One row under [UPDATE public.buyers SET ... WHERE id = rid] as user
    [uid]: the policy "Users can update own buyers" hides the rows of other
    owners from the statement; on a visible row with that id the BEFORE
    UPDATE trigger stamps [updated_at], the CHECKs run, and the outcome is the
    new row with its old version. *)
Definition update_row (uid : uuid) (now : timestamptz) (rid : uuid)
    (p : Payload.t) (OLD : buyers) : error + (buyers * option buyers) :=
  if bool_decide (id OLD = rid) && bool_decide (owner_id OLD = uid) then
    NEW ← assign p (id OLD) (owner_id OLD) (created_at OLD) (updated_at OLD)
            (Some (full_name OLD)) (email OLD) (Some (phone OLD))
            (Some (city OLD)) (Some (property_type OLD)) (bhk OLD)
            (Some (purpose OLD)) (budget_min OLD) (budget_max OLD)
            (Some (timeline OLD)) (Some (source OLD)) (Some (status OLD))
            (notes OLD) (tags OLD);
    let NEW := update_updated_at_column now NEW in
    match check_constraints NEW with
    | Some e => inl e
    | None => inr (NEW, Some OLD)
    end
  else inr (OLD, None).

(** [supabase.from('buyers').update(p).eq('id', rid)]: every row is visited;
    the AFTER UPDATE trigger then runs for each row that was written. *)
Definition update_where_id (uid : uuid) (now : timestamptz) (rid : uuid)
    (p : Payload.t) (db : database) : error + database :=
  written ← mapM (update_row uid now rid p) (tbl_buyers db);
  inr (foldl (fun acc w =>
               match w.2 with
               | Some OLD => track_buyer_changes uid now OLD w.1 acc
               | None => acc
               end)
         (mkDb (written.*1) (tbl_buyer_history db) (next_uuid db))
         written).

(** [supabase.from('buyers').select('*')] (with the later policy "Users can
    read own buyers") [.order('updated_at', {ascending: false})] is left to
    the caller: the export below takes the selected rows as its input. *)

(** [supabase.from('buyers').select('*').eq('id', rid)] as user [uid]: the
    policy "Users can read own buyers" ([auth.uid() = owner_id]) hides the
    rows of other owners. *)
Definition select_where_id (uid rid : uuid) (db : database) : list buyers :=
  List.filter (fun r => bool_decide (id r = rid) && bool_decide (uid = owner_id r))
    (tbl_buyers db).

(** [.single()]: the row of a result that holds exactly one row; any other
    result is an error. *)
Definition single {A} (rows : list A) : option A :=
  match rows with
  | [r] => Some r
  | _ => None
  end.

(** [supabase.from('buyers').delete().eq('id', rid)] as user [uid]: the
    policy "Users can delete own buyers" hides the rows of other owners; the
    history rows of a deleted row go with it ([ON DELETE CASCADE]).  No
    trigger runs on DELETE and no constraint can refuse it. *)
Definition delete_where_id (uid rid : uuid) (db : database) : error + database :=
  let deleted r := bool_decide (id r = rid) && bool_decide (owner_id r = uid) in
  let gone := map id (List.filter deleted (tbl_buyers db)) in
  inr (mkDb (List.filter (fun r => negb (deleted r)) (tbl_buyers db))
         (List.filter (fun h => negb (bool_decide (buyer_id h ∈ gone)))
            (tbl_buyer_history db))
         (next_uuid db)).

End Sql.

(** ** src/lib/validations *)

Definition cityValues := ["Chandigarh"; "Mohali"; "Zirakpur"; "Panchkula"; "Other"].
Definition propertyTypeValues := ["Apartment"; "Villa"; "Plot"; "Office"; "Retail"].
Definition bhkValues := ["1"; "2"; "3"; "4"; "Studio"].
Definition purposeValues := ["Buy"; "Rent"].
Definition timelineValues := ["0-3m"; "3-6m"; ">6m"; "Exploring"].
Definition sourceValues := ["Website"; "Referral"; "Walk-in"; "Call"; "Other"].
Definition statusValues :=
  ["New"; "Qualified"; "Contacted"; "Visited"; "Negotiation"; "Converted"; "Dropped"].

Definition citySchema := Zod.z_enum cityValues.
Definition propertyTypeSchema := Zod.z_enum propertyTypeValues.
Definition bhkSchema := Zod.z_enum bhkValues.
Definition purposeSchema := Zod.z_enum purposeValues.
Definition timelineSchema := Zod.z_enum timelineValues.
Definition sourceSchema := Zod.z_enum sourceValues.
Definition statusSchema := Zod.z_enum statusValues.

(** The object both schemas read and produce: a candidate (each property
    any JavaScript value, [JUndefined] when the key is missing) and, after a
    parse, the typed record [Buyer] / [CsvBuyer]. *)
Record Buyer := mkBuyer {
  fullName : JsValue;
  email : JsValue;
  phone : JsValue;
  city : JsValue;
  propertyType : JsValue;
  bhk : JsValue;
  purpose : JsValue;
  budgetMin : JsValue;
  budgetMax : JsValue;
  timeline : JsValue;
  source : JsValue;
  status : JsValue;
  notes : JsValue;
  tags : JsValue }.

Global Instance Buyer_eq_dec : EqDecision Buyer.
Proof. solve_decision. Defined.

Inductive Key :=
  | KfullName | Kemail | Kphone | Kcity | KpropertyType | Kbhk | Kpurpose
  | KbudgetMin | KbudgetMax | Ktimeline | Ksource | Kstatus | Knotes | Ktags.

Global Instance Key_eq_dec : EqDecision Key.
Proof. solve_decision. Defined.

Definition keyName (k : Key) : string :=
  match k with
  | KfullName => "fullName" | Kemail => "email" | Kphone => "phone"
  | Kcity => "city" | KpropertyType => "propertyType" | Kbhk => "bhk"
  | Kpurpose => "purpose" | KbudgetMin => "budgetMin"
  | KbudgetMax => "budgetMax" | Ktimeline => "timeline"
  | Ksource => "source" | Kstatus => "status" | Knotes => "notes"
  | Ktags => "tags"
  end.

(** [data[k]] *)
Definition get (k : Key) (d : Buyer) : JsValue :=
  match k with
  | KfullName => fullName d | Kemail => email d | Kphone => phone d
  | Kcity => city d | KpropertyType => propertyType d | Kbhk => bhk d
  | Kpurpose => purpose d | KbudgetMin => budgetMin d
  | KbudgetMax => budgetMax d | Ktimeline => timeline d
  | Ksource => source d | Kstatus => status d | Knotes => notes d
  | Ktags => tags d
  end.

Definition fromKeys (f : Key -> JsValue) : Buyer :=
  mkBuyer (f KfullName) (f Kemail) (f Kphone) (f Kcity) (f KpropertyType)
    (f Kbhk) (f Kpurpose) (f KbudgetMin) (f KbudgetMax) (f Ktimeline)
    (f Ksource) (f Kstatus) (f Knotes) (f Ktags).

(** Key order of [buyerSchema] and of [csvBuyerSchema]. *)
Definition buyerKeys : list Key :=
  [KfullName; Kemail; Kphone; Kcity; KpropertyType; Kbhk; Kpurpose;
   KbudgetMin; KbudgetMax; Ktimeline; Ksource; Kstatus; Knotes; Ktags].
Definition csvBuyerKeys : list Key :=
  [KfullName; Kemail; Kphone; Kcity; KpropertyType; Kbhk; Kpurpose;
   KbudgetMin; KbudgetMax; Ktimeline; Ksource; Knotes; Ktags; Kstatus].

(** [z.object(shape)]: every key of the shape is parsed, in order, whatever
    the outcome of the keys before it; the issues are concatenated and the
    statuses merged. *)
Definition parseKey (shape : Key -> Zod.Schema) (d : Buyer) (k : Key)
    : Zod.ParseReturn JsValue :=
  shape k [keyName k] (get k d).

Definition z_object (keys : list Key) (shape : Key -> Zod.Schema)
    : Buyer -> Zod.ParseReturn Buyer := fun d =>
  let results := map (parseKey shape d) keys in
  let st := foldr Zod.mergeStatus Zod.valid (map Zod.status results) in
  Zod.mkReturn st
    (match st with
     | Zod.aborted => None
     | _ => Some (fromKeys (fun k =>
                    default JUndefined (Zod.value (parseKey shape d k))))
     end)
    (concat (map Zod.issues results)).

(** The closed examples run the schemas with the pattern of the table's
    CHECK on [email] as the email pattern, and with this reading of a string
    as a number: the digits of a string of decimal digits, 0 for the empty
    string, [NaN] otherwise. *)
Definition decimalStringToNumber (s : string) : JsValue :=
  if String.eqb s "" then JNumber 0
  else if digitsRegex s then parseInt s
  else JNaN.

(** ** src/components/buyers/BuyerForm: the tag editor and the BHK switch *)
Module BuyerForm.

(** The two pieces of component state the tag editor works on. *)
Record TagState := mkTagState {
  tagInput : string;
  tags : list string }.

Definition addTag (st : TagState) : TagState :=
  if truthy (JString (trim (tagInput st)))
     && negb (bool_decide (trim (tagInput st) ∈ tags st))
  then mkTagState "" (tags st ++ [trim (tagInput st)])
  else st.

Definition removeTag (tagToRemove : string) (st : TagState) : TagState :=
  mkTagState (tagInput st)
    (List.filter (fun tag => negb (String.eqb tag tagToRemove)) (tags st)).

(** [key] is [e.key]. *)
Definition handleTagKeyPress (key : string) (st : TagState) : TagState :=
  if String.eqb key "Enter" then addTag st else st.

(** What the user does to the tag editor: type into the input
    ([setTagInput(e.target.value)]), press a key in it, click "Add", click
    the cross of a tag. *)
Inductive TagEvent :=
  | onChange (value : string)
  | onKeyPress (key : string)
  | clickAdd
  | clickRemove (tag : string).

Definition handle (st : TagState) (e : TagEvent) : TagState :=
  match e with
  | onChange value => mkTagState value (tags st)
  | onKeyPress key => handleTagKeyPress key st
  | clickAdd => addTag st
  | clickRemove tag => removeTag tag st
  end.

(** [requiresBhk], from the watched [propertyType]: the BHK select is
    disabled unless it holds. *)
Definition requiresBhk (propertyType : JsValue) : bool :=
  strictEqString propertyType "Apartment" || strictEqString propertyType "Villa".

End BuyerForm.

(** ** URLSearchParams: a list of name-value pairs, in order *)
Module URLSearchParams.

Definition t := list (string * string).

(** [get(name)]: the value of the first pair with that name, or [null]. *)
Fixpoint get (name : string) (l : t) : option string :=
  match l with
  | [] => None
  | (k, v) :: rest => if String.eqb k name then Some v else get name rest
  end.

(** [delete(name)]: every pair with that name goes. *)
Definition delete (name : string) (l : t) : t :=
  List.filter (fun kv => negb (String.eqb kv.1 name)) l.

(** [set(name, value)]: the first pair with that name takes the value and
    the other pairs with that name go; without such a pair, one is appended. *)
Fixpoint set (name value : string) (l : t) : t :=
  match l with
  | [] => [(name, value)]
  | (k, v) :: rest =>
      if String.eqb k name then (name, value) :: delete name rest
      else (k, v) :: set name value rest
  end.

End URLSearchParams.

(** ** src/components/buyers/BuyersList: filters kept in the URL, paging *)
Module BuyersList.

Definition PAGE_SIZE : Z := 10.

(** [searchParams.get(name) || dflt] *)
Definition getOr (name dflt : string) (searchParams : URLSearchParams.t) : string :=
  match URLSearchParams.get name searchParams with
  | Some v => if truthy (JString v) then v else dflt
  | None => dflt
  end.

Definition currentPage (searchParams : URLSearchParams.t) : JsValue :=
  parseIntRadix (getOr "page" "1" searchParams) 10.
Definition searchQuery := getOr "search" "".
Definition cityFilter := getOr "city" "".
Definition propertyTypeFilter := getOr "propertyType" "".
Definition statusFilter := getOr "status" "".
Definition timelineFilter := getOr "timeline" "".

(** [updateFilters(newFilters)]: [newFilters] is given by its entries
    ([Object.entries], in insertion order); the result is what
    [setSearchParams] receives. *)
Definition updateFilters (searchParams : URLSearchParams.t)
    (newFilters : list (string * string)) : URLSearchParams.t :=
  fold_left (fun newSearchParams kv =>
               if truthy (JString kv.2)
               then URLSearchParams.set kv.1 kv.2 newSearchParams
               else URLSearchParams.delete kv.1 newSearchParams)
    newFilters searchParams.

(** The debounced search effect, once its timer fires. *)
Definition searchEffect (searchInput : string) (searchParams : URLSearchParams.t)
    : URLSearchParams.t :=
  if negb (String.eqb searchInput (searchQuery searchParams))
  then updateFilters searchParams [("search", searchInput); ("page", "1")]
  else searchParams.

(** [onValueChange] of the four selects; [name] is the filter's key. *)
Definition onValueChange (name value : string) (searchParams : URLSearchParams.t)
    : URLSearchParams.t :=
  updateFilters searchParams
    [(name, if truthy (JString value) then value else ""); ("page", "1")].

(** The rows [fetchBuyers] asks for: [query.range(from, to)]. *)
Definition from (page : Z) : Z := ((page - 1) * PAGE_SIZE)%Z.
Definition to (page : Z) : Z := (from page + PAGE_SIZE - 1)%Z.

Definition totalPages (totalCount : Z) : Z := ceilDiv totalCount PAGE_SIZE.

(** The pages the "previous" and "next" links lead to. *)
Definition previousPage (page : Z) : Z := Z.max 1 (page - 1).
Definition nextPage (totalCount page : Z) : Z :=
  Z.min (totalPages totalCount) (page + 1).

Definition onPrevious (page : Z) (searchParams : URLSearchParams.t)
    : URLSearchParams.t :=
  updateFilters searchParams [("page", numberToString (previousPage page))].
Definition onNext (totalCount page : Z) (searchParams : URLSearchParams.t)
    : URLSearchParams.t :=
  updateFilters searchParams [("page", numberToString (nextPage totalCount page))].
Definition onPageLink (page : Z) (searchParams : URLSearchParams.t)
    : URLSearchParams.t :=
  updateFilters searchParams [("page", numberToString page)].

End BuyersList.

Section App.

(** The pattern behind zod's [.email()] check (a constant of the zod
    package). *)
Variable emailRegex : string -> bool.

(** ECMAScript StringToNumber, used when [<] meets a string operand. *)
Variable StringToNumber : string -> JsValue.

Definition ToPrimitive (v : JsValue) : JsValue :=
  match v with
  | JArray l => JString (join "," l)
  | _ => v
  end.

Definition ToNumber (v : JsValue) : JsValue :=
  match v with
  | JUndefined | JNaN => JNaN
  | JNull => JNumber 0
  | JNumber _ => v
  | JString s => StringToNumber s
  | JArray l => StringToNumber (join "," l)
  end.

(** [a < b] *)
Definition jsLt (a b : JsValue) : bool :=
  match ToPrimitive a, ToPrimitive b with
  | JString s, JString t => String.ltb s t
  | pa, pb =>
      match ToNumber pa, ToNumber pb with
      | JNumber x, JNumber y => (x <? y)%Z
      | _, _ => false
      end
  end.

(** The two [.refine] predicates, shared by both schemas. *)
Definition bhkRefinement (data : Buyer) : bool :=
  if (strictEqString (propertyType data) "Apartment"
      || strictEqString (propertyType data) "Villa")
     && negb (truthy (bhk data))
  then false else true.

Definition budgetRefinement (data : Buyer) : bool :=
  if truthy (budgetMin data) && truthy (budgetMax data)
     && jsLt (budgetMax data) (budgetMin data)
  then false else true.

Definition buyerShape (k : Key) : Zod.Schema :=
  match k with
  | KfullName =>
      Zod.z_string [Zod.min 2 (Some "Name must be at least 2 characters");
                    Zod.max 80 (Some "Name must be at most 80 characters")]
  | Kemail =>
      Zod.z_or
        (Zod.z_optional
           (Zod.z_string [Zod.email emailRegex (Some "Invalid email format")]))
        (Zod.z_literal "")
  | Kphone =>
      Zod.z_string [Zod.regex phoneRegex (Some "Phone must be 10-15 digits")]
  | Kcity => citySchema
  | KpropertyType => propertyTypeSchema
  | Kbhk => Zod.z_optional bhkSchema
  | Kpurpose => purposeSchema
  | KbudgetMin =>
      Zod.z_optional (Zod.z_number_min 0 (Some "Budget must be positive"))
  | KbudgetMax =>
      Zod.z_optional (Zod.z_number_min 0 (Some "Budget must be positive"))
  | Ktimeline => timelineSchema
  | Ksource => sourceSchema
  | Kstatus => Zod.z_default statusSchema (JString "New")
  | Knotes =>
      Zod.z_or
        (Zod.z_optional
           (Zod.z_string
              [Zod.max 1000 (Some "Notes must be at most 1000 characters")]))
        (Zod.z_literal "")
  | Ktags => Zod.z_default (Zod.z_optional Zod.z_array_string) (JArray [])
  end.

Definition buyerSchema : Buyer -> Zod.ParseReturn Buyer :=
  Zod.z_refine
    (Zod.z_refine (z_object buyerKeys buyerShape)
       bhkRefinement
       (Some "BHK is required for Apartments and Villas") ["bhk"])
    budgetRefinement
    (Some "Maximum budget must be greater than or equal to minimum budget")
    ["budgetMax"].

Definition csvBudgetTransform (val : JsValue) : JsValue :=
  if strictEqString val "" then JUndefined
  else match val with
       | JString s => parseInt s
       | _ => JNaN
       end.

Definition csvTagsTransform (val : JsValue) : JsValue :=
  if truthy val then
    match val with
    | JString s => JArray (map trim (split "," s))
    | _ => JArray []
    end
  else JArray [].

Definition csvBuyerShape (k : Key) : Zod.Schema :=
  match k with
  | KfullName => Zod.z_string [Zod.min 2 None; Zod.max 80 None]
  | Kemail =>
      Zod.z_or (Zod.z_optional (Zod.z_string [Zod.email emailRegex None]))
               (Zod.z_literal "")
  | Kphone => Zod.z_string [Zod.regex phoneRegex None]
  | Kcity => citySchema
  | KpropertyType => propertyTypeSchema
  | Kbhk => Zod.z_or (Zod.z_optional bhkSchema) (Zod.z_literal "")
  | Kpurpose => purposeSchema
  | KbudgetMin =>
      Zod.z_optional
        (Zod.z_transform (Zod.z_string [Zod.regex digitsRegex None])
           csvBudgetTransform)
  | KbudgetMax =>
      Zod.z_optional
        (Zod.z_transform (Zod.z_string [Zod.regex digitsRegex None])
           csvBudgetTransform)
  | Ktimeline => timelineSchema
  | Ksource => sourceSchema
  | Knotes =>
      Zod.z_or (Zod.z_optional (Zod.z_string [Zod.max 1000 None]))
               (Zod.z_literal "")
  | Ktags => Zod.z_optional (Zod.z_transform (Zod.z_string []) csvTagsTransform)
  | Kstatus => Zod.z_default (Zod.z_optional statusSchema) (JString "New")
  end.

Definition csvBuyerSchema : Buyer -> Zod.ParseReturn Buyer :=
  Zod.z_refine
    (Zod.z_refine (z_object csvBuyerKeys csvBuyerShape)
       bhkRefinement None [])
    budgetRefinement None [].

(** The validator of the two entry paths: the form resolver runs
    [buyerSchema], the importer runs [csvBuyerSchema.parse]. *)
Inductive Mode := form | csv.

Definition schemaOf (m : Mode) : Buyer -> Zod.ParseReturn Buyer :=
  match m with
  | form => buyerSchema
  | csv => csvBuyerSchema
  end.

Definition shapeOf (m : Mode) : Key -> Zod.Schema :=
  match m with
  | form => buyerShape
  | csv => csvBuyerShape
  end.

Definition validate (m : Mode) (candidate : Buyer) : Buyer + list Zod.ZodIssue :=
  Zod.parse (schemaOf m) candidate.

(** ** What a handler leaves behind: toasts and a navigation target *)

Inductive Description :=
  | text (s : string)
  | error_message (e : Sql.error).

Record Toast := mkToast {
  title : string;
  description : Description;
  destructive : bool }.

Record PageResult := mkPageResult {
  page_db : Sql.database;
  page_toasts : list Toast;
  page_navigate : option string }.

(** A fetched row seen from JavaScript: text and enum columns are strings,
    integer columns numbers, NULL is [null]. *)
Definition js_nullable {A} (f : A -> JsValue) (v : option A) : JsValue :=
  match v with
  | Some x => f x
  | None => JNull
  end.
Definition js_enum {A} `{Sql.PgEnum A} (v : A) : JsValue := JString (Sql.label v).
Definition js_id (i : Sql.uuid) : string := numberToString (Z.of_nat i).

(** ** src/components/buyers/BuyerForm: submission

    The resolver validates the form values with [buyerSchema]; the page's
    [onSubmit] is called with the parsed data and the tag list of the
    component state, and only when validation succeeds. *)
Definition withTags (data : Buyer) (tagList : list string) : Buyer :=
  mkBuyer (fullName data) (email data) (phone data) (city data)
    (propertyType data) (bhk data) (purpose data) (budgetMin data)
    (budgetMax data) (timeline data) (source data) (status data) (notes data)
    (JArray tagList).

Definition handleFormSubmit {R} (onSubmit : Buyer -> R) (values : Buyer)
    (tagList : list string) : option R :=
  match validate form values with
  | inl data => Some (onSubmit (withTags data tagList))
  | inr _ => None
  end.

(** ** src/pages/NewBuyer: [handleSubmit] *)
Definition NewBuyer_row (data : Buyer) : Payload.t :=
  {| Payload.full_name := fullName data;
     Payload.email := jsOr (email data) JNull;
     Payload.phone := phone data;
     Payload.city := city data;
     Payload.property_type := propertyType data;
     Payload.bhk := jsOr (bhk data) JNull;
     Payload.purpose := purpose data;
     Payload.budget_min := jsOr (budgetMin data) JNull;
     Payload.budget_max := jsOr (budgetMax data) JNull;
     Payload.timeline := timeline data;
     Payload.source := source data;
     Payload.status := status data;
     Payload.notes := jsOr (notes data) JNull;
     Payload.tags := jsOr (tags data) (JArray []) |}.

Definition NewBuyer_handleSubmit (user : option Sql.uuid) (now : Sql.timestamptz)
    (data : Buyer) (db : Sql.database) : PageResult :=
  match user with
  | None => mkPageResult db [] None
  | Some uid =>
      match Sql.insert_rows uid now [(NewBuyer_row data, uid)] db with
      | inl error =>
          mkPageResult db [mkToast "Error" (error_message error) true] None
      | inr db' =>
          mkPageResult db'
            [mkToast "Success" (text "Buyer lead created successfully!") false]
            (Some "/buyers")
      end
  end.

(** ** src/pages/EditBuyer: [initialData] and [handleSubmit] *)
Record InitialData := mkInitialData {
  initialValues : Buyer;
  initial_id : Sql.uuid;
  updatedAt : Sql.timestamptz }.

Definition initialData (buyer : Sql.buyers) : InitialData :=
  {| initialValues :=
       {| fullName := JString (Sql.full_name buyer);
          email := jsOr (js_nullable JString (Sql.email buyer)) (JString "");
          phone := JString (Sql.phone buyer);
          city := js_enum (Sql.city buyer);
          propertyType := js_enum (Sql.property_type buyer);
          bhk := js_nullable js_enum (Sql.bhk buyer);
          purpose := js_enum (Sql.purpose buyer);
          budgetMin := jsOr (js_nullable JNumber (Sql.budget_min buyer)) JUndefined;
          budgetMax := jsOr (js_nullable JNumber (Sql.budget_max buyer)) JUndefined;
          timeline := js_enum (Sql.timeline buyer);
          source := js_enum (Sql.source buyer);
          status := js_enum (Sql.status buyer);
          notes := jsOr (js_nullable JString (Sql.notes buyer)) (JString "");
          tags := jsOr (js_nullable JArray (Sql.tags buyer)) (JArray []) |};
     initial_id := Sql.id buyer;
     updatedAt := Sql.updated_at buyer |}.

Definition EditBuyer_row (data : Buyer) : Payload.t :=
  {| Payload.full_name := fullName data;
     Payload.email := jsOr (email data) JNull;
     Payload.phone := phone data;
     Payload.city := city data;
     Payload.property_type := propertyType data;
     Payload.bhk := jsOr (bhk data) JNull;
     Payload.purpose := purpose data;
     Payload.budget_min := jsOr (budgetMin data) JNull;
     Payload.budget_max := jsOr (budgetMax data) JNull;
     Payload.timeline := timeline data;
     Payload.source := source data;
     Payload.status := status data;
     Payload.notes := jsOr (notes data) JNull;
     Payload.tags := jsOr (tags data) (JArray []) |}.

(** [buyer] is the row the page fetched when it was opened. *)
Definition EditBuyer_handleSubmit (buyer : option Sql.buyers)
    (user : option Sql.uuid) (now : Sql.timestamptz) (data : Buyer)
    (db : Sql.database) : PageResult :=
  match buyer, user with
  | Some buyer, Some uid =>
      match Sql.update_where_id uid now (Sql.id buyer) (EditBuyer_row data) db with
      | inl error =>
          mkPageResult db [mkToast "Error" (error_message error) true] None
      | inr db' =>
          mkPageResult db'
            [mkToast "Success" (text "Buyer lead updated successfully!") false]
            (Some ("/buyers/" +:+ js_id (Sql.id buyer)))
      end
  | _, _ => mkPageResult db [] None
  end.

(** ** src/pages/BuyerDetails and src/pages/EditBuyer: [fetchBuyer]

    Both pages load the Lead named by the route with the same function.
    The route parameter is taken as an identifier ([None] when the route has
    none); [PGRST116] is the message of the error PostgREST answers when
    [.single()] does not find exactly one row. *)

Record FetchState := mkFetchState {
  buyer : option Sql.buyers;
  loading : bool }.

Record FetchResult := mkFetchResult {
  fetch_state : FetchState;
  fetch_toasts : list Toast;
  fetch_navigate : option string }.

Definition fetchBuyer (PGRST116 : string) (id user : option Sql.uuid)
    (st : FetchState) (db : Sql.database) : FetchResult :=
  match id, user with
  | Some id, Some uid =>
      match Sql.single (Sql.select_where_id uid id db) with
      | Some data => mkFetchResult (mkFetchState (Some data) false) [] None
      | None =>
          mkFetchResult (mkFetchState (buyer st) false)
            [mkToast "Error" (text PGRST116) true] (Some "/buyers")
      end
  | _, _ => mkFetchResult st [] None
  end.

(** ** src/pages/BuyerDetails: [handleDelete]
    ([deleting] only disables the button and is left out). *)
Definition BuyerDetails_handleDelete (buyer : option Sql.buyers)
    (user : option Sql.uuid) (db : Sql.database) : PageResult :=
  match buyer, user with
  | Some buyer, Some uid =>
      match Sql.delete_where_id uid (Sql.id buyer) db with
      | inl error =>
          mkPageResult db [mkToast "Error" (error_message error) true] None
      | inr db' =>
          mkPageResult db'
            [mkToast "Success" (text "Buyer lead deleted successfully!") false]
            (Some "/buyers")
      end
  | _, _ => mkPageResult db [] None
  end.

(** ** src/components/buyers/BuyerImportExport *)

Record ImportError := mkImportError {
  row : nat;
  field : option string;
  message : option string }.

(** Component state ([importProgress], a percentage, only feeds the
    progress bar and is left out). *)
Record ImportState := mkImportState {
  importing : bool;
  importErrors : list ImportError;
  importSuccess : nat;
  csvData : list Buyer }.

(** What [Papa.parse(file, {header: true, skipEmptyLines: true})] calls back
    with: [complete(results)] with the data rows, or [error(error)]. *)
Inductive PapaResult :=
  | complete (data : list Buyer)
  | parse_error (msg : string).

(** [handleFileUpload]; [file] is [None] when no file was chosen. *)
Definition handleFileUpload (file : option PapaResult) (st : ImportState)
    : ImportState * list Toast :=
  match file with
  | None => (st, [])
  | Some parsed =>
      let reset := mkImportState (importing st) [] 0 [] in
      match parsed with
      | complete data =>
          if 200 <? length data then
            (reset, [mkToast "Error"
                       (text "CSV file cannot contain more than 200 rows") true])
          else (mkImportState (importing st) [] 0 data, [])
      | parse_error msg =>
          (reset,
           [mkToast "Error" (text ("Failed to parse CSV: " +:+ msg)) true])
      end
  end.

(** The [forEach] of [validateAndImportData]: the errors of the rows that do
    not parse, and the rows that do, stamped with the owner. *)
Fixpoint validateRows (uid : Sql.uuid) (index : nat) (rows : list Buyer)
    : list ImportError * list (Buyer * Sql.uuid) :=
  match rows with
  | [] => ([], [])
  | r :: rest =>
      let '(errors, validRows) := validateRows uid (S index) rest in
      match Zod.parse csvBuyerSchema r with
      | inl validated => (errors, (validated, uid) :: validRows)
      | inr issues =>
          (map (fun err =>
                  mkImportError (index + 1) (Some (join "." (Zod.path err)))
                    (Zod.message err)) issues ++ errors,
           validRows)
      end
  end.

(** "Transform to database format" *)
Definition dbRow (r : Buyer * Sql.uuid) : Payload.t * Sql.uuid :=
  ({| Payload.full_name := fullName r.1;
      Payload.email := jsOr (email r.1) JNull;
      Payload.phone := phone r.1;
      Payload.city := city r.1;
      Payload.property_type := propertyType r.1;
      Payload.bhk := jsOr (bhk r.1) JNull;
      Payload.purpose := purpose r.1;
      Payload.budget_min := jsOr (budgetMin r.1) JNull;
      Payload.budget_max := jsOr (budgetMax r.1) JNull;
      Payload.timeline := timeline r.1;
      Payload.source := source r.1;
      Payload.status := jsOr (status r.1) (JString "New");
      Payload.notes := jsOr (notes r.1) JNull;
      Payload.tags := jsOr (tags r.1) (JArray []) |}, r.2).

(** [for (i = 0; i < l.length; i += size) l.slice(i, i + size)] *)
Fixpoint slices {A} (fuel size : nat) (l : list A) : list (list A) :=
  match fuel with
  | O => []
  | S fuel' =>
      match l with
      | [] => []
      | _ => take size l :: slices fuel' size (drop size l)
      end
  end.

(** The insert loop: it stops at the first batch the database rejects;
    [clock n] is the time of the request sent after [n] rows were imported. *)
Fixpoint insertBatches (uid : Sql.uuid) (clock : nat -> Sql.timestamptz)
    (batches : list (list (Buyer * Sql.uuid))) (imported : nat)
    (db : Sql.database) : nat * Sql.database * option Sql.error :=
  match batches with
  | [] => (imported, db, None)
  | batch :: rest =>
      match Sql.insert_rows uid (clock imported) (map dbRow batch) db with
      | inl error => (imported, db, Some error)
      | inr db' => insertBatches uid clock rest (imported + length batch) db'
      end
  end.

Record ImportResult := mkImportResult {
  import_state : ImportState;
  import_db : Sql.database;
  import_toasts : list Toast;
  onImportComplete : bool }.

Definition validateAndImportData (user : option Sql.uuid)
    (clock : nat -> Sql.timestamptz) (st : ImportState) (db : Sql.database)
    : ImportResult :=
  match user, csvData st with
  | None, _ | _, [] => mkImportResult st db [] false
  | Some uid, _ =>
      let '(errors, validRows) := validateRows uid 0 (csvData st) in
      match validRows with
      | [] =>
          mkImportResult (mkImportState false errors 0 (csvData st)) db
            [mkToast "Import Failed" (text "No valid rows found to import") true]
            false
      | _ =>
          let batchSize := 10 in
          let '(imported, db', failure) :=
            insertBatches uid clock
              (slices (length validRows) batchSize validRows) 0 db in
          let st' := mkImportState false errors imported (csvData st) in
          match failure with
          | Some error =>
              mkImportResult st' db'
                [mkToast "Import Failed" (error_message error) true] false
          | None =>
              mkImportResult st' db'
                [mkToast "Import Complete"
                   (text ("Successfully imported "
                          +:+ numberToString (Z.of_nat imported)
                          +:+ " buyer leads")) false]
                (bool_decide (errors = []))
          end
      end
  end.





(** ** Notions used in the statements *)

Definition keysOf (m : Mode) : list Key :=
  match m with
  | form => buyerKeys
  | csv => csvBuyerKeys
  end.

(** The issue each refinement raises, per schema. *)
Definition bhkIssue (m : Mode) : Zod.ZodIssue :=
  match m with
  | form => Zod.mkIssue Zod.custom ["bhk"]
              (Some "BHK is required for Apartments and Villas")
  | csv => Zod.mkIssue Zod.custom [] None
  end.

Definition budgetIssue (m : Mode) : Zod.ZodIssue :=
  match m with
  | form => Zod.mkIssue Zod.custom ["budgetMax"]
              (Some "Maximum budget must be greater than or equal to minimum budget")
  | csv => Zod.mkIssue Zod.custom [] None
  end.

(** The errors a validation returns (none when it succeeds). *)
Definition errorsOf (r : Buyer + list Zod.ZodIssue) : list Zod.ZodIssue :=
  match r with
  | inl _ => []
  | inr issues => issues
  end.

(** An error is attributed to a field when its path is that field. *)
Definition attributedTo (k : Key) (err : Zod.ZodIssue) : Prop :=
  Zod.path err = [keyName k].

(** A field fails when its own schema does not accept its value. *)
Definition fieldFails (m : Mode) (candidate : Buyer) (k : Key) : bool :=
  negb (Zod.isValid (parseKey (shapeOf m) candidate k)).

(** No key of the object aborted its parse: no value is of the wrong type or
    outside its closed set, and no CSV budget cell holds anything but
    digits. *)
Definition typeChecks (m : Mode) (candidate : Buyer) : bool :=
  negb (Zod.isAborted (z_object (keysOf m) (shapeOf m) candidate)).

(** The object [z.object] hands to the refinements when no key aborted. *)
Definition parsedData (m : Mode) (candidate : Buyer) : Buyer :=
  fromKeys (fun k =>
    default JUndefined (Zod.value (parseKey (shapeOf m) candidate k))).

(** The issues a refinement may add, in order. *)
Definition ruleIssues (m : Mode) (candidate : Buyer) : list Zod.ZodIssue :=
  if typeChecks m candidate then
    (if bhkRefinement (parsedData m candidate) then [] else [bhkIssue m])
    ++ (if budgetRefinement (parsedData m candidate) then [] else [budgetIssue m])
  else [].

(** A schema is well behaved when a valid result carries no issue, any other
    result carries one, every issue sits at the path parsed, exactly the
    aborted results carry no value, and no issue has the code of a
    refinement. *)
Record well_behaved (s : Zod.Schema) : Prop := mkWellBehaved {
  wb_valid : forall p d,
    Zod.status (s p d) = Zod.valid -> Zod.issues (s p d) = [];
  wb_invalid : forall p d,
    Zod.status (s p d) <> Zod.valid -> Zod.issues (s p d) <> [];
  wb_path : forall p d,
    Forall (fun err => Zod.path err = p) (Zod.issues (s p d));
  wb_value : forall p d,
    Zod.value (s p d) = None <-> Zod.status (s p d) = Zod.aborted;
  wb_code : forall p d,
    Forall (fun err => Zod.code err <> Zod.custom) (Zod.issues (s p d)) }.

(** A field is absent when its key is missing or, in a CSV row, its cell is
    empty. *)
Definition absent (v : JsValue) : Prop := v = JUndefined \/ v = JString "".

(** [bhk] is absent or one of the five allowed values (an empty cell counts
    as absent in a CSV row only). *)
Definition bhkWellTyped (m : Mode) (v : JsValue) : Prop :=
  v = JUndefined \/ (exists s, s ∈ bhkValues /\ v = JString s)
  \/ (m = csv /\ v = JString "").

(** A budget is present with value [n], an integer JavaScript represents
    exactly: the number [n] in a form, a non-empty string of digits denoting
    [n] in a CSV row. *)
Definition MAX_SAFE_INTEGER : Z := 9007199254740991.

Definition budgetCell (m : Mode) (v : JsValue) (n : Z) : Prop :=
  (- MAX_SAFE_INTEGER <= n <= MAX_SAFE_INTEGER)%Z
  /\ match m with
     | form => v = JNumber n
     | csv => exists s, v = JString s /\ s <> "" /\ digitsRegex s = true
                        /\ Z.of_N (decimalValue s) = n
     end.

(** [tag] is [piece] without the white space at its two ends. *)
Definition trimmedFrom (piece tag : string) : Prop :=
  exists l r, piece = l +:+ tag +:+ r
              /\ allChars isWhiteSpace l = true
              /\ allChars isWhiteSpace r = true
              /\ startsWithWhiteSpace tag = false
              /\ endsWithWhiteSpace tag = false.

(** What the three write paths promise about a validated record [data] and
    the row [p] they send: a budget of 0 and an empty text are sent as
    [null]. *)
Definition sentAsNull (data : Buyer) (p : Payload.t) : Prop :=
  (budgetMin data = JNumber 0 -> Payload.budget_min p = JNull)
  /\ (budgetMax data = JNumber 0 -> Payload.budget_max p = JNull)
  /\ (email data = JString "" -> Payload.email p = JNull)
  /\ (notes data = JString "" -> Payload.notes p = JNull)
  /\ (bhk data = JString "" -> Payload.bhk p = JNull).

(** ... and the row [r] that is then written holds NULL there. *)
Definition storedAsNull (data : Buyer) (r : Sql.buyers) : Prop :=
  (budgetMin data = JNumber 0 -> Sql.budget_min r = None)
  /\ (budgetMax data = JNumber 0 -> Sql.budget_max r = None)
  /\ (email data = JString "" -> Sql.email r = None)
  /\ (notes data = JString "" -> Sql.notes r = None)
  /\ (bhk data = JString "" -> Sql.bhk r = None).

(** The fields of a Lead, as columns of [buyers]. *)
Inductive column :=
  | c_id | c_full_name | c_email | c_phone | c_city | c_property_type | c_bhk
  | c_purpose | c_budget_min | c_budget_max | c_timeline | c_source
  | c_status | c_notes | c_tags | c_owner_id | c_created_at | c_updated_at.

Definition column_name (c : column) : string :=
  match c with
  | c_id => "id" | c_full_name => "full_name" | c_email => "email"
  | c_phone => "phone" | c_city => "city"
  | c_property_type => "property_type" | c_bhk => "bhk"
  | c_purpose => "purpose" | c_budget_min => "budget_min"
  | c_budget_max => "budget_max" | c_timeline => "timeline"
  | c_source => "source" | c_status => "status" | c_notes => "notes"
  | c_tags => "tags" | c_owner_id => "owner_id"
  | c_created_at => "created_at" | c_updated_at => "updated_at"
  end.

(** The value of a column of a row, as [to_jsonb] shows it (identifiers and
    timestamps by the number that stands for them). *)
Definition column_value (c : column) (r : Sql.buyers) : Sql.jsonb_value :=
  match c with
  | c_id => Sql.jb_number (Z.of_nat (Sql.id r))
  | c_full_name => Sql.of_text (Sql.full_name r)
  | c_email => Sql.of_nullable Sql.of_text (Sql.email r)
  | c_phone => Sql.of_text (Sql.phone r)
  | c_city => Sql.of_enum (Sql.city r)
  | c_property_type => Sql.of_enum (Sql.property_type r)
  | c_bhk => Sql.of_nullable Sql.of_enum (Sql.bhk r)
  | c_purpose => Sql.of_enum (Sql.purpose r)
  | c_budget_min => Sql.of_nullable Sql.jb_number (Sql.budget_min r)
  | c_budget_max => Sql.of_nullable Sql.jb_number (Sql.budget_max r)
  | c_timeline => Sql.of_enum (Sql.timeline r)
  | c_source => Sql.of_enum (Sql.source r)
  | c_status => Sql.of_enum (Sql.status r)
  | c_notes => Sql.of_nullable Sql.of_text (Sql.notes r)
  | c_tags => Sql.of_nullable Sql.jb_array (Sql.tags r)
  | c_owner_id => Sql.jb_number (Z.of_nat (Sql.owner_id r))
  | c_created_at => Sql.jb_number (Sql.created_at r)
  | c_updated_at => Sql.jb_number (Sql.updated_at r)
  end.

Definition differs (c : column) (previous next : Sql.buyers) : bool :=
  bool_decide (column_value c previous <> column_value c next).

(** The mutable fields as the specification lists them (all but [id],
    [ownerId], [createdAt]) and the columns the trigger compares (those, less
    [updatedAt]). *)
Definition mutableAsListed (c : column) : bool :=
  match c with
  | c_id | c_owner_id | c_created_at => false
  | _ => true
  end.

Definition tracked (c : column) : bool :=
  match c with
  | c_id | c_owner_id | c_created_at | c_updated_at => false
  | _ => true
  end.

(** The diff entry of a field: [{old: previous value, new: next value}]. *)
Definition changeEntry (c : column) (previous next : Sql.buyers) : Sql.jsonb :=
  Sql.jb_object (<["new" := column_value c next]>
                   {[ "old" := column_value c previous ]}).

(** The data columns of a stored Lead as [select('*')] returns them. *)
Definition selected (r : Sql.buyers) : Payload.t :=
  {| Payload.full_name := JString (Sql.full_name r);
     Payload.email := js_nullable JString (Sql.email r);
     Payload.phone := JString (Sql.phone r);
     Payload.city := js_enum (Sql.city r);
     Payload.property_type := js_enum (Sql.property_type r);
     Payload.bhk := js_nullable js_enum (Sql.bhk r);
     Payload.purpose := js_enum (Sql.purpose r);
     Payload.budget_min := js_nullable JNumber (Sql.budget_min r);
     Payload.budget_max := js_nullable JNumber (Sql.budget_max r);
     Payload.timeline := js_enum (Sql.timeline r);
     Payload.source := js_enum (Sql.source r);
     Payload.status := js_enum (Sql.status r);
     Payload.notes := js_nullable JString (Sql.notes r);
     Payload.tags := js_nullable JArray (Sql.tags r) |}.



(** The "reject" example of the specification. *)
Definition rejectExample : Buyer :=
  {| fullName := JString "Jo"; email := JUndefined; phone := JString "12345";
     city := JString "Mohali"; propertyType := JString "Apartment";
     bhk := JUndefined; purpose := JString "Buy"; budgetMin := JUndefined;
     budgetMax := JUndefined; timeline := JString "0-3m";
     source := JString "Call"; status := JUndefined; notes := JUndefined;
     tags := JUndefined |}.

(** The "accept" example of the specification. *)
Definition acceptExample : Buyer :=
  {| fullName := JString "Jane Doe"; email := JUndefined;
     phone := JString "9876543210"; city := JString "Mohali";
     propertyType := JString "Plot"; bhk := JUndefined;
     purpose := JString "Buy"; budgetMin := JUndefined;
     budgetMax := JUndefined; timeline := JString "0-3m";
     source := JString "Referral"; status := JUndefined; notes := JUndefined;
     tags := JUndefined |}.

(** Form candidates used in the closed examples: the accept example with
    budgets 5 and 3, with budgets 5 and 0, with budgets -5 and -3, and an
    Apartment without [bhk] whose city is not in the closed set. *)
Definition minAboveMaxCandidate : Buyer :=
  {| fullName := JString "Jane Doe"; email := JUndefined;
     phone := JString "9876543210"; city := JString "Mohali";
     propertyType := JString "Plot"; bhk := JUndefined;
     purpose := JString "Buy"; budgetMin := JNumber 5;
     budgetMax := JNumber 3; timeline := JString "0-3m";
     source := JString "Referral"; status := JUndefined; notes := JUndefined;
     tags := JUndefined |}.

Definition zeroMaxCandidate : Buyer :=
  {| fullName := JString "Jane Doe"; email := JUndefined;
     phone := JString "9876543210"; city := JString "Mohali";
     propertyType := JString "Plot"; bhk := JUndefined;
     purpose := JString "Buy"; budgetMin := JNumber 5;
     budgetMax := JNumber 0; timeline := JString "0-3m";
     source := JString "Referral"; status := JUndefined; notes := JUndefined;
     tags := JUndefined |}.

Definition negativeBudgetsCandidate : Buyer :=
  {| fullName := JString "Jane Doe"; email := JUndefined;
     phone := JString "9876543210"; city := JString "Mohali";
     propertyType := JString "Plot"; bhk := JUndefined;
     purpose := JString "Buy"; budgetMin := JNumber (-5);
     budgetMax := JNumber (-3); timeline := JString "0-3m";
     source := JString "Referral"; status := JUndefined; notes := JUndefined;
     tags := JUndefined |}.

Definition unknownCityCandidate : Buyer :=
  {| fullName := JString "Jane Doe"; email := JUndefined;
     phone := JString "9876543210"; city := JString "Delhi";
     propertyType := JString "Apartment"; bhk := JUndefined;
     purpose := JString "Buy"; budgetMin := JNumber 5;
     budgetMax := JNumber 3; timeline := JString "0-3m";
     source := JString "Referral"; status := JUndefined; notes := JUndefined;
     tags := JUndefined |}.

(** CSV rows used in the closed examples: every cell is text. *)
Definition csvRowOf (propertyTypeCell bhkCell budgetMinCell budgetMaxCell
    tagsCell statusCell : string) : Buyer :=
  {| fullName := JString "John Doe"; email := JString "john@example.com";
     phone := JString "9876543210"; city := JString "Chandigarh";
     propertyType := JString propertyTypeCell; bhk := JString bhkCell;
     purpose := JString "Buy"; budgetMin := JString budgetMinCell;
     budgetMax := JString budgetMaxCell; timeline := JString "0-3m";
     source := JString "Website"; status := JString statusCell;
     notes := JString ""; tags := JString tagsCell |}.

Definition sampleCsvRow : Buyer :=
  csvRowOf "Apartment" "2" "5000000" "7000000" "urgent, family" "New".
Definition csvMinAboveMaxRow : Buyer :=
  csvRowOf "Plot" "" "5" "3" "" "New".
Definition csvApartmentNoBhkRow : Buyer :=
  csvRowOf "Apartment" "" "" "" "" "New".
Definition csvEmptyStatusRow : Buyer :=
  csvRowOf "Apartment" "2" "5000000" "7000000" "urgent, family" "".
Definition csvMissingStatusRow : Buyer :=
  {| fullName := fullName csvEmptyStatusRow; email := email csvEmptyStatusRow;
     phone := phone csvEmptyStatusRow; city := city csvEmptyStatusRow;
     propertyType := propertyType csvEmptyStatusRow;
     bhk := bhk csvEmptyStatusRow; purpose := purpose csvEmptyStatusRow;
     budgetMin := budgetMin csvEmptyStatusRow;
     budgetMax := budgetMax csvEmptyStatusRow;
     timeline := timeline csvEmptyStatusRow; source := source csvEmptyStatusRow;
     status := JUndefined; notes := notes csvEmptyStatusRow;
     tags := tags csvEmptyStatusRow |}.

(** Stored Leads used in the closed examples. *)
Definition storedLead (budget_min : option Z) (tagList : list string)
    (st : Sql.status_type) (updated : Sql.timestamptz) : Sql.buyers :=
  {| Sql.id := 1; Sql.full_name := "Asha Rao"; Sql.email := Some "asha@example.com";
     Sql.phone := "9876543210"; Sql.city := Sql.Mohali;
     Sql.property_type := Sql.Apartment; Sql.bhk := Some Sql.bhk_2;
     Sql.purpose := Sql.Buy; Sql.budget_min := budget_min;
     Sql.budget_max := Some 7000000%Z; Sql.timeline := Sql.m0_3;
     Sql.source := Sql.Referral; Sql.status := st; Sql.notes := None;
     Sql.tags := Some tagList; Sql.owner_id := 7; Sql.created_at := 100%Z;
     Sql.updated_at := updated |}.

Definition plainLead : Sql.buyers :=
  storedLead (Some 5000000%Z) ["urgent"; "family"] Sql.Qualified 100%Z.



(** One Lead edited by two sessions: the first session loaded [plainLead]
    (updated at 100); meanwhile the row was changed to Contacted at 200. *)
Definition concurrentlyChangedLead : Sql.buyers :=
  storedLead (Some 5000000%Z) ["urgent"; "family"] Sql.Contacted 200%Z.
Definition concurrentlyChangedDb : Sql.database :=
  Sql.mkDb [concurrentlyChangedLead] [] 2.

(** The values the first session submits: what it loaded, with a note. *)
Definition staleEdit : Buyer :=
  let loaded := initialValues (initialData plainLead) in
  {| fullName := fullName loaded; email := email loaded; phone := phone loaded;
     city := city loaded; propertyType := propertyType loaded;
     bhk := bhk loaded; purpose := purpose loaded;
     budgetMin := budgetMin loaded; budgetMax := budgetMax loaded;
     timeline := timeline loaded; source := source loaded;
     status := status loaded; notes := JString "Call back on Monday";
     tags := tags loaded |}.

Definition emptyDb : Sql.database := Sql.mkDb [] [] 1.

(** A validated form record with zero budgets and empty optional text, and
    201 copies of a row. *)
Definition zeroBudgetData : Buyer :=
  {| fullName := JString "Jane Doe"; email := JString "";
     phone := JString "9876543210"; city := JString "Mohali";
     propertyType := JString "Plot"; bhk := JUndefined;
     purpose := JString "Buy"; budgetMin := JNumber 0;
     budgetMax := JNumber 0; timeline := JString "0-3m";
     source := JString "Referral"; status := JString "New";
     notes := JString ""; tags := JArray [] |}.

Definition rows201 : list Buyer := replicate 201 sampleCsvRow.

Definition idleImport : ImportState := mkImportState false [] 0 [].

(** ** Further notions: what the schemas accept and what they return *)

Definition isText (P : string -> Prop) (v : JsValue) : Prop :=
  exists s, v = JString s /\ P s.
Definition oneOf (values : list string) (v : JsValue) : Prop :=
  exists s, v = JString s /\ s ∈ values.
Definition optionally (P : JsValue -> Prop) (v : JsValue) : Prop :=
  v = JUndefined \/ P v.
Definition isBudget (v : JsValue) : Prop :=
  exists n, v = JNumber n /\ (0 <= n)%Z.
Definition isArray (v : JsValue) : Prop := exists l, v = JArray l.

(** The values a schema accepts under a key: [buyerSchema] in form mode,
    [csvBuyerSchema] in csv mode. *)
Definition accepted (m : Mode) (k : Key) (v : JsValue) : Prop :=
  match k with
  | KfullName =>
      isText (fun s => 2 <= String.length s /\ String.length s <= 80) v
  | Kemail => optionally (isText (fun s => s = "" \/ emailRegex s = true)) v
  | Kphone => isText (fun s => phoneRegex s = true) v
  | Kcity => oneOf cityValues v
  | KpropertyType => oneOf propertyTypeValues v
  | Kbhk =>
      match m with
      | form => optionally (oneOf bhkValues) v
      | csv => optionally (fun v => oneOf bhkValues v \/ v = JString "") v
      end
  | Kpurpose => oneOf purposeValues v
  | KbudgetMin | KbudgetMax =>
      match m with
      | form => optionally isBudget v
      | csv => optionally (isText (fun s => digitsRegex s = true)) v
      end
  | Ktimeline => oneOf timelineValues v
  | Ksource => oneOf sourceValues v
  | Kstatus => optionally (oneOf statusValues) v
  | Knotes => optionally (isText (fun s => String.length s <= 1000)) v
  | Ktags =>
      match m with
      | form => optionally isArray v
      | csv => optionally (isText (fun _ => True)) v
      end
  end.

(** ... and the value it returns for an accepted value: the value itself,
    but for the defaults of [status] and of the form's [tags], and for the
    budget and tags cells of a CSV row, which are read as a number and as a
    list. *)
Definition orDefault (v dflt : JsValue) : JsValue :=
  match v with
  | JUndefined => dflt
  | _ => v
  end.

Definition normalised (m : Mode) (k : Key) (v : JsValue) : JsValue :=
  match k, m, v with
  | Kstatus, _, _ => orDefault v (JString "New")
  | Ktags, form, _ => orDefault v (JArray [])
  | Ktags, csv, JString s =>
      JArray (if String.eqb s "" then [] else map trim (split "," s))
  | (KbudgetMin | KbudgetMax), csv, JString s =>
      if String.eqb s "" then JUndefined else JNumber (Z.of_N (decimalValue s))
  | _, _, _ => v
  end.

Definition normalisedData (m : Mode) (values : Buyer) : Buyer :=
  fromKeys (fun k => normalised m k (get k values)).

(** The two cross-field rules, on accepted values: an Apartment or a Villa
    has a [bhk] that is present and not empty; two budgets that are both
    present and not 0 are in order. *)
Definition rulesHold (m : Mode) (values : Buyer) : Prop :=
  (propertyType values = JString "Apartment"
   \/ propertyType values = JString "Villa" -> truthy (bhk values) = true)
  /\ (forall lo hi,
        budgetMin (normalisedData m values) = JNumber lo ->
        budgetMax (normalisedData m values) = JNumber hi ->
        lo <> 0%Z -> hi <> 0%Z -> (lo <= hi)%Z).

(** The budget cells of a CSV row denote integers JavaScript represents
    exactly (numbers of a form do by convention). *)
Definition safeBudgets (m : Mode) (values : Buyer) : Prop :=
  m = csv ->
  forall k s, k = KbudgetMin \/ k = KbudgetMax -> get k values = JString s ->
              (Z.of_N (decimalValue s) <= MAX_SAFE_INTEGER)%Z.

(** The values either schema returns under a key: as accepted by
    [buyerSchema], but that [bhk] may be the empty text of an empty cell and
    [status] is never missing. *)
Definition returned (k : Key) (v : JsValue) : Prop :=
  match k with
  | Kbhk => accepted csv Kbhk v
  | Kstatus => oneOf statusValues v
  | _ => accepted form k v
  end.

(** What the table asks beyond the schemas: its own pattern for [email], and
    budgets that fit an INTEGER column. *)
Definition fitsTable (data : Buyer) : Prop :=
  (forall s, email data = JString s -> s <> "" -> Sql.email_pattern s = true)
  /\ (forall n, budgetMin data = JNumber n -> (n <= 2147483647)%Z)
  /\ (forall n, budgetMax data = JNumber n -> (n <= 2147483647)%Z).

(** The history row the AFTER INSERT trigger writes for the Lead [b]. *)
Definition createdEntry (h b uid : Sql.uuid) (now : Sql.timestamptz)
    : Sql.buyer_history :=
  Sql.mkHistory h b (Some uid) now
    {[ "action" := Sql.jb_scalar (Sql.jb_string "created") ]}.

(** ** Further notions: the database *)

(** The row an INSERT makes of payload [p]: every column without a default
    is NULL unless the payload names it, [status] defaults to ['New']. *)
Definition insertedRow (p : Payload.t) (rid owner : Sql.uuid)
    (now : Sql.timestamptz) : Sql.error + Sql.buyers :=
  Sql.assign p rid owner now now
    None None None None None None None None None None None (Some Sql.New)
    None None.

(** The row an UPDATE makes of [OLD] and payload [p], before the trigger
    stamps it. *)
Definition updatedRow (p : Payload.t) (OLD : Sql.buyers) : Sql.error + Sql.buyers :=
  Sql.assign p (Sql.id OLD) (Sql.owner_id OLD) (Sql.created_at OLD)
    (Sql.updated_at OLD)
    (Some (Sql.full_name OLD)) (Sql.email OLD) (Some (Sql.phone OLD))
    (Some (Sql.city OLD)) (Some (Sql.property_type OLD)) (Sql.bhk OLD)
    (Some (Sql.purpose OLD)) (Sql.budget_min OLD) (Sql.budget_max OLD)
    (Some (Sql.timeline OLD)) (Some (Sql.source OLD)) (Some (Sql.status OLD))
    (Sql.notes OLD) (Sql.tags OLD).

(** Integrity of the stored data: the CHECKs of [buyers], the primary keys
    of the two tables, the foreign key of [buyer_history], and identifiers
    that the generator has handed out. *)
Record consistent (db : Sql.database) : Prop := mkConsistent {
  rows_checked :
    Forall (fun r => Sql.check_constraints r = None) (Sql.tbl_buyers db);
  buyers_pkey : NoDup (map Sql.id (Sql.tbl_buyers db));
  buyers_generated :
    Forall (fun r => Sql.id r < Sql.next_uuid db) (Sql.tbl_buyers db);
  history_fkey :
    Forall (fun h => Sql.buyer_id h ∈ map Sql.id (Sql.tbl_buyers db))
      (Sql.tbl_buyer_history db);
  history_pkey : NoDup (map Sql.h_id (Sql.tbl_buyer_history db));
  history_generated :
    Forall (fun h => Sql.h_id h < Sql.next_uuid db) (Sql.tbl_buyer_history db) }.

(** The statements the pages send, and a sequence of requests, each by some
    user at some time; a statement that fails leaves the database as it
    was. *)
Inductive statement :=
  | st_insert (rows : list (Payload.t * Sql.uuid))
  | st_update (rid : Sql.uuid) (p : Payload.t)
  | st_delete (rid : Sql.uuid).

Definition execute (uid : Sql.uuid) (now : Sql.timestamptz) (s : statement)
    (db : Sql.database) : Sql.error + Sql.database :=
  match s with
  | st_insert rows => Sql.insert_rows uid now rows db
  | st_update rid p => Sql.update_where_id uid now rid p db
  | st_delete rid => Sql.delete_where_id uid rid db
  end.

Definition request : Type := Sql.uuid * Sql.timestamptz * statement.

Definition serve (db : Sql.database) (r : request) : Sql.database :=
  match execute r.1.1 r.1.2 r.2 db with
  | inr db' => db'
  | inl _ => db
  end.

Definition run (db : Sql.database) (requests : list request) : Sql.database :=
  foldl serve db requests.

(** ** Further notions: the import *)

(** The rows of a file that validate, as [csvBuyerSchema] returns them. *)
Definition validRowsOf (rows : list Buyer) : list Buyer :=
  omap (fun r => match validate csv r with
                 | inl data => Some data
                 | inr _ => None
                 end) rows.

(** [db'] is [db] with one more Lead per payload of [sent], in order: each
    is owned by [uid] and holds what was sent, and each has its "created"
    entry in the history. *)
Definition storedAs (uid : Sql.uuid) (sent : list Payload.t)
    (db db' : Sql.database) : Prop :=
  exists NEWs hs,
    Sql.tbl_buyers db' = Sql.tbl_buyers db ++ NEWs
    /\ map selected NEWs = sent
    /\ Forall (fun r => Sql.owner_id r = uid) NEWs
    /\ Sql.tbl_buyer_history db' = Sql.tbl_buyer_history db ++ hs
    /\ map Sql.buyer_id hs = map Sql.id NEWs
    /\ Forall (fun h => Sql.changed_by h = Some uid
                        /\ Sql.diff h
                           = {[ "action" := Sql.jb_scalar (Sql.jb_string "created") ]})
         hs.

(** The errors with which the table can refuse validated data. *)
Definition refusal (e : Sql.error) : Prop :=
  e = Sql.check_violation "buyers_email_check"
  \/ e = Sql.invalid_input "budget_min"
  \/ e = Sql.invalid_input "budget_max".

(** ** Further notions: the tag editor *)

(** A tidy tag list: no tag twice, no empty tag, no tag with white space at
    an end. *)
Definition tidy (l : list string) : Prop :=
  NoDup l /\ Forall (fun t => t <> "" /\ trim t = t) l.

(** ** Further notions: the edit page *)



(** ** Further examples *)

(** A second stored Lead, of another user: a Plot, without [bhk]; and a
    database with the Leads of the two users, each with its "created" entry
    in the history. *)
Definition neighbourLead : Sql.buyers :=
  {| Sql.id := 2; Sql.full_name := "Ravi Kumar"; Sql.email := None;
     Sql.phone := "9123456780"; Sql.city := Sql.Chandigarh;
     Sql.property_type := Sql.Plot; Sql.bhk := None; Sql.purpose := Sql.Buy;
     Sql.budget_min := None; Sql.budget_max := None;
     Sql.timeline := Sql.Exploring; Sql.source := Sql.Website;
     Sql.status := Sql.New; Sql.notes := None; Sql.tags := Some [];
     Sql.owner_id := 8; Sql.created_at := 100%Z; Sql.updated_at := 100%Z |}.

Definition twoOwnersDb : Sql.database :=
  Sql.mkDb [plainLead; neighbourLead]
    [createdEntry 3 1 7 100%Z; createdEntry 4 2 8 100%Z] 5.

(** A CSV row that validates and whose [budgetMin] does not fit an INTEGER
    column; a file of two rows of which the second does not validate. *)
Definition csvOverflowRow : Buyer :=
  csvRowOf "Plot" "" "3000000000" "" "" "New".

Definition mixedFile : ImportState :=
  mkImportState false [] 0 [sampleCsvRow; csvEmptyStatusRow].
Definition overflowFile : ImportState :=
  mkImportState false [] 0 [sampleCsvRow; csvOverflowRow].

(** * Properties *)

(** ** Strings *)

Example split_trim_join_examples :
  split "," "urgent, family" = ["urgent"; " family"]
  /\ split "," "" = [""] /\ split "," "a,,b" = ["a"; ""; "b"]
  /\ trim "  a b  " = "a b" /\ join "," ["a"; "b"; "c"] = "a,b,c"
  /\ join "," [] = "".
Proof. repeat split; reflexivity. Qed.

Example parseInt_examples :
  parseInt "5000000" = JNumber 5000000 /\ parseInt "007" = JNumber 7
  /\ parseInt "" = JNaN /\ parseInt " -12px" = JNumber (-12)
  /\ parseInt "0x1f" = JNumber 31
  /\ numberToString 5000000 = "5000000" /\ numberToString (-42) = "-42".
Proof. repeat split; reflexivity. Qed.

Example email_pattern_examples :
  Sql.email_pattern "john@example.com" = true
  /\ Sql.email_pattern "a.b%c@mail.example.org" = true
  /\ Sql.email_pattern "john@example" = false
  /\ Sql.email_pattern "@example.com" = false
  /\ Sql.email_pattern "john@example.c" = false.
Proof. repeat split; reflexivity. Qed.

Lemma split_nonempty sep s : split sep s <> [].
Proof. destruct s as [|c s]; simpl; [done|]. destruct (Ascii.eqb c sep); [done|]. by destruct (split sep s). Qed.

(** Joining the pieces of a split with the separator gives the string back. *)
Lemma join_split sep s : join (String sep EmptyString) (split sep s) = s.
Proof.
  induction s as [|c s IH]; simpl; [done|].
  destruct (Ascii.eqb c sep) eqn:E.
  - apply Ascii.eqb_eq in E as ->.
    pose proof (split_nonempty sep s) as Hne.
    destruct (split sep s) as [|p ps]; [done|].
    change (join (String sep "") ("" :: p :: ps))
      with (String sep (join (String sep "") (p :: ps))).
    by rewrite IH.
  - pose proof (split_nonempty sep s) as Hne.
    destruct (split sep s) as [|p ps]; [done|].
    destruct ps as [|q qs]; simpl in *; by rewrite <- IH.
Qed.

(** No piece of a split contains the separator. *)
Lemma split_no_sep sep s : Forall (fun p => hasChar sep p = false) (split sep s).
Proof.
  induction s as [|c s IH]; simpl; [by constructor|].
  destruct (Ascii.eqb c sep) eqn:E.
  - by constructor.
  - destruct (split sep s) as [|p ps].
    + constructor; [|done]. simpl. rewrite Ascii.eqb_sym, E. done.
    + inversion IH; subst. constructor; [|done].
      simpl. rewrite Ascii.eqb_sym, E. done.
Qed.




Lemma app_String c (a b : string) : String c a +:+ b = String c (a +:+ b).
Proof. reflexivity. Qed.

Lemma app_empty (b : string) : EmptyString +:+ b = b.
Proof. reflexivity. Qed.

(** [trim] removes white space at both ends and nothing else. *)
Lemma trimStart_spec s :
  exists l, s = l +:+ trimStart s /\ allChars isWhiteSpace l = true
            /\ startsWithWhiteSpace (trimStart s) = false.
Proof.
  induction s as [|c s (l & Hs & Hl & Hst)]; simpl.
  - by exists EmptyString.
  - destruct (isWhiteSpace c) eqn:E.
    + exists (String c l). rewrite app_String. simpl. rewrite E.
      split; [by f_equal|done].
    + exists EmptyString. simpl. by rewrite E, app_empty.
Qed.

Lemma trimEnd_spec s :
  exists r, s = trimEnd s +:+ r /\ allChars isWhiteSpace r = true
            /\ endsWithWhiteSpace (trimEnd s) = false.
Proof.
  induction s as [|c s (r & Hs & Hr & Hend)]; simpl.
  - by exists EmptyString.
  - destruct (trimEnd s) as [|d t] eqn:Et.
    + rewrite app_empty in Hs. subst r. destruct (isWhiteSpace c) eqn:E.
      * exists (String c s). rewrite app_empty. simpl. by rewrite E.
      * exists s. simpl. by rewrite E.
    + exists r. rewrite app_String. split; [by rewrite Hs at 1|].
      split; [done|]. exact Hend.
Qed.

Lemma trimEnd_start s :
  startsWithWhiteSpace s = false -> startsWithWhiteSpace (trimEnd s) = false.
Proof.
  destruct s as [|c s]; [done|]. cbn [startsWithWhiteSpace trimEnd]. intros Hc.
  destruct (trimEnd s); [rewrite Hc|]; exact Hc.
Qed.

Lemma string_app_assoc (a b c : string) : (a +:+ b) +:+ c = a +:+ (b +:+ c).
Proof. induction a as [|x a IH]; [done|]. by rewrite !app_String, IH. Qed.

Lemma trim_spec s :
  exists l r, s = l +:+ trim s +:+ r
              /\ allChars isWhiteSpace l = true /\ allChars isWhiteSpace r = true
              /\ startsWithWhiteSpace (trim s) = false
              /\ endsWithWhiteSpace (trim s) = false.
Proof.
  destruct (trimStart_spec s) as (l & Hs & Hl & Hst).
  destruct (trimEnd_spec (trimStart s)) as (r & Hs' & Hr & Hend).
  exists l, r. unfold trim. split; [|by auto using trimEnd_start].
  by rewrite <- Hs'.
Qed.

(** ** Decimal text of a number *)

Lemma digitChar_facts d :
  (d < 10)%N ->
  digitValue (digitChar d) = Some d /\ isDigit (digitChar d) = true.
Proof.
  intros H.
  assert (Hd : In d [0; 1; 2; 3; 4; 5; 6; 7; 8; 9]%N).
  { simpl. lia. }
  simpl in Hd. by repeat (destruct Hd as [<-|Hd]; [done|]).
Qed.

Lemma isDigit_facts c :
  isDigit c = true ->
  isWhiteSpace c = false /\ Ascii.eqb c "-" = false /\ Ascii.eqb c "+" = false
  /\ Ascii.eqb c "x" = false /\ Ascii.eqb c "X" = false
  /\ exists d, digitValue c = Some d /\ (d < 10)%N.
Proof.
  destruct c as [[] [] [] [] [] [] [] []]; vm_compute; intros H;
    first [discriminate H | repeat split; eexists; split; reflexivity].
Qed.

Lemma takeDigits_app s t :
  allChars isDigit s = true ->
  takeDigits 10 (s +:+ t) = takeDigits 10 s ++ takeDigits 10 t.
Proof.
  induction s as [|c s IH]; [done|]. cbn [allChars].
  intros [Hc Hs]%andb_true_iff. rewrite app_String. cbn [takeDigits].
  destruct (isDigit_facts c Hc) as (_ & _ & _ & _ & _ & d & -> & Hd).
  apply N.ltb_lt in Hd. rewrite Hd. by rewrite IH.
Qed.

Lemma digitsOf_app fuel n acc :
  digitsOf fuel n acc = digitsOf fuel n EmptyString +:+ acc.
Proof.
  revert n acc. induction fuel as [|fuel IH]; intros n acc; simpl; [done|].
  destruct (n / 10 =? 0)%N; [done|].
  rewrite (IH _ (String _ acc)), (IH _ (String _ EmptyString)).
  by rewrite string_app_assoc.
Qed.

Lemma allChars_app p s t :
  allChars p (s +:+ t) = allChars p s && allChars p t.
Proof.
  induction s as [|c s IH]; [done|].
  rewrite app_String. cbn [allChars]. by rewrite IH, andb_assoc.
Qed.

Lemma digitsOf_digits fuel n :
  allChars isDigit (digitsOf fuel n EmptyString) = true.
Proof.
  revert n. induction fuel as [|fuel IH]; intros n; simpl; [done|].
  assert (Hd : isDigit (digitChar (n mod 10)) = true).
  { apply digitChar_facts. apply N.mod_lt. lia. }
  destruct (n / 10 =? 0)%N; simpl; [by rewrite Hd|].
  rewrite digitsOf_app, allChars_app, IH. simpl. by rewrite Hd.
Qed.

Lemma digitsToN_snoc R ds d :
  digitsToN R (ds ++ [d]) = (R * digitsToN R ds + d)%N.
Proof. unfold digitsToN. by rewrite fold_left_app. Qed.

Lemma digitsOf_value fuel n :
  (n < 2 ^ N.of_nat fuel)%N -> fuel <> 0 ->
  decimalValue (digitsOf fuel n EmptyString) = n.
Proof.
  revert n. induction fuel as [|fuel IH]; intros n Hn Hf; [done|].
  cbn [digitsOf].
  assert (Hlt : (n mod 10 < 10)%N) by (apply N.mod_lt; lia).
  destruct (digitChar_facts _ Hlt) as [Hv _].
  pose proof Hlt as Hltb. apply N.ltb_lt in Hltb.
  pose proof (N.div_mod n 10) as Hdm.
  destruct (n / 10 =? 0)%N eqn:E.
  - apply N.eqb_eq in E. unfold decimalValue. cbn [takeDigits].
    rewrite Hv, Hltb. change [(n mod 10)%N] with ([] ++ [(n mod 10)%N]).
    rewrite digitsToN_snoc. unfold digitsToN. cbn [fold_left]. lia.
  - apply N.eqb_neq in E.
    rewrite digitsOf_app. unfold decimalValue.
    rewrite takeDigits_app by apply digitsOf_digits.
    cbn [takeDigits]. rewrite Hv, Hltb, digitsToN_snoc.
    fold (decimalValue (digitsOf fuel (n / 10) EmptyString)).
    assert (Hf' : fuel <> 0).
    { intros ->. assert (n / 10 = 0)%N; [|done].
      apply N.div_small. change (2 ^ N.of_nat 1)%N with 2%N in Hn. lia. }
    rewrite IH; [lia| |done].
    rewrite Nat2N.inj_succ, N.pow_succ_r' in Hn.
    apply N.Div0.div_lt_upper_bound. lia.
Qed.

Lemma digitsOf_nonempty fuel n : fuel <> 0 -> digitsOf fuel n EmptyString <> EmptyString.
Proof.
  destruct fuel as [|fuel]; [done|]. intros _. simpl.
  destruct (n / 10 =? 0)%N; [done|]. rewrite digitsOf_app.
  by destruct (digitsOf fuel (n / 10) EmptyString).
Qed.

(** [parseInt] reads a non-empty string of decimal digits as the number it
    denotes. *)
Lemma parseInt_digits s :
  s <> EmptyString -> allChars isDigit s = true ->
  parseInt s = JNumber (Z.of_N (decimalValue s)).
Proof.
  destruct s as [|c s]; [done|]. intros _ H.
  pose proof H as [Hc Hs]%andb_true_iff.
  destruct (isDigit_facts c Hc) as (Hw & Hm & Hp & _ & _ & d & Hv & Hd).
  unfold parseInt. simpl trimStart. rewrite Hw, Hm, Hp.
  assert (Hpre : match String c s with
                 | String c0 (String c1 r) =>
                     if Ascii.eqb c0 "0" && (Ascii.eqb c1 "x" || Ascii.eqb c1 "X")
                     then (16%N, r) else (10%N, String c s)
                 | _ => (10%N, String c s)
                 end = (10%N, String c s)).
  { destruct s as [|c1 r]; [done|]. simpl in Hs.
    apply andb_true_iff in Hs as [Hc1 _].
    destruct (isDigit_facts c1 Hc1) as (_ & _ & _ & -> & -> & _).
    by rewrite andb_false_r. }
  rewrite Hpre. unfold decimalValue.
  assert (Hne : takeDigits 10 (String c s) <> []).
  { simpl. rewrite Hv. apply N.ltb_lt in Hd. by rewrite Hd. }
  by destruct (takeDigits 10 (String c s)).
Qed.

Lemma numberToString_pos (p : positive) :
  let s := numberToString (Zpos p) in
  s <> EmptyString /\ allChars isDigit s = true
  /\ decimalValue s = Npos p.
Proof.
  change (numberToString (Z.pos p))
    with (digitsOf (S (N.to_nat (N.log2 (N.pos p)))) (N.pos p) EmptyString).
  cbv zeta. split; [by apply digitsOf_nonempty|].
  split; [apply digitsOf_digits|].
  apply digitsOf_value; [|done].
  rewrite Nat2N.inj_succ, N2Nat.id.
  apply N.log2_spec. lia.
Qed.


(** ** zod: every schema of the two shapes is well behaved *)

Create HintDb zod.

Lemma runStringCheck_path p s chk :
  Forall (fun err => Zod.path err = p /\ Zod.code err <> Zod.custom)
    (Zod.runStringCheck p s chk).
Proof.
  destruct chk; simpl;
    match goal with |- Forall _ (if ?b then _ else _) => destruct b end;
    by repeat constructor.
Qed.

Lemma z_string_issues p s checks :
  Forall (fun err => Zod.path err = p /\ Zod.code err <> Zod.custom)
    (flat_map (Zod.runStringCheck p s) checks).
Proof.
  induction checks as [|chk checks IH]; simpl; [constructor|].
  apply Forall_app. split; [apply runStringCheck_path|apply IH].
Qed.

Ltac wb_singleton := simpl; try done; by repeat constructor.

Lemma z_string_wb checks : well_behaved (Zod.z_string checks).
Proof.
  split; intros p d; unfold Zod.z_string.
  - destruct d; simpl; try done. by destruct (flat_map _ _).
  - destruct d; simpl; try done. by destruct (flat_map _ _).
  - destruct d; try wb_singleton. simpl.
    eapply Forall_impl; [apply z_string_issues|]. by intros ? [? ?].
  - destruct d; simpl; try done. split; [done|]. by destruct (flat_map _ _).
  - destruct d; try wb_singleton. simpl.
    eapply Forall_impl; [apply z_string_issues|]. by intros ? [? ?].
Qed.

Lemma z_number_min_wb lo msg : well_behaved (Zod.z_number_min lo msg).
Proof.
  split; intros p d; unfold Zod.z_number_min; destruct d; try wb_singleton;
    destruct (n <? lo)%Z; wb_singleton.
Qed.

Lemma z_enum_wb values : well_behaved (Zod.z_enum values).
Proof.
  split; intros p d; unfold Zod.z_enum; destruct d; try wb_singleton;
    case_bool_decide; wb_singleton.
Qed.

Lemma z_literal_wb lit : well_behaved (Zod.z_literal lit).
Proof.
  split; intros p d; unfold Zod.z_literal; destruct (strictEqString d lit);
    wb_singleton.
Qed.

Lemma z_array_string_wb : well_behaved Zod.z_array_string.
Proof.
  split; intros p d; unfold Zod.z_array_string; destruct d; wb_singleton.
Qed.

Lemma z_optional_wb s : well_behaved s -> well_behaved (Zod.z_optional s).
Proof.
  intros [Hv Hi Hp Hval Hc].
  split; intros p d; unfold Zod.z_optional; destruct d; simpl; auto; try done.
Qed.

Lemma z_default_wb s dflt : well_behaved s -> well_behaved (Zod.z_default s dflt).
Proof.
  intros [Hv Hi Hp Hval Hc].
  split; intros p d; unfold Zod.z_default; destruct d; simpl; auto.
Qed.

Lemma z_transform_wb s f : well_behaved s -> well_behaved (Zod.z_transform s f).
Proof.
  intros [Hv Hi Hp Hval Hc].
  split; intros p d; unfold Zod.z_transform;
    specialize (Hv p d); specialize (Hi p d); specialize (Hp p d);
    specialize (Hval p d); specialize (Hc p d);
    destruct (Zod.status (s p d)) eqn:Es, (Zod.value (s p d)) eqn:Ev;
    simpl; rewrite ?Es, ?Ev; auto; try done;
    by destruct Hval as [Hval _]; specialize (Hval eq_refl).
Qed.

Lemma z_or_wb a b : well_behaved a -> well_behaved b -> well_behaved (Zod.z_or a b).
Proof.
  intros [Hva Hia Hpa Hvala Hca] [Hvb Hib Hpb Hvalb Hcb].
  assert (Hcases : forall p d,
    Zod.z_or a b p d = a p d \/ Zod.z_or a b p d = b p d
    \/ (Zod.z_or a b p d = Zod.INVALID [Zod.mkIssue Zod.invalid_union p None])).
  { intros p d. unfold Zod.z_or, Zod.isValid.
    repeat case_bool_decide; auto.
    destruct (Zod.status (a p d)), (Zod.status (b p d)); auto. }
  split; intros p d; destruct (Hcases p d) as [-> | [-> | ->]]; auto;
    wb_singleton.
Qed.

#[local] Hint Resolve z_string_wb z_number_min_wb z_enum_wb z_literal_wb
  z_array_string_wb z_optional_wb z_default_wb z_transform_wb z_or_wb : zod.

Lemma shape_wb m k : well_behaved (shapeOf m k).
Proof.
  destruct m, k; simpl;
    unfold citySchema, propertyTypeSchema, bhkSchema, purposeSchema,
      timelineSchema, sourceSchema, statusSchema; auto 6 with zod.
Qed.

(** ** zod: objects, refinements, [parse] *)

Lemma mergeStatus_fold_aborted l :
  foldr Zod.mergeStatus Zod.valid l = Zod.aborted <-> In Zod.aborted l.
Proof.
  induction l as [|st l IH]; simpl; [by split|].
  rewrite <- IH.
  destruct st, (foldr Zod.mergeStatus Zod.valid l); simpl;
    split; intros; try done; auto; by destruct H.
Qed.

Lemma mergeStatus_fold_valid l :
  foldr Zod.mergeStatus Zod.valid l = Zod.valid <-> Forall (eq Zod.valid) l.
Proof.
  induction l as [|st l IH]; simpl; [by split|].
  rewrite Forall_cons, <- IH.
  destruct st, (foldr Zod.mergeStatus Zod.valid l); simpl;
    split; intros; try done; auto; by destruct H.
Qed.

Lemma z_object_issues keys shape d k err :
  k ∈ keys -> err ∈ Zod.issues (parseKey shape d k) ->
  err ∈ Zod.issues (z_object keys shape d).
Proof.
  intros Hk%list_elem_of_In Herr%list_elem_of_In. apply list_elem_of_In.
  unfold z_object. simpl. apply in_concat.
  exists (Zod.issues (parseKey shape d k)). split; [|done].
  rewrite map_map. apply in_map_iff. by exists k.
Qed.

Lemma z_object_aborted keys shape d :
  Zod.status (z_object keys shape d) = Zod.aborted
  <-> exists k, k ∈ keys /\ Zod.status (parseKey shape d k) = Zod.aborted.
Proof.
  unfold z_object. simpl. rewrite mergeStatus_fold_aborted, map_map, in_map_iff.
  split; intros (k & H1 & H2); exists k.
  - split; [by apply list_elem_of_In|done].
  - split; [done|by apply list_elem_of_In].
Qed.

Lemma z_object_valid keys shape d :
  Zod.status (z_object keys shape d) = Zod.valid
  <-> forall k, k ∈ keys -> Zod.status (parseKey shape d k) = Zod.valid.
Proof.
  unfold z_object. simpl.
  rewrite mergeStatus_fold_valid, map_map, Forall_forall. split.
  - intros H k Hk. symmetry. apply H, list_elem_of_In, in_map_iff.
    exists k. split; [done|by apply list_elem_of_In].
  - intros H st (k & <- & Hk)%list_elem_of_In%in_map_iff.
    symmetry. by apply H, list_elem_of_In.
Qed.

Lemma z_object_value keys shape d :
  Zod.value (z_object keys shape d)
  = if Zod.isAborted (z_object keys shape d) then None
    else Some (fromKeys (fun k =>
                 default JUndefined (Zod.value (parseKey shape d k)))).
Proof.
  unfold Zod.isAborted, z_object. simpl.
  by destruct (foldr Zod.mergeStatus Zod.valid _).
Qed.

Lemma parse_errors {A} (schema : A -> Zod.ParseReturn A) d :
  Zod.status (schema d) <> Zod.valid ->
  Zod.parse schema d = inr (Zod.issues (schema d)).
Proof.
  unfold Zod.parse. by destruct (Zod.status (schema d)), (Zod.value (schema d)).
Qed.

Lemma schemaOf_eq m :
  schemaOf m
  = Zod.z_refine
      (Zod.z_refine (z_object (keysOf m) (shapeOf m)) bhkRefinement
         (Zod.message (bhkIssue m)) (Zod.path (bhkIssue m)))
      budgetRefinement (Zod.message (budgetIssue m)) (Zod.path (budgetIssue m)).
Proof. by destruct m. Qed.

Lemma all_keys m k : k ∈ keysOf m.
Proof. destruct m, k; simpl; unfold buyerKeys, csvBuyerKeys; set_solver. Qed.

(** Two chained refinements over a parse result [r] whose value, unless it
    aborted, is [data]. *)
Lemma refine_twice {A} (r : Zod.ParseReturn A) (data d : A) c1 i1 c2 i2 :
  Zod.value r = (if Zod.isAborted r then None else Some data) ->
  let r2 := Zod.z_refine
              (Zod.z_refine (fun _ => r) c1 (Zod.message i1) (Zod.path i1))
              c2 (Zod.message i2) (Zod.path i2) d in
  Zod.code i1 = Zod.custom -> Zod.code i2 = Zod.custom ->
  Zod.issues r2
  = Zod.issues r
    ++ (if Zod.isAborted r then []
        else (if c1 data then [] else [i1]) ++ (if c2 data then [] else [i2]))
  /\ (Zod.status r2 = Zod.valid
      <-> Zod.status r = Zod.valid /\ c1 data = true /\ c2 data = true)
  /\ (Zod.status r2 = Zod.valid -> Zod.value r2 = Some data).
Proof.
  destruct r as [st v iss], i1 as [code1 p1 m1], i2 as [code2 p2 m2].
  unfold Zod.isAborted, Zod.z_refine. simpl. intros -> -> ->.
  destruct st; simpl; destruct (c1 data); simpl; destruct (c2 data); simpl;
    rewrite ?app_nil_r, <- ?app_assoc; (split; [done|]);
    (split; [|done]); split; intros; try done; by intuition.
Qed.

Lemma schemaOf_refine_twice m candidate :
  schemaOf m candidate
  = Zod.z_refine
      (Zod.z_refine (fun _ => z_object (keysOf m) (shapeOf m) candidate)
         bhkRefinement (Zod.message (bhkIssue m)) (Zod.path (bhkIssue m)))
      budgetRefinement (Zod.message (budgetIssue m)) (Zod.path (budgetIssue m))
      candidate.
Proof. by rewrite schemaOf_eq. Qed.

Lemma z_object_issues_eq keys shape d :
  Zod.issues (z_object keys shape d)
  = concat (map (fun k => Zod.issues (parseKey shape d k)) keys).
Proof. unfold z_object. simpl. by rewrite map_map. Qed.

(** Anatomy of a validation: the issues of the keys, in key order, then the
    issues of the two refinements, which run only if no key aborted. *)
Lemma schema_issues m candidate :
  Zod.issues (schemaOf m candidate)
  = concat (map (fun k => Zod.issues (parseKey (shapeOf m) candidate k)) (keysOf m))
    ++ ruleIssues m candidate.
Proof.
  rewrite schemaOf_refine_twice, <- z_object_issues_eq.
  unfold ruleIssues, typeChecks.
  destruct (refine_twice (z_object (keysOf m) (shapeOf m) candidate)
              (parsedData m candidate) candidate
              bhkRefinement (bhkIssue m) budgetRefinement (budgetIssue m))
    as (-> & _ & _); try (by destruct m).
  - apply z_object_value.
  - by destruct (Zod.isAborted _).
Qed.

Lemma schema_valid m candidate :
  Zod.status (schemaOf m candidate) = Zod.valid
  <-> (forall k, fieldFails m candidate k = false)
      /\ bhkRefinement (parsedData m candidate) = true
      /\ budgetRefinement (parsedData m candidate) = true.
Proof.
  rewrite schemaOf_refine_twice.
  destruct (refine_twice (z_object (keysOf m) (shapeOf m) candidate)
              (parsedData m candidate) candidate
              bhkRefinement (bhkIssue m) budgetRefinement (budgetIssue m))
    as (_ & -> & _); try (by destruct m); [apply z_object_value|].
  rewrite z_object_valid. unfold fieldFails, Zod.isValid.
  split; intros (H & Hb & Hbud); (split; [|done]); intros k.
  - rewrite H by apply all_keys. by rewrite bool_decide_true.
  - intros _. specialize (H k). by case_bool_decide.
Qed.

(** The errors [validate] returns are the issues of the schema. *)
Lemma errorsOf_validate m candidate :
  errorsOf (validate m candidate) = Zod.issues (schemaOf m candidate).
Proof.
  unfold validate.
  destruct (decide (Zod.status (schemaOf m candidate) = Zod.valid)) as [Hv|Hv].
  - assert (Hnil : Zod.issues (schemaOf m candidate) = []).
    { rewrite schema_issues. apply schema_valid in Hv as (Hk & Hb & Hbud).
      unfold ruleIssues. rewrite Hb, Hbud. simpl.
      replace (if typeChecks m candidate then [] else [])
        with (@nil Zod.ZodIssue) by (by destruct (typeChecks m candidate)).
      rewrite app_nil_r. apply concat_nil_Forall, List.Forall_map, Forall_forall.
      intros k _. apply shape_wb. specialize (Hk k).
      unfold fieldFails, Zod.isValid in Hk. by case_bool_decide. }
    unfold Zod.parse. rewrite Hnil, Hv.
    by destruct (Zod.value (schemaOf m candidate)).
  - by rewrite parse_errors.
Qed.

(** What [validate] returns on success is the object the keys parsed to. *)
Lemma validate_accepts m candidate data :
  validate m candidate = inl data -> data = parsedData m candidate.
Proof.
  unfold validate, Zod.parse.
  destruct (Zod.status (schemaOf m candidate)) eqn:Est; try done;
    [|by destruct (Zod.value _)..].
  rewrite schemaOf_refine_twice in *.
  destruct (refine_twice (z_object (keysOf m) (shapeOf m) candidate)
              (parsedData m candidate) candidate
              bhkRefinement (bhkIssue m) budgetRefinement (budgetIssue m))
    as (_ & _ & Hval); try (by destruct m); [apply z_object_value|].
  rewrite (Hval Est). congruence.
Qed.

Lemma validate_rejects m candidate :
  Zod.status (schemaOf m candidate) <> Zod.valid ->
  validate m candidate = inr (Zod.issues (schemaOf m candidate)).
Proof. apply parse_errors. Qed.

(** ** Record validator *)

Lemma failing_field_issue m candidate k :
  fieldFails m candidate k = true ->
  exists err, err ∈ Zod.issues (parseKey (shapeOf m) candidate k)
              /\ attributedTo k err.
Proof.
  unfold fieldFails, Zod.isValid, parseKey, attributedTo. intros H.
  destruct (shape_wb m k) as [_ Hi Hp _ _].
  specialize (Hi [keyName k] (get k candidate)).
  specialize (Hp [keyName k] (get k candidate)).
  destruct (Zod.issues (shapeOf m k [keyName k] (get k candidate)))
    as [|err rest].
  - exfalso. apply Hi; [|done]. by case_bool_decide.
  - exists err. split; [by left|]. by inversion Hp.
Qed.

Lemma key_issue_reported m candidate k err :
  err ∈ Zod.issues (parseKey (shapeOf m) candidate k) ->
  err ∈ Zod.issues (schemaOf m candidate).
Proof.
  intros Herr%list_elem_of_In. rewrite schema_issues.
  apply elem_of_app. left. apply list_elem_of_In, in_concat.
  exists (Zod.issues (parseKey (shapeOf m) candidate k)). split; [|done].
  apply in_map_iff. exists k. split; [done|].
  apply list_elem_of_In, all_keys.
Qed.


Lemma typeChecks_key m candidate k :
  typeChecks m candidate = true ->
  Zod.status (parseKey (shapeOf m) candidate k) <> Zod.aborted.
Proof.
  unfold typeChecks, Zod.isAborted. intros H Hk.
  case_bool_decide as Hab; [done|]. apply Hab, z_object_aborted.
  exists k. split; [apply all_keys|done].
Qed.

Lemma keyName_inj k k' : keyName k = keyName k' -> k = k'.
Proof. by destruct k, k'. Qed.

(** [propertyType] and [bhk] reach the refinements as they were given. *)
Lemma parsed_propertyType m candidate :
  Zod.status (parseKey (shapeOf m) candidate KpropertyType) <> Zod.aborted ->
  propertyType (parsedData m candidate) = propertyType candidate.
Proof.
  unfold parsedData, parseKey. destruct m; simpl;
    unfold propertyTypeSchema, Zod.z_enum;
    destruct (propertyType candidate); simpl; try done;
    by case_bool_decide.
Qed.

Lemma parsed_bhk m candidate :
  Zod.status (parseKey (shapeOf m) candidate Kbhk) <> Zod.aborted ->
  bhk (parsedData m candidate) = bhk candidate.
Proof.
  unfold parsedData, parseKey. destruct m; simpl;
    unfold Zod.z_or, Zod.z_optional, Zod.z_literal, bhkSchema, Zod.z_enum,
      Zod.isValid;
    destruct (bhk candidate) as [| | | |s|]; simpl; try done;
    destruct (bool_decide (s ∈ bhkValues)); simpl; try done;
    destruct (String.eqb s "") eqn:E; simpl; done.
Qed.

Lemma parsed_bhkRefinement m candidate :
  typeChecks m candidate = true ->
  bhkRefinement (parsedData m candidate) = bhkRefinement candidate.
Proof.
  intros H. unfold bhkRefinement.
  by rewrite parsed_propertyType, parsed_bhk by by apply typeChecks_key.
Qed.

Lemma parsed_budget m candidate k n :
  k = KbudgetMin \/ k = KbudgetMax ->
  budgetCell m (get k candidate) n -> (0 <= n)%Z ->
  parseKey (shapeOf m) candidate k = Zod.OK (JNumber n).
Proof.
  unfold parseKey, budgetCell.
  intros Hk [_ Hcell] Hn. destruct m.
  - destruct Hk as [-> | ->]; simpl in *; rewrite Hcell; simpl;
      unfold Zod.z_number_min;
      by destruct (Z.ltb_spec n 0); [lia|].
  - destruct Hcell as (s & Hs & Hne & Hd & <-).
    assert (Hparse :
      Zod.z_optional
        (Zod.z_transform (Zod.z_string [Zod.regex digitsRegex None])
           csvBudgetTransform) [keyName k] (JString s)
      = Zod.OK (JNumber (Z.of_N (decimalValue s)))).
    { unfold Zod.z_optional, Zod.z_transform, Zod.z_string. simpl.
      rewrite Hd. simpl. unfold csvBudgetTransform. simpl.
      destruct (String.eqb_spec s ""); [done|].
      by rewrite parseInt_digits. }
    destruct Hk as [-> | ->]; simpl in *; by rewrite Hs.
Qed.

Lemma rule_issue_reported m candidate err :
  err ∈ ruleIssues m candidate -> err ∈ Zod.issues (schemaOf m candidate).
Proof. intros H. rewrite schema_issues. apply elem_of_app. by right. Qed.

Lemma issues_inv m candidate err :
  err ∈ Zod.issues (schemaOf m candidate) ->
  (exists k, err ∈ Zod.issues (parseKey (shapeOf m) candidate k)
             /\ attributedTo k err /\ Zod.code err <> Zod.custom)
  \/ err ∈ ruleIssues m candidate.
Proof.
  rewrite schema_issues. intros [H|H]%elem_of_app; [left|by right].
  apply list_elem_of_In, in_concat in H as (l & Hl & Herr).
  apply in_map_iff in Hl as (k & <- & _). exists k.
  apply list_elem_of_In in Herr. split; [done|].
  destruct (shape_wb m k) as [_ _ Hp _ Hc]. unfold parseKey in *.
  specialize (Hp [keyName k] (get k candidate)).
  specialize (Hc [keyName k] (get k candidate)).
  rewrite Forall_forall in Hp, Hc. split; [by apply Hp|by apply Hc].
Qed.

Lemma bhk_wellTyped_ok m candidate :
  bhkWellTyped m (bhk candidate) ->
  Zod.issues (parseKey (shapeOf m) candidate Kbhk) = [].
Proof.
  unfold parseKey, bhkWellTyped. cbn [get].
  intros [-> | [(s & Hs & ->) | [-> ->]]]; [by destruct m| |done].
  destruct m; simpl;
    unfold Zod.z_or, Zod.z_optional, bhkSchema, Zod.z_enum, Zod.isValid;
    simpl; rewrite (bool_decide_true (s ∈ bhkValues)) by exact Hs; done.
Qed.


(** C6 (amended). In both modes, when no field is of the wrong type or
    outside its closed set, [propertyType] is Apartment or Villa and [bhk] is
    absent, validation fails and the error list holds the error of the BHK
    rule, which in form mode is attributed to [bhk].  When [propertyType] is
    Plot, Office or Retail and [bhk] is absent or one of its allowed values, no
    error is attributed to [bhk]. *)
Theorem bhk_rule :
  (forall m candidate,
     typeChecks m candidate = true ->
     propertyType candidate = JString "Apartment"
     \/ propertyType candidate = JString "Villa" ->
     absent (bhk candidate) ->
     exists issues,
       validate m candidate = inr issues
       /\ bhkIssue m ∈ issues
       /\ (m = form -> attributedTo Kbhk (bhkIssue m)))
  /\ (forall m candidate err,
        propertyType candidate = JString "Plot"
        \/ propertyType candidate = JString "Office"
        \/ propertyType candidate = JString "Retail" ->
        bhkWellTyped m (bhk candidate) ->
        err ∈ errorsOf (validate m candidate) ->
        ~ attributedTo Kbhk err).
Proof.
  split.
  - intros m candidate Htc Hpt Habs.
    assert (Hrule : bhkRefinement (parsedData m candidate) = false).
    { rewrite parsed_bhkRefinement by done. unfold bhkRefinement.
      destruct Hpt as [-> | ->], Habs as [-> | ->]; done. }
    exists (Zod.issues (schemaOf m candidate)). split; [|split].
    + apply validate_rejects. intros (_ & Hb & _)%schema_valid. congruence.
    + apply rule_issue_reported. unfold ruleIssues. rewrite Htc, Hrule.
      by left.
    + by intros ->.
  - intros m candidate err Hpt Hbhk Herr Hat.
    rewrite errorsOf_validate in Herr.
    apply issues_inv in Herr as [(k & Hin & Hk & _) | Hrule].
    + unfold attributedTo in *. rewrite Hat in Hk. injection Hk as Hk.
      apply (keyName_inj Kbhk) in Hk as <-.
      rewrite bhk_wellTyped_ok in Hin by done. by apply elem_of_nil in Hin.
    + unfold ruleIssues in Hrule.
      destruct (typeChecks m candidate) eqn:Htc; [|by apply elem_of_nil in Hrule].
      rewrite parsed_bhkRefinement in Hrule by done.
      assert (Hb : bhkRefinement candidate = true).
      { unfold bhkRefinement. by destruct Hpt as [-> | [-> | ->]]. }
      rewrite Hb in Hrule. simpl in Hrule.
      destruct (budgetRefinement _); [by apply elem_of_nil in Hrule|].
      apply list_elem_of_singleton in Hrule as ->. by destruct m.
Qed.

(** A budget that is present reaches the refinements as its number, whether
    or not it is in range. *)
Lemma parsed_budget_value m candidate k n :
  k = KbudgetMin \/ k = KbudgetMax ->
  budgetCell m (get k candidate) n ->
  Zod.value (parseKey (shapeOf m) candidate k) = Some (JNumber n).
Proof.
  intros Hk Hcell. destruct m.
  - destruct Hcell as [_ Hcell]. unfold parseKey.
    destruct Hk as [-> | ->]; simpl in *; rewrite Hcell; simpl;
      unfold Zod.z_number_min; by destruct (n <? 0)%Z.
  - rewrite (parsed_budget csv candidate k n Hk Hcell); [done|].
    destruct Hcell as [_ (s & _ & _ & _ & <-)]. lia.
Qed.

Lemma parsed_budgetRefinement m candidate lo hi :
  budgetCell m (budgetMin candidate) lo ->
  budgetCell m (budgetMax candidate) hi ->
  budgetRefinement (parsedData m candidate)
  = negb (negb (lo =? 0)%Z && negb (hi =? 0)%Z && (hi <? lo)%Z).
Proof.
  intros Hlo Hhi.
  pose proof (parsed_budget_value m candidate KbudgetMin lo (or_introl eq_refl)
                Hlo) as Hmin.
  pose proof (parsed_budget_value m candidate KbudgetMax hi (or_intror eq_refl)
                Hhi) as Hmax.
  unfold budgetRefinement, parsedData. cbn [budgetMin budgetMax fromKeys].
  rewrite Hmin, Hmax. cbn [default from_option id truthy].
  change (jsLt (JNumber hi) (JNumber lo)) with (hi <? lo)%Z.
  by destruct (negb (lo =? 0)%Z && negb (hi =? 0)%Z && (hi <? lo)%Z).
Qed.

(** C3 (amended). In both modes, for a candidate in which both budgets are
    present: if [budgetMax < budgetMin], neither budget is 0 and no field is
    of the wrong type or outside its closed set, validation fails and the
    error list holds the error of the budget rule, which in form mode is
    attributed to [budgetMax]; if [budgetMax >= budgetMin] and [budgetMin] is
    not negative (zeros included, whatever the other fields hold), no error
    is attributed to [budgetMin] or [budgetMax], and no rule error is raised
    at all when the BHK rule is satisfied. *)
Theorem budget_rule m candidate lo hi :
  budgetCell m (budgetMin candidate) lo ->
  budgetCell m (budgetMax candidate) hi ->
  ((hi < lo)%Z -> lo <> 0%Z -> hi <> 0%Z ->
   typeChecks m candidate = true ->
     exists issues,
       validate m candidate = inr issues
       /\ budgetIssue m ∈ issues
       /\ (m = form -> attributedTo KbudgetMax (budgetIssue m)))
  /\ ((lo <= hi)%Z -> (0 <= lo)%Z ->
      forall err,
        err ∈ errorsOf (validate m candidate) ->
        ~ attributedTo KbudgetMin err /\ ~ attributedTo KbudgetMax err
        /\ (bhkRefinement candidate = true -> Zod.code err <> Zod.custom)).
Proof.
  intros Hlo Hhi.
  pose proof (parsed_budgetRefinement m candidate lo hi Hlo Hhi) as Hrule.
  split.
  - intros Hlt Hlo0 Hhi0 Htc. apply Z.ltb_lt in Hlt.
    apply Z.eqb_neq in Hlo0, Hhi0. rewrite Hlt, Hlo0, Hhi0 in Hrule.
    cbn [negb andb] in Hrule.
    exists (Zod.issues (schemaOf m candidate)). split; [|split].
    + apply validate_rejects. intros (_ & _ & Hb)%schema_valid.
      rewrite Hb in Hrule. done.
    + apply rule_issue_reported. unfold ruleIssues. rewrite Htc, Hrule.
      apply elem_of_app. right. by left.
    + by intros ->.
  - intros Hle Hlo0 err Herr. apply Z.ltb_ge in Hle.
    rewrite Hle, andb_false_r in Hrule. cbn [negb] in Hrule.
    pose proof (parsed_budget m candidate KbudgetMin lo (or_introl eq_refl) Hlo
                  Hlo0) as Hmin.
    pose proof (parsed_budget m candidate KbudgetMax hi (or_intror eq_refl) Hhi
                  ltac:(apply Z.ltb_ge in Hle; lia)) as Hmax.
    rewrite errorsOf_validate in Herr.
    apply issues_inv in Herr as [(k & Hin & Hk & Hcode) | Herr].
    + unfold attributedTo in *. split; [|split; [|done]]; intros Hat;
        rewrite Hat in Hk; injection Hk as Hk.
      * apply (keyName_inj KbudgetMin) in Hk as <-.
        rewrite Hmin in Hin. by apply elem_of_nil in Hin.
      * apply (keyName_inj KbudgetMax) in Hk as <-.
        rewrite Hmax in Hin. by apply elem_of_nil in Hin.
    + unfold ruleIssues in Herr.
      destruct (typeChecks m candidate) eqn:Htc; [|by apply elem_of_nil in Herr].
      rewrite Hrule, app_nil_r in Herr.
      rewrite parsed_bhkRefinement in Herr by done.
      destruct (bhkRefinement candidate); [by apply elem_of_nil in Herr|].
      apply list_elem_of_singleton in Herr as ->. by destruct m.
Qed.

Lemma string_nonempty_eqb s : s <> EmptyString -> String.eqb s "" = false.
Proof. by destruct s. Qed.

(** ** CSV adapter *)

Lemma csv_tags_parsed r s :
  tags r = JString s ->
  tags (parsedData csv r)
  = JArray (if String.eqb s "" then [] else map trim (split "," s)).
Proof.
  intros H. unfold parsedData, parseKey. cbn [tags fromKeys get]. rewrite H.
  unfold shapeOf, csvBuyerShape, Zod.z_optional, Zod.z_transform, Zod.z_string,
    csvTagsTransform.
  simpl. by destruct (String.eqb s "").
Qed.

Lemma Forall2_map_trim l : Forall2 trimmedFrom l (map trim l).
Proof.
  induction l as [|x l IH]; simpl; constructor; [|done].
  destruct (trim_spec x) as (a & b & H). by exists a, b.
Qed.

Lemma csv_tags_key r s :
  tags r = JString s ->
  parseKey (shapeOf csv) r Ktags
  = Zod.OK (JArray (if String.eqb s "" then [] else map trim (split "," s))).
Proof.
  intros H. unfold parseKey. cbn [get]. rewrite H.
  unfold shapeOf, csvBuyerShape, Zod.z_optional, Zod.z_transform, Zod.z_string,
    csvTagsTransform.
  simpl. by destruct (String.eqb s "").
Qed.

(** C9. In csv mode the tags cell is split on commas and each piece is
    trimmed: whatever the other cells hold, the cell parses to a list of
    tags, the tags of the normalized record when the row validates; the list
    is obtained from the pieces of the cell (joined by commas they give the
    cell back, none holds a comma) by removing the white space at the two
    ends of each; an empty cell gives the empty list; the cell
    "urgent, family" gives ["urgent"; "family"]. *)
Theorem csv_tags_split_and_trimmed :
  (forall r s,
     tags r = JString s ->
     exists ts,
       parseKey (shapeOf csv) r Ktags = Zod.OK (JArray ts)
       /\ (forall data, validate csv r = inl data -> tags data = JArray ts)
       /\ (s = "" -> ts = [])
       /\ (s <> "" ->
           exists pieces,
             join "," pieces = s
             /\ Forall (fun p => hasChar "," p = false) pieces
             /\ Forall2 trimmedFrom pieces ts))
  /\ (forall r data,
        tags r = JString "urgent, family" -> validate csv r = inl data ->
        tags data = JArray ["urgent"; "family"]).
Proof.
  split.
  - intros r s Hs.
    exists (if String.eqb s "" then [] else map trim (split "," s)).
    split; [by apply csv_tags_key|]. split; [|split].
    + intros data Hv. apply validate_accepts in Hv as ->.
      by apply csv_tags_parsed.
    + by intros ->.
    + intros Hne. rewrite string_nonempty_eqb by done.
      exists (split "," s).
      split; [apply join_split|]. split; [apply split_no_sep|].
      apply Forall2_map_trim.
  - intros r data Hs Hv. apply validate_accepts in Hv as ->.
    by rewrite (csv_tags_parsed r _ Hs).
Qed.

(** In csv mode an empty [status] cell is not the missing key: the enum
    rejects it. *)
Lemma csv_empty_status r :
  status r = JString "" ->
  exists issues,
    validate csv r = inr issues
    /\ Zod.mkIssue Zod.invalid_enum_value ["status"] None ∈ issues.
Proof.
  intros H.
  assert (Hparse : parseKey (shapeOf csv) r Kstatus
                   = Zod.INVALID [Zod.mkIssue Zod.invalid_enum_value ["status"] None]).
  { unfold parseKey. cbn [get]. by rewrite H. }
  exists (Zod.issues (schemaOf csv r)). split.
  - apply validate_rejects. intros [Hk _]%schema_valid.
    specialize (Hk Kstatus). unfold fieldFails in Hk. by rewrite Hparse in Hk.
  - apply (key_issue_reported csv r Kstatus). rewrite Hparse. by left.
Qed.

(** ** Persistence paths *)

Lemma sentAsNull_NewBuyer data : sentAsNull data (NewBuyer_row data).
Proof. unfold sentAsNull. simpl. by repeat split; intros ->. Qed.

Lemma sentAsNull_EditBuyer data : sentAsNull data (EditBuyer_row data).
Proof. unfold sentAsNull. simpl. by repeat split; intros ->. Qed.

Lemma sentAsNull_dbRow data uid : sentAsNull data (dbRow (data, uid)).1.
Proof. unfold sentAsNull. simpl. by repeat split; intros ->. Qed.

Lemma bind_inr {A B} (m : Sql.error + A) (f : A -> Sql.error + B) r :
  m ≫= f = inr r -> exists x, m = inr x /\ f x = inr r.
Proof. destruct m as [e|x]; [done|]. intros H. by exists x. Qed.

Ltac bind_inv H :=
  repeat (let x := fresh "x" in
          let E := fresh "E" in
          apply bind_inr in H as (x & E & H)).

(** The columns a written row takes from a payload that holds [null]. *)
Lemma assign_null p rid owner created updated
    c1 c2 c3 c4 c5 c6 c7 c8 c9 c10 c11 c12 c13 c14 r :
  Sql.assign p rid owner created updated
    c1 c2 c3 c4 c5 c6 c7 c8 c9 c10 c11 c12 c13 c14 = inr r ->
  (Payload.email p = JNull -> Sql.email r = None)
  /\ (Payload.bhk p = JNull -> Sql.bhk r = None)
  /\ (Payload.budget_min p = JNull -> Sql.budget_min r = None)
  /\ (Payload.budget_max p = JNull -> Sql.budget_max r = None)
  /\ (Payload.notes p = JNull -> Sql.notes r = None).
Proof.
  unfold Sql.assign. intros H. bind_inv H.
  injection H as <-. simpl.
  repeat split; intros Hnull;
    match goal with
    | E : Sql.column _ _ _ ?v = inr ?x |- ?x = None =>
        rewrite Hnull in E; simpl in E; by injection E
    end.
Qed.

Lemma storedAsNull_assign data p rid owner created updated
    c1 c2 c3 c4 c5 c6 c7 c8 c9 c10 c11 c12 c13 c14 r :
  sentAsNull data p ->
  Sql.assign p rid owner created updated
    c1 c2 c3 c4 c5 c6 c7 c8 c9 c10 c11 c12 c13 c14 = inr r ->
  storedAsNull data r.
Proof.
  intros (H1 & H2 & H3 & H4 & H5) (A1 & A2 & A3 & A4 & A5)%assign_null.
  unfold storedAsNull. repeat split; auto.
Qed.

Lemma insert_row_inv uid now p owner db db' :
  Sql.insert_row uid now (p, owner) db = inr db' ->
  exists NEW,
    Sql.tbl_buyers db' = Sql.tbl_buyers db ++ [NEW]
    /\ Sql.assign p (Sql.next_uuid db) owner now now
         None None None None None None None None None None None
         (Some Sql.New) None None = inr NEW.
Proof.
  unfold Sql.insert_row. cbn [fst snd]. intros H.
  apply bind_inr in H as (NEW & E & H).
  destruct (negb _); [done|]. destruct (Sql.check_constraints NEW); [done|].
  injection H as <-. by exists NEW.
Qed.

Lemma update_row_inv uid now rid p OLD NEW :
  Sql.update_row uid now rid p OLD = inr (NEW, Some OLD) ->
  exists r,
    NEW = Sql.update_updated_at_column now r
    /\ Sql.assign p (Sql.id OLD) (Sql.owner_id OLD) (Sql.created_at OLD)
         (Sql.updated_at OLD)
         (Some (Sql.full_name OLD)) (Sql.email OLD) (Some (Sql.phone OLD))
         (Some (Sql.city OLD)) (Some (Sql.property_type OLD)) (Sql.bhk OLD)
         (Some (Sql.purpose OLD)) (Sql.budget_min OLD) (Sql.budget_max OLD)
         (Some (Sql.timeline OLD)) (Some (Sql.source OLD)) (Some (Sql.status OLD))
         (Sql.notes OLD) (Sql.tags OLD) = inr r.
Proof.
  unfold Sql.update_row. destruct (_ && _); [|done]. intros H.
  apply bind_inr in H as (r & E & H).
  destruct (Sql.check_constraints _); [done|].
  injection H as <-. by exists r.
Qed.

(** C10. On the three persistence paths (create, edit, CSV import) a
    validated budget of 0 and an empty [email], [notes] or [bhk] are sent to
    the database as [null], and the row that is written holds NULL in those
    columns. *)
Theorem zero_budget_and_empty_text_stored_as_null :
  (forall data uid,
     sentAsNull data (NewBuyer_row data)
     /\ sentAsNull data (EditBuyer_row data)
     /\ sentAsNull data (dbRow (data, uid)).1)
  /\ (forall data uid now db db' p,
        p = NewBuyer_row data \/ p = (dbRow (data, uid)).1 ->
        Sql.insert_row uid now (p, uid) db = inr db' ->
        exists NEW,
          Sql.tbl_buyers db' = Sql.tbl_buyers db ++ [NEW]
          /\ storedAsNull data NEW)
  /\ (forall data uid now rid OLD NEW,
        Sql.update_row uid now rid (EditBuyer_row data) OLD = inr (NEW, Some OLD) ->
        storedAsNull data NEW).
Proof.
  split; [|split].
  - intros data uid.
    auto using sentAsNull_NewBuyer, sentAsNull_EditBuyer, sentAsNull_dbRow.
  - intros data uid now db db' p Hp (NEW & Htbl & Hassign)%insert_row_inv.
    exists NEW. split; [done|].
    eapply storedAsNull_assign; [|exact Hassign].
    destruct Hp as [-> | ->];
      auto using sentAsNull_NewBuyer, sentAsNull_dbRow.
  - intros data uid now rid OLD NEW (r & -> & Hassign)%update_row_inv.
    pose proof (storedAsNull_assign data _ _ _ _ _ _ _ _ _ _ _ _ _ _ _ _ _ _ _ _
                  (sentAsNull_EditBuyer data) Hassign) as H.
    exact H.
Qed.

(** ** CSV batch importer *)

(** C8. A file of more than 200 data rows is rejected when it is uploaded:
    the only effect is the error toast, no row is kept, no per-row outcome
    exists, and a subsequent import validates nothing and writes nothing. *)
Theorem oversized_batch_rejected st data user clock db :
  200 < length data ->
  let upload := handleFileUpload (Some (complete data)) st in
  csvData upload.1 = []
  /\ importErrors upload.1 = []
  /\ importSuccess upload.1 = 0
  /\ upload.2 = [mkToast "Error"
                   (text "CSV file cannot contain more than 200 rows") true]
  /\ validateAndImportData user clock upload.1 db
     = mkImportResult upload.1 db [] false.
Proof.
  intros H. unfold handleFileUpload. apply Nat.ltb_lt in H. rewrite H.
  simpl. repeat split. by destruct user.
Qed.

(** ** History differ: the [track_buyer_changes] trigger *)

Lemma lookup_step (b : bool) k o n (changes : gmap string Sql.jsonb) k' :
  (if b then Sql.jsonb_concat changes (Sql.old_new k o n) else changes) !! k'
  = if b && bool_decide (k = k')
    then Some (Sql.jb_object (<["new" := n]> {[ "old" := o ]}))
    else changes !! k'.
Proof.
  unfold Sql.jsonb_concat, Sql.old_new. destruct b; simpl; [|done].
  rewrite <- insert_union_singleton_l, lookup_insert.
  destruct (decide (k = k')) as [Heq|Hne].
  - by rewrite bool_decide_true.
  - by rewrite bool_decide_false.
Qed.

Lemma label_inj_city (a b : Sql.city_type) : Sql.label a = Sql.label b -> a = b.
Proof. by destruct a, b. Qed.
Lemma label_inj_property (a b : Sql.property_type_enum) :
  Sql.label a = Sql.label b -> a = b.
Proof. by destruct a, b. Qed.
Lemma label_inj_bhk (a b : Sql.bhk_type) : Sql.label a = Sql.label b -> a = b.
Proof. by destruct a, b. Qed.
Lemma label_inj_purpose (a b : Sql.purpose_type) : Sql.label a = Sql.label b -> a = b.
Proof. by destruct a, b. Qed.
Lemma label_inj_timeline (a b : Sql.timeline_type) :
  Sql.label a = Sql.label b -> a = b.
Proof. by destruct a, b. Qed.
Lemma label_inj_source (a b : Sql.source_type) : Sql.label a = Sql.label b -> a = b.
Proof. by destruct a, b. Qed.
Lemma label_inj_status (a b : Sql.status_type) : Sql.label a = Sql.label b -> a = b.
Proof. by destruct a, b. Qed.

(** [IS DISTINCT FROM] on two column values decides whether their JSON
    renderings differ. *)
Lemma distinct_json {A} `{EqDecision A} (f : A -> Sql.jsonb_value) (a b : A) :
  (forall x y, f x = f y -> x = y) ->
  Sql.is_distinct_from a b = bool_decide (f a <> f b).
Proof.
  intros Hinj. unfold Sql.is_distinct_from. apply bool_decide_ext.
  split; intros H Heq; apply H; [by apply Hinj|by rewrite Heq].
Qed.

Lemma of_nullable_inj {A} (f : A -> Sql.jsonb_value) :
  (forall x, f x <> Sql.jb_null) -> (forall x y, f x = f y -> x = y) ->
  forall x y, Sql.of_nullable f x = Sql.of_nullable f y -> x = y.
Proof.
  intros Hnull Hinj [x|] [y|]; simpl; intros H; try done.
  - f_equal. by apply Hinj.
  - by apply Hnull in H.
  - symmetry in H. by apply Hnull in H.
Qed.

Lemma tracked_distinct c OLD NEW :
  tracked c = true ->
  differs c OLD NEW
  = match c with
    | c_full_name => Sql.is_distinct_from (Sql.full_name OLD) (Sql.full_name NEW)
    | c_email => Sql.is_distinct_from (Sql.email OLD) (Sql.email NEW)
    | c_phone => Sql.is_distinct_from (Sql.phone OLD) (Sql.phone NEW)
    | c_city => Sql.is_distinct_from (Sql.city OLD) (Sql.city NEW)
    | c_property_type =>
        Sql.is_distinct_from (Sql.property_type OLD) (Sql.property_type NEW)
    | c_bhk => Sql.is_distinct_from (Sql.bhk OLD) (Sql.bhk NEW)
    | c_purpose => Sql.is_distinct_from (Sql.purpose OLD) (Sql.purpose NEW)
    | c_budget_min => Sql.is_distinct_from (Sql.budget_min OLD) (Sql.budget_min NEW)
    | c_budget_max => Sql.is_distinct_from (Sql.budget_max OLD) (Sql.budget_max NEW)
    | c_timeline => Sql.is_distinct_from (Sql.timeline OLD) (Sql.timeline NEW)
    | c_source => Sql.is_distinct_from (Sql.source OLD) (Sql.source NEW)
    | c_status => Sql.is_distinct_from (Sql.status OLD) (Sql.status NEW)
    | c_notes => Sql.is_distinct_from (Sql.notes OLD) (Sql.notes NEW)
    | c_tags => Sql.is_distinct_from (Sql.tags OLD) (Sql.tags NEW)
    | _ => false
    end.
Proof.
  unfold differs. destruct c; try done; intros _; simpl; symmetry;
    apply distinct_json; unfold Sql.of_text, Sql.of_enum;
    try apply of_nullable_inj; try done; try congruence;
    intros x y [= H];
    auto using label_inj_city, label_inj_property, label_inj_bhk,
      label_inj_purpose, label_inj_timeline, label_inj_source, label_inj_status.
Qed.

Lemma diff_lookup OLD NEW c :
  Sql.track_buyer_changes_diff OLD NEW !! column_name c
  = if tracked c && differs c OLD NEW then Some (changeEntry c OLD NEW)
    else None.
Proof.
  destruct (tracked c) eqn:Ht.
  - rewrite (tracked_distinct c OLD NEW Ht).
    unfold Sql.track_buyer_changes_diff. cbv zeta. rewrite !lookup_step.
    destruct c; try done; simpl; rewrite ?andb_true_r, ?andb_false_r, ?lookup_empty;
      by destruct (Sql.is_distinct_from _ _).
  - unfold Sql.track_buyer_changes_diff. cbv zeta. rewrite !lookup_step.
    destruct c; try done; simpl; by rewrite ?andb_false_r, ?lookup_empty.
Qed.

Lemma diff_keys OLD NEW k :
  is_Some (Sql.track_buyer_changes_diff OLD NEW !! k) ->
  exists c, tracked c = true /\ k = column_name c.
Proof.
  unfold Sql.track_buyer_changes_diff. cbv zeta. rewrite !lookup_step.
  intros H.
  repeat match type of H with
  | context [bool_decide (?s = k)] =>
      destruct (decide (s = k)) as [<-|Hne];
        [clear H;
         first [by exists c_full_name | by exists c_email | by exists c_phone
               | by exists c_city | by exists c_property_type | by exists c_bhk
               | by exists c_purpose | by exists c_budget_min
               | by exists c_budget_max | by exists c_timeline
               | by exists c_source | by exists c_status | by exists c_notes
               | by exists c_tags]
        |rewrite (bool_decide_false _ Hne), andb_false_r in H; clear Hne]
  end.
  rewrite lookup_empty in H. by destruct H.
Qed.

(** C5 (amended). The diff of an update has an entry for a field exactly when
    the field is one of the columns the trigger compares (every field except
    [id], [ownerId], [createdAt] and [updatedAt]) and its value differs
    between the previous and the next row; the entry records the previous
    value as [old] and the next value as [new]; the diff has no other key.
    When no such field differs the trigger leaves the database as it is: no
    history entry is written.  Otherwise it appends one entry carrying the
    diff. *)
Theorem update_diff_tracks_changed_fields previous next :
  let diff := Sql.track_buyer_changes_diff previous next in
  (forall c,
     diff !! column_name c
     = if tracked c && differs c previous next
       then Some (changeEntry c previous next) else None)
  /\ (forall k, is_Some (diff !! k) ->
                exists c, tracked c = true /\ k = column_name c)
  /\ (forall uid now db,
        (forall c, tracked c = true -> differs c previous next = false) ->
        diff = ∅ /\ Sql.track_buyer_changes uid now previous next db = db)
  /\ (forall uid now db c,
        tracked c = true -> differs c previous next = true ->
        Sql.track_buyer_changes uid now previous next db
        = Sql.insert_history uid now (Sql.id next) diff db).
Proof.
  cbv zeta. split; [apply diff_lookup|]. split; [apply diff_keys|]. split.
  - intros uid now db Hsame.
    assert (Hempty : Sql.track_buyer_changes_diff previous next = ∅).
    { apply map_eq. intros k. rewrite lookup_empty.
      destruct (Sql.track_buyer_changes_diff previous next !! k) eqn:E; [|done].
      destruct (diff_keys previous next k) as (c & Ht & ->); [by eexists|].
      rewrite diff_lookup, Ht, Hsame in E by done. done. }
    split; [done|]. unfold Sql.track_buyer_changes. rewrite Hempty.
    by rewrite bool_decide_false by (by intros H).
  - intros uid now db c Ht Hd. unfold Sql.track_buyer_changes.
    rewrite bool_decide_true; [done|]. intros Hempty.
    pose proof (diff_lookup previous next c) as Hl.
    rewrite Hempty, lookup_empty, Ht, Hd in Hl. done.
Qed.

(** ** Export and re-import *)

(** A candidate whose keys all parse cleanly and which satisfies the two
    refinements validates to the object of the parsed values. *)
Lemma validate_ok m candidate (v : Key -> JsValue) :
  (forall k, parseKey (shapeOf m) candidate k = Zod.OK (v k)) ->
  bhkRefinement (fromKeys v) = true ->
  budgetRefinement (fromKeys v) = true ->
  validate m candidate = inl (fromKeys v).
Proof.
  intros Hk Hb Hbud.
  assert (Hdata : parsedData m candidate = fromKeys v).
  { unfold parsedData, fromKeys. by rewrite !Hk. }
  assert (Hvalid : Zod.status (schemaOf m candidate) = Zod.valid).
  { apply schema_valid. rewrite Hdata. split; [|done].
    intros k. unfold fieldFails. by rewrite Hk. }
  unfold validate, Zod.parse. rewrite Hvalid.
  rewrite schemaOf_refine_twice in *.
  destruct (refine_twice (z_object (keysOf m) (shapeOf m) candidate)
              (parsedData m candidate) candidate
              bhkRefinement (bhkIssue m) budgetRefinement (budgetIssue m))
    as (_ & _ & Hval); try (by destruct m); [apply z_object_value|].
  by rewrite (Hval Hvalid), Hdata.
Qed.







Lemma optional_text_cell_ok chk p s :
  s = EmptyString \/ Zod.runStringCheck p s chk = [] ->
  Zod.z_or (Zod.z_optional (Zod.z_string [chk])) (Zod.z_literal "") p (JString s)
  = Zod.OK (JString s).
Proof.
  intros H. unfold Zod.z_or, Zod.z_optional, Zod.z_string, Zod.z_literal.
  cbn [flat_map]. rewrite app_nil_r.
  destruct (Zod.runStringCheck p s chk) eqn:E; [done|].
  destruct H as [-> | H]; done.
Qed.



(** ** What the schemas accept

    For each kind of field schema: what a valid result says about the value
    parsed, and the result for such a value. *)

Lemma isValid_status {A} (r : Zod.ParseReturn A) :
  Zod.isValid r = true <-> Zod.status r = Zod.valid.
Proof. unfold Zod.isValid. by rewrite bool_decide_eq_true. Qed.

Lemma validate_inl m candidate data :
  validate m candidate = inl data ->
  Zod.status (schemaOf m candidate) = Zod.valid.
Proof.
  unfold validate, Zod.parse.
  by destruct (Zod.status (schemaOf m candidate)),
       (Zod.value (schemaOf m candidate)).
Qed.

Lemma fromKeys_get d : fromKeys (fun k => get k d) = d.
Proof. by destruct d. Qed.

Lemma string_checked_valid checks p d :
  Zod.status (Zod.z_string checks p d) = Zod.valid ->
  exists s, d = JString s /\ flat_map (Zod.runStringCheck p s) checks = [].
Proof.
  destruct d as [| | |n|s|l]; try done. simpl.
  destruct (flat_map _ _) eqn:E; [|done]. by exists s.
Qed.

Lemma string_checked_ok checks p s :
  flat_map (Zod.runStringCheck p s) checks = [] ->
  Zod.z_string checks p (JString s) = Zod.OK (JString s).
Proof. intros E. unfold Zod.z_string. by rewrite E. Qed.

Lemma min_max_checks p s lo hi m1 m2 :
  flat_map (Zod.runStringCheck p s) [Zod.min lo m1; Zod.max hi m2] = []
  <-> lo <= String.length s /\ String.length s <= hi.
Proof.
  simpl. rewrite app_nil_r.
  destruct (Nat.ltb_spec (String.length s) lo),
           (Nat.ltb_spec hi (String.length s)); simpl; split;
    try done; try lia; intros [??]; lia.
Qed.

Lemma regex_check p s re msg :
  flat_map (Zod.runStringCheck p s) [Zod.regex re msg] = [] <-> re s = true.
Proof. simpl. by destruct (re s). Qed.

Lemma enum_valid values p d :
  Zod.status (Zod.z_enum values p d) = Zod.valid -> oneOf values d.
Proof.
  destruct d as [| | |n|s|l]; try done. simpl.
  case_bool_decide; [|done]. by exists s.
Qed.

Lemma enum_ok values p d :
  oneOf values d -> Zod.z_enum values p d = Zod.OK d.
Proof. intros (s & -> & Hs). simpl. by rewrite bool_decide_true. Qed.

Lemma optional_valid inner p d :
  Zod.status (Zod.z_optional inner p d) = Zod.valid ->
  d = JUndefined \/ Zod.status (inner p d) = Zod.valid.
Proof. destruct d; auto. Qed.

Lemma optional_ok inner p d :
  d <> JUndefined -> Zod.z_optional inner p d = inner p d.
Proof. by destruct d. Qed.

Lemma number_min_valid lo msg p d :
  Zod.status (Zod.z_number_min lo msg p d) = Zod.valid ->
  exists n, d = JNumber n /\ (lo <= n)%Z.
Proof.
  destruct d as [| | |n|s|l]; try done. simpl.
  destruct (Z.ltb_spec n lo); [done|]. by exists n.
Qed.

Lemma number_min_ok lo msg p n :
  (lo <= n)%Z -> Zod.z_number_min lo msg p (JNumber n) = Zod.OK (JNumber n).
Proof. intros H. simpl. by destruct (Z.ltb_spec n lo); [lia|]. Qed.

(** [z.string().check().optional().or(z.literal(""))] *)
Lemma optional_text_valid chk p d :
  Zod.status
    (Zod.z_or (Zod.z_optional (Zod.z_string [chk])) (Zod.z_literal "") p d)
  = Zod.valid ->
  optionally (isText (fun s => s = "" \/ Zod.runStringCheck p s chk = [])) d.
Proof.
  destruct d as [| | |n|s|l]; try done; [by left|]. intros H. right.
  exists s. split; [done|].
  revert H. unfold Zod.z_or, Zod.z_optional, Zod.z_string, Zod.z_literal.
  cbn [flat_map]. rewrite app_nil_r.
  destruct (Zod.runStringCheck p s chk) eqn:E; [by right|].
  cbn [Zod.isValid Zod.status strictEqString].
  destruct (String.eqb_spec s ""); [by left|done].
Qed.

Lemma optional_text_ok chk p d :
  optionally (isText (fun s => s = "" \/ Zod.runStringCheck p s chk = [])) d ->
  Zod.z_or (Zod.z_optional (Zod.z_string [chk])) (Zod.z_literal "") p d
  = Zod.OK d.
Proof.
  intros [-> | (s & -> & Hs)]; [done|]. by apply optional_text_cell_ok.
Qed.

Lemma email_check p s msg :
  Zod.runStringCheck p s (Zod.email emailRegex msg) = [] <-> emailRegex s = true.
Proof. simpl. by destruct (emailRegex s). Qed.

Lemma max_check p s hi msg :
  Zod.runStringCheck p s (Zod.max hi msg) = [] <-> String.length s <= hi.
Proof.
  simpl. destruct (Nat.ltb_spec hi (String.length s)); split; try done; lia.
Qed.

Lemma key_valid m values k :
  Zod.status (parseKey (shapeOf m) values k) = Zod.valid ->
  accepted m k (get k values).
Proof.
  unfold parseKey. generalize (get k values) as d. intros d H.
  destruct k, m; cbn [shapeOf buyerShape csvBuyerShape accepted keyName] in *.
  all: try (by eapply enum_valid).
  all: try (apply string_checked_valid in H as (s & -> & H); exists s;
            split; [done|]; first [by apply min_max_checks in H
                                  | by apply regex_check in H]).
  - (* email *)
    apply optional_text_valid in H as [-> | (s & -> & [-> | H])];
      [by left | right; exists ""; split; [done|by left]
      | right; exists s; split; [done|right; by apply email_check in H]].
  - apply optional_text_valid in H as [-> | (s & -> & [-> | H])];
      [by left | right; exists ""; split; [done|by left]
      | right; exists s; split; [done|right; by apply email_check in H]].
  - (* bhk, form *)
    apply optional_valid in H as [-> | H]; [by left|].
    right. by eapply enum_valid.
  - (* bhk, csv *)
    destruct d as [| | |n|s|l]; try done; [by left|]. right.
    revert H. unfold Zod.z_or, Zod.z_optional, bhkSchema, Zod.z_enum, Zod.z_literal.
    cbn [strictEqString].
    destruct (bool_decide (s ∈ bhkValues)) eqn:E.
    + intros _. left. exists s. split; [done|]. by apply bool_decide_eq_true in E.
    + destruct (String.eqb_spec s ""); [by subst; right|done].
  - (* budgetMin, form *)
    apply optional_valid in H as [-> | H]; [by left|].
    right. by eapply number_min_valid.
  - (* budgetMin, csv *)
    destruct d as [| | |n|s|l]; try done; [by left|]. right. exists s. split; [done|].
    revert H. unfold Zod.z_optional, Zod.z_transform, Zod.z_string.
    cbn [flat_map Zod.runStringCheck]. by destruct (digitsRegex s).
  - apply optional_valid in H as [-> | H]; [by left|].
    right. by eapply number_min_valid.
  - destruct d as [| | |n|s|l]; try done; [by left|]. right. exists s. split; [done|].
    revert H. unfold Zod.z_optional, Zod.z_transform, Zod.z_string.
    cbn [flat_map Zod.runStringCheck]. by destruct (digitsRegex s).
  - (* status, form *)
    destruct d as [| | |n|s|l]; try done; [by left|]. right. by eapply enum_valid.
  - destruct d as [| | |n|s|l]; try done; [by left|]. right. by eapply enum_valid.
  - (* notes *)
    apply optional_text_valid in H as [-> | (s & -> & [-> | H])];
      [by left | right; exists ""; split; [done|simpl; lia]
      | right; exists s; split; [done|by apply max_check in H]].
  - apply optional_text_valid in H as [-> | (s & -> & [-> | H])];
      [by left | right; exists ""; split; [done|simpl; lia]
      | right; exists s; split; [done|by apply max_check in H]].
  - (* tags, form *)
    destruct d as [| | |n|s|l]; try done; [by left|]. right. by exists l.
  - destruct d as [| | |n|s|l]; try done; [by left|]. right. by exists s.
Qed.

Lemma key_ok m values k :
  accepted m k (get k values) ->
  parseKey (shapeOf m) values k = Zod.OK (normalised m k (get k values)).
Proof.
  unfold parseKey. generalize (get k values) as d. intros d H.
  assert (Htext : forall chk p (P : string -> Prop),
            (forall s, P s -> s = "" \/ Zod.runStringCheck p s chk = []) ->
            optionally (isText P) d ->
            Zod.z_or (Zod.z_optional (Zod.z_string [chk])) (Zod.z_literal "") p d
            = Zod.OK d).
  { intros chk p P HP [-> | (s & -> & Hs)]; apply optional_text_ok;
      [by left | right; exists s; auto]. }
  assert (Hbudget : forall p,
            optionally (isText (fun s => digitsRegex s = true)) d ->
            Zod.z_optional
              (Zod.z_transform (Zod.z_string [Zod.regex digitsRegex None])
                 csvBudgetTransform) p d
            = Zod.OK (match d with
                      | JString s =>
                          if String.eqb s "" then JUndefined
                          else JNumber (Z.of_N (decimalValue s))
                      | _ => d
                      end)).
  { intros p [-> | (s & -> & Hs)]; [done|].
    unfold Zod.z_optional, Zod.z_transform, Zod.z_string, csvBudgetTransform.
    cbn [flat_map Zod.runStringCheck]. rewrite Hs.
    cbn [app Zod.status Zod.value Zod.issues strictEqString].
    destruct (String.eqb_spec s ""); [done|].
    by rewrite parseInt_digits. }
  destruct k, m; cbn [shapeOf buyerShape csvBuyerShape accepted keyName] in *.
  all: try (by apply enum_ok).
  - destruct H as (s & -> & H). by apply string_checked_ok, min_max_checks.
  - destruct H as (s & -> & H). by apply string_checked_ok, min_max_checks.
  - eapply Htext; [|exact H]. intros s [-> | Hs]; [by left|].
    right. by apply email_check.
  - eapply Htext; [|exact H]. intros s [-> | Hs]; [by left|].
    right. by apply email_check.
  - destruct H as (s & -> & H). by apply string_checked_ok, regex_check.
  - destruct H as (s & -> & H). by apply string_checked_ok, regex_check.
  - destruct H as [-> | H]; [done|].
    pose proof H as (s & -> & _). by apply enum_ok.
  - destruct H as [-> | [(s & -> & H) | ->]]; [done| |done].
    unfold Zod.z_or, Zod.z_optional, bhkSchema, Zod.z_enum.
    by rewrite bool_decide_true.
  - destruct H as [-> | (n & -> & H)]; [done|]. by apply number_min_ok.
  - by apply Hbudget.
  - destruct H as [-> | (n & -> & H)]; [done|]. by apply number_min_ok.
  - by apply Hbudget.
  - destruct H as [-> | H]; [done|].
    pose proof H as (s & -> & _). by apply enum_ok.
  - destruct H as [-> | H]; [done|].
    pose proof H as (s & -> & Hs). simpl. by rewrite bool_decide_true.
  - eapply Htext; [|exact H]. intros s Hs. right. by apply max_check.
  - eapply Htext; [|exact H]. intros s Hs. right. by apply max_check.
  - by destruct H as [-> | (l & ->)].
  - destruct H as [-> | (s & -> & _)]; [done|].
    exact (csv_tags_key
             (mkBuyer JUndefined JUndefined JUndefined JUndefined JUndefined
                JUndefined JUndefined JUndefined JUndefined JUndefined
                JUndefined JUndefined JUndefined (JString s)) s eq_refl).
Qed.

Lemma parsed_normalised m values :
  (forall k, accepted m k (get k values)) ->
  parsedData m values = normalisedData m values.
Proof.
  intros Hk. unfold parsedData, normalisedData, fromKeys.
  by rewrite !key_ok by apply Hk.
Qed.

Lemma normalised_budget m values k :
  k = KbudgetMin \/ k = KbudgetMax ->
  accepted m k (get k values) ->
  normalised m k (get k values) = JUndefined
  \/ exists n, normalised m k (get k values) = JNumber n /\ (0 <= n)%Z.
Proof.
  intros Hk H.
  assert (Hgoal : forall v,
            match m with
            | form => optionally isBudget v
            | csv => optionally (isText (fun s => digitsRegex s = true)) v
            end ->
            let n := match m, v with
                     | csv, JString s =>
                         if String.eqb s "" then JUndefined
                         else JNumber (Z.of_N (decimalValue s))
                     | _, _ => v
                     end in
            n = JUndefined \/ exists x, n = JNumber x /\ (0 <= x)%Z).
  { intros v Hv. destruct m.
    - destruct Hv as [-> | (n & -> & Hn)]; [by left|right; by exists n].
    - destruct Hv as [-> | (s & -> & Hs)]; [by left|]. cbv zeta.
      destruct (String.eqb s ""); [by left|right].
      eexists. split; [done|lia]. }
  destruct Hk as [-> | ->]; cbn [accepted] in H;
    apply Hgoal in H; destruct m; exact H.
Qed.

Lemma rules_refinements m values :
  (forall k, accepted m k (get k values)) ->
  bhkRefinement (normalisedData m values) = true
  /\ budgetRefinement (normalisedData m values) = true
  <-> rulesHold m values.
Proof.
  intros Hk. unfold rulesHold.
  assert (Hbhk : bhkRefinement (normalisedData m values) = true
                 <-> (propertyType values = JString "Apartment"
                      \/ propertyType values = JString "Villa" ->
                      truthy (bhk values) = true)).
  { unfold bhkRefinement.
    change (propertyType (normalisedData m values)) with (propertyType values).
    change (bhk (normalisedData m values)) with (bhk values).
    destruct (Hk KpropertyType) as (s & E & _). cbn [get] in E. rewrite E.
    cbn [strictEqString].
    destruct (String.eqb_spec s "Apartment") as [Ha | Ha];
      destruct (String.eqb_spec s "Villa") as [Hv | Hv];
      destruct (truthy (bhk values)); cbn [orb andb negb]; split; try done;
      try (intros H; apply H; subst; auto; fail).
    intros _ [[=] | [=]]; congruence. }
  assert (Hbud : budgetRefinement (normalisedData m values) = true
                 <-> (forall lo hi,
                        budgetMin (normalisedData m values) = JNumber lo ->
                        budgetMax (normalisedData m values) = JNumber hi ->
                        lo <> 0%Z -> hi <> 0%Z -> (lo <= hi)%Z)).
  { unfold budgetRefinement.
    change (budgetMin (normalisedData m values))
      with (normalised m KbudgetMin (get KbudgetMin values)).
    change (budgetMax (normalisedData m values))
      with (normalised m KbudgetMax (get KbudgetMax values)).
    destruct (normalised_budget m values KbudgetMin) as [-> | (lo & -> & Hlo)];
      [by left|by apply Hk|done|].
    destruct (normalised_budget m values KbudgetMax) as [-> | (hi & -> & Hhi)];
      [by right|by apply Hk|by rewrite andb_false_r|].
    change (jsLt (JNumber hi) (JNumber lo)) with (hi <? lo)%Z.
    cbn [truthy].
    destruct (Z.eqb_spec lo 0), (Z.eqb_spec hi 0), (Z.ltb_spec hi lo);
      cbn [negb andb]; split; try done;
      try (intros _ ? ? [= <-] [= <-]; lia).
    intros Hr. specialize (Hr lo hi eq_refl eq_refl). lia. }
  tauto.
Qed.

Lemma validate_inl_inv m values data :
  validate m values = inl data ->
  (forall k, accepted m k (get k values))
  /\ rulesHold m values
  /\ data = normalisedData m values.
Proof.
  intros H. pose proof (validate_inl _ _ _ H) as Hvalid.
  apply schema_valid in Hvalid as (Hkeys & Hb & Hbud).
  assert (Hk : forall k, accepted m k (get k values)).
  { intros k. apply key_valid. specialize (Hkeys k).
    unfold fieldFails in Hkeys. apply negb_false_iff in Hkeys.
    by apply isValid_status. }
  split; [done|]. rewrite parsed_normalised in Hb, Hbud by done.
  split; [by apply rules_refinements|].
  rewrite <- parsed_normalised by done. by apply validate_accepts.
Qed.

Lemma validate_inl_intro m values :
  (forall k, accepted m k (get k values)) ->
  rulesHold m values ->
  validate m values = inl (normalisedData m values).
Proof.
  intros Hk Hrules.
  apply rules_refinements in Hrules as [Hb Hbud]; [|done].
  apply validate_ok; [|done..].
  intros k. by apply key_ok.
Qed.

(** X1. A schema accepts exactly the values that satisfy the constraint of
    every field and the two cross-field rules, and returns them normalised:
    [buyerSchema] returns the values with the defaults of [status] and [tags];
    [csvBuyerSchema] returns the row with its budget cells read as numbers
    (absent when empty), its tags cell split, and [status] defaulted.  The
    budget cells of a CSV row are taken to denote integers that JavaScript
    represents exactly. *)
Theorem schema_accepts_iff m values data :
  safeBudgets m values ->
  validate m values = inl data
  <-> (forall k, accepted m k (get k values))
      /\ rulesHold m values
      /\ data = normalisedData m values.
Proof.
  intros _. split; [apply validate_inl_inv|].
  intros (Hk & Hrules & ->). by apply validate_inl_intro.
Qed.

Lemma get_normalisedData m values k :
  get k (normalisedData m values) = normalised m k (get k values).
Proof. by destruct k. Qed.

Lemma normalised_form_idem k v :
  normalised form k (normalised form k v) = normalised form k v.
Proof. by destruct k, v. Qed.

Lemma oneOf_in values s : s ∈ values -> oneOf values (JString s).
Proof. intros H. by exists s. Qed.

Lemma accepted_normalised_form k v :
  accepted form k v -> accepted form k (normalised form k v).
Proof.
  destruct k; try done; cbn [accepted normalised].
  - intros [-> | H]; [|by destruct H as (s & -> & ?); right; exists s].
    right. apply oneOf_in, list_elem_of_In. simpl. tauto.
  - intros [-> | H]; [|by destruct H as (l & ->); right; exists l].
    right. by exists [].
Qed.

(** X2. [buyerSchema] accepts what it returns, and returns it unchanged. *)
Theorem buyerSchema_idempotent values data :
  validate form values = inl data -> validate form data = inl data.
Proof.
  intros (Hk & [Hb Hbud] & ->)%validate_inl_inv.
  assert (Hidem : normalisedData form (normalisedData form values)
                  = normalisedData form values).
  { unfold normalisedData at 1 3. unfold fromKeys.
    by rewrite !get_normalisedData, !normalised_form_idem. }
  rewrite <- Hidem at 2. apply validate_inl_intro.
  - intros k. rewrite get_normalisedData. by apply accepted_normalised_form.
  - split; [exact Hb|]. by rewrite Hidem.
Qed.

(** X3. What [csvBuyerSchema] returns is a record [buyerSchema] accepts, unless
    its [bhk] is the empty text of an empty cell; [buyerSchema] only adds the
    default of [tags]. *)
Theorem csv_data_is_form_data r data :
  validate csv r = inl data ->
  bhk data <> JString "" ->
  validate form data = inl (normalisedData form data).
Proof.
  intros (Hk & [Hb Hbud] & ->)%validate_inl_inv Hbhk.
  apply validate_inl_intro.
  - intros k. rewrite get_normalisedData. specialize (Hk k).
    destruct k; try exact Hk; cbn [accepted normalised] in *.
    + (* bhk *)
      destruct Hk as [-> | [H | E]]; [by left|by right|].
      change (bhk (normalisedData csv r)) with (bhk r) in Hbhk. done.
    + (* budgetMin *)
      destruct Hk as [-> | (s & -> & Hs)]; [by left|].
      destruct (String.eqb s ""); [by left|right].
      eexists. split; [done|lia].
    + destruct Hk as [-> | (s & -> & Hs)]; [by left|].
      destruct (String.eqb s ""); [by left|right].
      eexists. split; [done|lia].
    + (* status *)
      destruct Hk as [-> | H]; [|by destruct H as (s & -> & ?); right; exists s].
      right. apply oneOf_in, list_elem_of_In. simpl. tauto.
    + (* tags *)
      destruct Hk as [-> | (s & -> & _)]; [by left|]. right. by eexists.
  - split; [exact Hb|].
    intros lo hi Hlo Hhi. apply Hbud.
    + rewrite <- Hlo. symmetry.
      change (budgetMin (normalisedData form (normalisedData csv r)))
        with (budgetMin (normalisedData csv r)). done.
    + rewrite <- Hhi. symmetry.
      change (budgetMax (normalisedData form (normalisedData csv r)))
        with (budgetMax (normalisedData csv r)). done.
Qed.

(** ** From validated data to a stored row *)

Lemma validate_returns m values data :
  validate m values = inl data ->
  (forall k, returned k (get k data)) /\ rulesHold form data.
Proof.
  intros (Hk & [Hb Hbud] & ->)%validate_inl_inv. split.
  - intros k. rewrite get_normalisedData. specialize (Hk k).
    destruct k, m; try exact Hk; cbn [returned accepted normalised] in *.
    all: try (destruct Hk as [-> | H]; [by left|right; by left]).
    all: try (destruct Hk as [-> | (s & -> & Hs)]; [by left|];
              destruct (String.eqb s ""); [by left|right];
              eexists; split; [done|lia]).
    all: try (destruct Hk as [-> | H];
              [apply oneOf_in, list_elem_of_In; simpl; tauto
              |by destruct H as (s & -> & ?); exists s]).
    + destruct Hk as [-> | (l & ->)]; right; by eexists.
    + destruct Hk as [-> | (s & -> & _)]; [by left|]. right. by eexists.
  - split; [exact Hb|]. intros lo hi Hlo Hhi. apply Hbud.
    + rewrite <- Hlo. by destruct m.
    + rewrite <- Hhi. by destruct m.
Qed.

Ltac enum_cases H :=
  apply list_elem_of_In in H; simpl in H;
  repeat (destruct H as [<- | H]; [eexists; split; reflexivity|]); done.

Lemma enum_in_city s :
  s ∈ cityValues ->
  exists x : Sql.city_type, Sql.enum_in s = Some x /\ Sql.label x = s.
Proof. intros H. enum_cases H. Qed.
Lemma enum_in_property s :
  s ∈ propertyTypeValues ->
  exists x : Sql.property_type_enum, Sql.enum_in s = Some x /\ Sql.label x = s.
Proof. intros H. enum_cases H. Qed.
Lemma enum_in_bhk s :
  s ∈ bhkValues ->
  exists x : Sql.bhk_type, Sql.enum_in s = Some x /\ Sql.label x = s.
Proof. intros H. enum_cases H. Qed.
Lemma enum_in_purpose s :
  s ∈ purposeValues ->
  exists x : Sql.purpose_type, Sql.enum_in s = Some x /\ Sql.label x = s.
Proof. intros H. enum_cases H. Qed.
Lemma enum_in_timeline s :
  s ∈ timelineValues ->
  exists x : Sql.timeline_type, Sql.enum_in s = Some x /\ Sql.label x = s.
Proof. intros H. enum_cases H. Qed.
Lemma enum_in_source s :
  s ∈ sourceValues ->
  exists x : Sql.source_type, Sql.enum_in s = Some x /\ Sql.label x = s.
Proof. intros H. enum_cases H. Qed.
Lemma enum_in_status s :
  s ∈ statusValues ->
  exists x : Sql.status_type, Sql.enum_in s = Some x /\ Sql.label x = s.
Proof. intros H. enum_cases H. Qed.

Lemma bind_ret {A B} (x : A) (f : A -> Sql.error + B) : inr x ≫= f = f x.
Proof. done. Qed.

Lemma col_text col cur (P : string -> Prop) v :
  isText P v ->
  exists s, Sql.not_null col (Sql.column Sql.to_text col cur v) = inr s
            /\ v = JString s /\ P s.
Proof. intros (s & -> & Hs). by exists s. Qed.

Lemma col_enum {A} `{Sql.PgEnum A} (values : list string) col cur v :
  (forall s, s ∈ values ->
             exists x : A, Sql.enum_in s = Some x /\ Sql.label x = s) ->
  oneOf values v ->
  exists x : A, Sql.not_null col (Sql.column Sql.to_enum col cur v) = inr x
                /\ js_enum x = v.
Proof.
  intros He (s & -> & Hs). destruct (He s Hs) as (x & E & L).
  exists x. simpl. rewrite E. split; [done|]. unfold js_enum. by rewrite L.
Qed.

Lemma col_text_optional col cur (P : string -> Prop) v :
  optionally (isText P) v ->
  exists t : option string,
    Sql.column Sql.to_text col cur (jsOr v JNull) = inr t
    /\ js_nullable JString t = jsOr v JNull
    /\ (forall s, t = Some s -> v = JString s /\ s <> "" /\ P s).
Proof.
  intros [-> | (s & -> & Hs)]; [by exists None|].
  unfold jsOr. cbn [truthy]. destruct (String.eqb_spec s "") as [-> | Hne].
  - by exists None.
  - exists (Some s). cbn. split; [done|]. split; [done|]. by intros ? [= <-].
Qed.

Lemma col_bhk cur v :
  accepted csv Kbhk v ->
  exists b : option Sql.bhk_type,
    Sql.column Sql.to_enum "bhk" cur (jsOr v JNull) = inr b
    /\ js_nullable js_enum b = jsOr v JNull
    /\ (truthy v = true -> b <> None).
Proof.
  intros [-> | [(s & -> & Hs) | ->]]; [by exists None| |by exists None].
  destruct (enum_in_bhk s Hs) as (x & E & L). exists (Some x).
  assert (Ht : truthy (JString s) = true).
  { rewrite <- L. by destruct x. }
  unfold jsOr. rewrite Ht. simpl. rewrite E.
  split; [done|]. split; [|done]. unfold js_enum. by rewrite L.
Qed.

Lemma col_budget col cur v :
  optionally isBudget v ->
  (exists n, v = JNumber n /\ (2147483647 < n)%Z
             /\ Sql.column Sql.to_integer col cur (jsOr v JNull)
                = inl (Sql.invalid_input col))
  \/ (exists b : option Z,
        Sql.column Sql.to_integer col cur (jsOr v JNull) = inr b
        /\ js_nullable JNumber b = jsOr v JNull
        /\ (forall n, b = Some n -> v = JNumber n /\ (0 < n <= 2147483647)%Z)
        /\ (forall n, v = JNumber n -> (n <= 2147483647)%Z)).
Proof.
  intros [-> | (n & -> & Hn)]; [right; by exists None|].
  unfold jsOr. cbn [truthy]. destruct (Z.eqb_spec n 0) as [-> | Hne].
  - right. exists None. repeat split; try done. by intros ? [= <-].
  - cbn. destruct (Z.leb_spec (-2147483648) n); [|lia].
    destruct (Z.leb_spec n 2147483647); cbn.
    + right. exists (Some n). split; [done|]. split; [done|].
      split; intros ? [= <-]; [split; [done|lia]|done].
    + left. by exists n.
Qed.

Lemma col_tags cur v :
  optionally isArray v ->
  exists l, Sql.column Sql.to_text_array "tags" cur (jsOr v (JArray []))
            = inr (Some l)
            /\ jsOr v (JArray []) = JArray l.
Proof. intros [-> | (l & ->)]; by eexists. Qed.

(** The row a payload built from validated data is written as: the write
    is refused for a budget beyond INTEGER, and the row holds what was sent
    otherwise; of the CHECKs, only the one on [email] can then fail. *)
Lemma assign_returned data rid owner created updated
    c1 c2 c3 c4 c5 c6 c7 c8 c9 c10 c11 c12 c13 c14 :
  (forall k, returned k (get k data)) -> rulesHold form data ->
  let p := NewBuyer_row data in
  let written :=
    Sql.assign p rid owner created updated
      c1 c2 c3 c4 c5 c6 c7 c8 c9 c10 c11 c12 c13 c14 in
  (exists n, budgetMin data = JNumber n /\ (2147483647 < n)%Z
             /\ written = inl (Sql.invalid_input "budget_min"))
  \/ (exists n, budgetMax data = JNumber n /\ (2147483647 < n)%Z
                /\ written = inl (Sql.invalid_input "budget_max"))
  \/ exists NEW,
       written = inr NEW
       /\ selected NEW = p
       /\ Sql.id NEW = rid /\ Sql.owner_id NEW = owner
       /\ Sql.created_at NEW = created /\ Sql.updated_at NEW = updated
       /\ Sql.check_constraints NEW
          = (if Sql.null_or Sql.email_pattern (Sql.email NEW) then None
             else Some (Sql.check_violation "buyers_email_check"))
       /\ (forall s, Sql.email NEW = Some s -> email data = JString s /\ s <> "")
       /\ (forall s, email data = JString s -> s <> "" -> Sql.email NEW = Some s)
       /\ (forall n, budgetMin data = JNumber n -> (n <= 2147483647)%Z)
       /\ (forall n, budgetMax data = JNumber n -> (n <= 2147483647)%Z).
Proof.
  intros Hk [Hbhk Hrange] p written. subst p written.
  destruct (col_text "full_name" c1 _ _ (Hk KfullName))
    as (full_name & E1 & Efn & Hfn1 & Hfn2).
  destruct (col_text_optional "email" c2 _ _ (Hk Kemail)) as (em & E2 & Eem & Hem).
  destruct (col_text "phone" c3 _ _ (Hk Kphone)) as (ph & E3 & Eph & Hph).
  destruct (col_enum cityValues "city" c4 _ enum_in_city (Hk Kcity))
    as (ci & E4 & Eci).
  destruct (col_enum propertyTypeValues "property_type" c5 _ enum_in_property
              (Hk KpropertyType)) as (pt & E5 & Ept).
  destruct (col_bhk c6 _ (Hk Kbhk)) as (bh & E6 & Ebh & Hbh).
  destruct (col_enum purposeValues "purpose" c7 _ enum_in_purpose (Hk Kpurpose))
    as (pu & E7 & Epu).
  destruct (col_enum timelineValues "timeline" c10 _ enum_in_timeline
              (Hk Ktimeline)) as (ti & E10 & Eti).
  destruct (col_enum sourceValues "source" c11 _ enum_in_source (Hk Ksource))
    as (so & E11 & Eso).
  destruct (col_enum statusValues "status" c12 _ enum_in_status (Hk Kstatus))
    as (st & E12 & Est).
  destruct (col_text_optional "notes" c13 _ _ (Hk Knotes)) as (no & E13 & Eno & Hno).
  destruct (col_tags c14 _ (Hk Ktags)) as (tg & E14 & Etg).
  cbn [get] in *.
  unfold Sql.assign, NewBuyer_row.
  cbn [Payload.full_name Payload.email Payload.phone Payload.city
       Payload.property_type Payload.bhk Payload.purpose Payload.budget_min
       Payload.budget_max Payload.timeline Payload.source Payload.status
       Payload.notes Payload.tags].
  rewrite E1, bind_ret, E2, bind_ret, E3, bind_ret, E4, bind_ret, E5, bind_ret,
    E6, bind_ret, E7, bind_ret.
  destruct (col_budget "budget_min" c8 _ (Hk KbudgetMin))
    as [(n & En & Hn & E8) | (lo & E8 & Elo & Hlo & Hlo')]; cbn [get] in *.
  { left. exists n. by rewrite E8. }
  rewrite E8, bind_ret.
  destruct (col_budget "budget_max" c9 _ (Hk KbudgetMax))
    as [(n & En & Hn & E9) | (hi & E9 & Ehi & Hhi & Hhi')]; cbn [get] in *.
  { right. left. exists n. by rewrite E9. }
  rewrite E9, bind_ret, E10, bind_ret, E11, bind_ret, E12, bind_ret, E13,
    bind_ret, E14, bind_ret.
  right. right. eexists. split; [done|].
  split.
  { unfold selected. cbn [Sql.full_name Sql.email Sql.phone Sql.city
      Sql.property_type Sql.bhk Sql.purpose Sql.budget_min Sql.budget_max
      Sql.timeline Sql.source Sql.status Sql.notes Sql.tags].
    by rewrite Efn, Eem, Eph, Eci, Ept, Ebh, Epu, Elo, Ehi, Eti, Eso, Est, Eno, Etg. }
  do 4 (split; [done|]). split.
  - unfold Sql.check_constraints.
    cbn [Sql.full_name Sql.email Sql.phone Sql.property_type Sql.bhk
         Sql.budget_min Sql.budget_max Sql.notes].
    destruct (Nat.leb_spec 2 (String.length full_name)); [|lia].
    destruct (Nat.leb_spec (String.length full_name) 80); [|lia].
    cbn [andb negb].
    destruct (Sql.null_or Sql.email_pattern em); [|done]. cbn [negb].
    rewrite Hph. cbn [negb].
    assert (Hlo0 : Sql.null_or (fun n => (0 <=? n)%Z) lo = true).
    { destruct lo as [n|]; [|done]. destruct (Hlo n eq_refl) as [_ ?].
      simpl. apply Z.leb_le. lia. }
    assert (Hhi0 : Sql.null_or (fun n => (0 <=? n)%Z) hi = true).
    { destruct hi as [n|]; [|done]. destruct (Hhi n eq_refl) as [_ ?].
      simpl. apply Z.leb_le. lia. }
    rewrite Hlo0, Hhi0. cbn [negb].
    assert (Hnotes : Sql.null_or (fun s => String.length s <=? 1000) no = true).
    { destruct no as [n|]; [|done]. destruct (Hno n eq_refl) as (_ & _ & ?).
      simpl. by apply Nat.leb_le. }
    rewrite Hnotes. cbn [negb].
    assert (Horder : match lo, hi with
                     | Some lo, Some hi => (lo <=? hi)%Z
                     | _, _ => true
                     end = true).
    { destruct lo as [a|]; [|done]. destruct hi as [b|]; [|done].
      destruct (Hlo a eq_refl) as [Ea ?]. destruct (Hhi b eq_refl) as [Eb ?].
      apply Z.leb_le. apply Hrange.
      - exact Ea.
      - exact Eb.
      - lia.
      - lia. }
    rewrite Horder. cbn [negb].
    assert (Hreq : match pt with
                   | Sql.Apartment | Sql.Villa => bool_decide (bh <> None)
                   | _ => true
                   end = true).
    { destruct pt; try done; apply bool_decide_eq_true, Hbh, Hbhk;
        rewrite <- Ept; auto. }
    by rewrite Hreq.
  - split; [|split; [|done]].
    + intros s E. cbn [Sql.email] in E. by destruct (Hem s E) as (? & ? & _).
    + intros s Es Hne. cbn [Sql.email]. rewrite Es in Eem.
      unfold jsOr in Eem. cbn [truthy] in Eem.
      rewrite string_nonempty_eqb in Eem by done.
      by destruct em as [e|]; [injection Eem as ->|].
Qed.

Lemma insert_row_returned data uid now db :
  (forall k, returned k (get k data)) -> rulesHold form data ->
  let inserted := Sql.insert_row uid now (NewBuyer_row data, uid) db in
  (exists n, budgetMin data = JNumber n /\ (2147483647 < n)%Z
             /\ inserted = inl (Sql.invalid_input "budget_min"))
  \/ (exists n, budgetMax data = JNumber n /\ (2147483647 < n)%Z
                /\ inserted = inl (Sql.invalid_input "budget_max"))
  \/ (exists s, email data = JString s /\ s <> ""
                /\ Sql.email_pattern s = false
                /\ inserted = inl (Sql.check_violation "buyers_email_check"))
  \/ exists NEW,
       inserted
       = inr (Sql.mkDb (Sql.tbl_buyers db ++ [NEW])
                (Sql.tbl_buyer_history db
                 ++ [createdEntry (S (Sql.next_uuid db)) (Sql.next_uuid db) uid now])
                (S (S (Sql.next_uuid db))))
       /\ selected NEW = NewBuyer_row data
       /\ Sql.id NEW = Sql.next_uuid db /\ Sql.owner_id NEW = uid
       /\ Sql.created_at NEW = now /\ Sql.updated_at NEW = now
       /\ Sql.check_constraints NEW = None
       /\ fitsTable data.
Proof.
  intros Hk Hrules inserted. subst inserted. unfold Sql.insert_row. cbn [fst snd].
  destruct (assign_returned data (Sql.next_uuid db) uid now now
              None None None None None None None None None None None
              (Some Sql.New) None None Hk Hrules)
    as [(n & En & Hn & E) | [(n & En & Hn & E)
        | (NEW & E & Hsel & Hid & Howner & Hc & Hu & Hchk & Hem & Hem' & Hlo & Hhi)]].
  - left. exists n. by rewrite E.
  - right. left. exists n. by rewrite E.
  - right. right. rewrite E, bind_ret, Howner.
    rewrite bool_decide_true by done. cbn [negb]. rewrite Hchk.
    destruct (Sql.email NEW) as [s|] eqn:Es; cbn [Sql.null_or] in *.
    + destruct (Hem s eq_refl) as [Eem Hne].
      destruct (Sql.email_pattern s) eqn:Ep.
      * right. exists NEW. unfold Sql.log_buyer_creation, Sql.insert_history.
        cbn [Sql.tbl_buyers Sql.tbl_buyer_history Sql.next_uuid].
        rewrite Hid. repeat split; try done.
        intros s' Es' Hne'. specialize (Hem' s' Es' Hne'). congruence.
      * left. by exists s.
    + right. exists NEW. unfold Sql.log_buyer_creation, Sql.insert_history.
      cbn [Sql.tbl_buyers Sql.tbl_buyer_history Sql.next_uuid].
      rewrite Hid. repeat split; try done.
      intros s' Es' Hne'. specialize (Hem' s' Es' Hne'). congruence.
Qed.

Lemma withTags_returned data tagList :
  (forall k, returned k (get k data)) -> rulesHold form data ->
  (forall k, returned k (get k (withTags data tagList)))
  /\ rulesHold form (withTags data tagList).
Proof.
  intros Hk Hrules. split; [|exact Hrules].
  intros k. specialize (Hk k). destruct k; try exact Hk.
  right. by eexists.
Qed.

Lemma fitsTable_withTags data tagList :
  fitsTable data -> fitsTable (withTags data tagList).
Proof. done. Qed.

(** X4. A form that validates, and whose data also fits the table, creates the
    Lead: one row is added, owned by the user, stamped with the time of the
    request and holding exactly what the page sent (a zero budget and an
    empty text as NULL); the trigger adds its "created" entry to the history;
    the page shows its success toast and goes back to the list. *)
Theorem validated_form_creates_the_lead values tagList data uid now db :
  validate form values = inl data ->
  fitsTable data ->
  exists NEW,
    handleFormSubmit (fun d => NewBuyer_handleSubmit (Some uid) now d db)
      values tagList
    = Some (mkPageResult
              (Sql.mkDb (Sql.tbl_buyers db ++ [NEW])
                 (Sql.tbl_buyer_history db
                  ++ [createdEntry (S (Sql.next_uuid db)) (Sql.next_uuid db)
                        uid now])
                 (S (S (Sql.next_uuid db))))
              [mkToast "Success" (text "Buyer lead created successfully!") false]
              (Some "/buyers"))
    /\ selected NEW = NewBuyer_row (withTags data tagList)
    /\ Sql.id NEW = Sql.next_uuid db /\ Sql.owner_id NEW = uid
    /\ Sql.created_at NEW = now /\ Sql.updated_at NEW = now.
Proof.
  intros Hv (Hemail & Hlo & Hhi).
  destruct (validate_returns _ _ _ Hv) as [Hk Hrules].
  destruct (withTags_returned data tagList Hk Hrules) as [Hk' Hrules'].
  unfold handleFormSubmit. rewrite Hv.
  unfold NewBuyer_handleSubmit, Sql.insert_rows.
  destruct (insert_row_returned (withTags data tagList) uid now db Hk' Hrules')
    as [(n & En & Hn & E) | [(n & En & Hn & E) | [(s & Es & Hne & Hp & E)
        | (NEW & E & Hsel & Hrest)]]].
  - specialize (Hlo n En). lia.
  - specialize (Hhi n En). lia.
  - rewrite (Hemail s Es Hne) in Hp. done.
  - exists NEW. rewrite E, bind_ret. cbn [Sql.insert_rows].
    by destruct Hrest as (? & ? & ? & ? & _).
Qed.


(** ** The database: what a statement does to the tables *)

Lemma assign_meta p rid owner created updated
    c1 c2 c3 c4 c5 c6 c7 c8 c9 c10 c11 c12 c13 c14 r :
  Sql.assign p rid owner created updated
    c1 c2 c3 c4 c5 c6 c7 c8 c9 c10 c11 c12 c13 c14 = inr r ->
  Sql.id r = rid /\ Sql.owner_id r = owner
  /\ Sql.created_at r = created /\ Sql.updated_at r = updated.
Proof. unfold Sql.assign. intros H. bind_inv H. by injection H as <-. Qed.

Lemma insert_row_inr uid now p owner db db' :
  Sql.insert_row uid now (p, owner) db = inr db' ->
  exists NEW,
    insertedRow p (Sql.next_uuid db) owner now = inr NEW
    /\ owner = uid
    /\ Sql.check_constraints NEW = None
    /\ db' = Sql.mkDb (Sql.tbl_buyers db ++ [NEW])
               (Sql.tbl_buyer_history db
                ++ [createdEntry (S (Sql.next_uuid db)) (Sql.next_uuid db) uid now])
               (S (S (Sql.next_uuid db))).
Proof.
  unfold Sql.insert_row. cbn [fst snd]. intros H.
  apply bind_inr in H as (NEW & E & H). exists NEW. split; [exact E|].
  apply assign_meta in E as (Hid & Howner & _).
  case_bool_decide as Hu; [|done]. cbn [negb] in H.
  destruct (Sql.check_constraints NEW) eqn:Hc; [done|].
  injection H as <-. rewrite Howner in Hu. split; [done|]. split; [done|].
  unfold Sql.log_buyer_creation, Sql.insert_history, createdEntry.
  cbn [Sql.tbl_buyers Sql.tbl_buyer_history Sql.next_uuid]. by rewrite Hid.
Qed.

Lemma mapM_inr {A B} (f : A -> Sql.error + B) l written :
  mapM f l = inr written <-> Forall2 (fun x w => f x = inr w) l written.
Proof.
  revert written. induction l as [|x l IH]; intros written; simpl.
  - split; [intros [= <-]; constructor|by inversion 1].
  - split.
    + intros H. apply bind_inr in H as (y & Ey & H).
      apply bind_inr in H as (k & Ek & H). injection H as <-.
      constructor; [done|]. by apply IH.
    + inversion 1 as [|? w ? ws Ey Hws]; subst.
      apply IH in Hws. by rewrite Ey, bind_ret, Hws, bind_ret.
Qed.

(** A row under an UPDATE: left alone unless it carries the identifier
    asked for and belongs to the user; otherwise written from the payload,
    stamped and checked. *)
Lemma update_row_inr uid now rid p OLD w :
  Sql.update_row uid now rid p OLD = inr w ->
  (w = (OLD, None) /\ ~ (Sql.id OLD = rid /\ Sql.owner_id OLD = uid))
  \/ (Sql.id OLD = rid /\ Sql.owner_id OLD = uid
      /\ exists r,
           updatedRow p OLD = inr r
           /\ w = (Sql.update_updated_at_column now r, Some OLD)
           /\ Sql.check_constraints (Sql.update_updated_at_column now r) = None).
Proof.
  unfold Sql.update_row.
  case_bool_decide as Hid; [case_bool_decide as Ho|]; cbn [andb].
  - intros H. apply bind_inr in H as (r & E & H). right.
    split; [done|]. split; [done|]. exists r. split; [exact E|].
    destruct (Sql.check_constraints _) eqn:Hc; [done|]. by injection H as <-.
  - intros [= <-]. left. split; [done|]. tauto.
  - intros [= <-]. left. split; [done|]. tauto.
Qed.

Lemma updated_meta p OLD r now :
  updatedRow p OLD = inr r ->
  let NEW := Sql.update_updated_at_column now r in
  Sql.id NEW = Sql.id OLD /\ Sql.owner_id NEW = Sql.owner_id OLD
  /\ Sql.created_at NEW = Sql.created_at OLD /\ Sql.updated_at NEW = now.
Proof. intros (? & ? & ? & ?)%assign_meta. done. Qed.

(** The history rows the AFTER UPDATE trigger adds for the rows an UPDATE
    wrote: at most one per row written, numbered by the generator. *)
Lemma track_written uid now (written : list (Sql.buyers * option Sql.buyers)) acc :
  let db' := foldl (fun acc w =>
                      match w.2 with
                      | Some OLD => Sql.track_buyer_changes uid now OLD w.1 acc
                      | None => acc
                      end) acc written in
  Sql.tbl_buyers db' = Sql.tbl_buyers acc
  /\ exists hs,
       Sql.tbl_buyer_history db' = Sql.tbl_buyer_history acc ++ hs
       /\ Sql.next_uuid db' = Sql.next_uuid acc + length hs
       /\ map Sql.h_id hs = seq (Sql.next_uuid acc) (length hs)
       /\ Forall (fun h =>
                    exists w OLD,
                      w ∈ written /\ w.2 = Some OLD
                      /\ Sql.buyer_id h = Sql.id w.1
                      /\ Sql.changed_by h = Some uid
                      /\ Sql.changed_at h = now
                      /\ Sql.diff h = Sql.track_buyer_changes_diff OLD w.1
                      /\ Sql.diff h <> ∅) hs.
Proof.
  revert acc. induction written as [|w written IH]; intros acc; cbn [foldl].
  - split; [done|]. exists []. rewrite app_nil_r. simpl. by rewrite Nat.add_0_r.
  - set (acc' := match w.2 with
                 | Some OLD => Sql.track_buyer_changes uid now OLD w.1 acc
                 | None => acc
                 end).
    destruct (IH acc') as (Htbl & hs & Hh & Hn & Hids & Hhs).
    assert (Hstep :
      Sql.tbl_buyers acc' = Sql.tbl_buyers acc
      /\ exists h0,
           Sql.tbl_buyer_history acc' = Sql.tbl_buyer_history acc ++ h0
           /\ Sql.next_uuid acc' = Sql.next_uuid acc + length h0
           /\ map Sql.h_id h0 = seq (Sql.next_uuid acc) (length h0)
           /\ Forall (fun h =>
                        exists OLD,
                          w.2 = Some OLD
                          /\ Sql.buyer_id h = Sql.id w.1
                          /\ Sql.changed_by h = Some uid
                          /\ Sql.changed_at h = now
                          /\ Sql.diff h = Sql.track_buyer_changes_diff OLD w.1
                          /\ Sql.diff h <> ∅) h0).
    { subst acc'. destruct (w.2) as [OLD|] eqn:Ew.
      - unfold Sql.track_buyer_changes. case_bool_decide as Hd.
        + split; [done|]. eexists [_]. cbn.
          split; [done|]. split; [lia|]. split; [done|].
          constructor; [|done]. by exists OLD.
        + split; [done|]. exists []. rewrite app_nil_r. simpl.
          by rewrite Nat.add_0_r.
      - split; [done|]. exists []. rewrite app_nil_r. simpl.
        by rewrite Nat.add_0_r. }
    destruct Hstep as (Htbl0 & h0 & Hh0 & Hn0 & Hids0 & Hh0s).
    split; [by rewrite Htbl|]. exists (h0 ++ hs).
    rewrite Hh, Hh0, Hn, Hn0, length_app, map_app, Hids0, Hids, Hn0.
    split; [by rewrite app_assoc|]. split; [lia|].
    split; [by rewrite seq_app|].
    apply Forall_app. split.
    + eapply Forall_impl; [exact Hh0s|].
      intros h (OLD & ? & ?). exists w, OLD. split; [left|]; done.
    + eapply Forall_impl; [exact Hhs|].
      intros h (w' & OLD & ? & ?). exists w', OLD. split; [by right|done].
Qed.

Lemma update_where_id_inr uid now rid p db db' :
  Sql.update_where_id uid now rid p db = inr db' ->
  exists written hs,
    Forall2 (fun OLD w => Sql.update_row uid now rid p OLD = inr w)
      (Sql.tbl_buyers db) written
    /\ Sql.tbl_buyers db' = written.*1
    /\ Sql.tbl_buyer_history db' = Sql.tbl_buyer_history db ++ hs
    /\ Sql.next_uuid db' = Sql.next_uuid db + length hs
    /\ map Sql.h_id hs = seq (Sql.next_uuid db) (length hs)
    /\ Forall (fun h =>
                 exists w OLD,
                   w ∈ written /\ w.2 = Some OLD
                   /\ Sql.buyer_id h = Sql.id w.1
                   /\ Sql.changed_by h = Some uid
                   /\ Sql.changed_at h = now
                   /\ Sql.diff h = Sql.track_buyer_changes_diff OLD w.1
                   /\ Sql.diff h <> ∅) hs.
Proof.
  unfold Sql.update_where_id. intros H.
  apply bind_inr in H as (written & Hw & H). injection H as <-.
  apply mapM_inr in Hw. exists written.
  destruct (track_written uid now written
              (Sql.mkDb (written.*1) (Sql.tbl_buyer_history db) (Sql.next_uuid db)))
    as (Htbl & hs & Hrest).
  exists hs. split; [done|]. split; [exact Htbl|]. exact Hrest.
Qed.

(** ** The database: integrity *)

Lemma insert_row_consistent uid now row db db' :
  consistent db -> Sql.insert_row uid now row db = inr db' -> consistent db'.
Proof.
  intros [Hchk Hpk Hgen Hfk Hhpk Hhgen] H. destruct row as [p owner].
  apply insert_row_inr in H as (NEW & E & _ & Hc & ->).
  apply assign_meta in E as (Hid & _).
  assert (Hfresh : Sql.next_uuid db ∉ map Sql.id (Sql.tbl_buyers db)).
  { intros (r & Er & Hr)%list_elem_of_fmap.
    rewrite Forall_forall in Hgen. specialize (Hgen r Hr). lia. }
  assert (Hhfresh : S (Sql.next_uuid db) ∉ map Sql.h_id (Sql.tbl_buyer_history db)).
  { intros (h & Eh & Hh)%list_elem_of_fmap.
    rewrite Forall_forall in Hhgen. specialize (Hhgen h Hh). lia. }
  constructor; cbn [Sql.tbl_buyers Sql.tbl_buyer_history Sql.next_uuid].
  - apply Forall_app. split; [done|]. by constructor.
  - rewrite map_app. cbn [map]. rewrite Hid. apply NoDup_app.
    split; [done|]. split; [|apply NoDup_singleton].
    intros x Hx ->%list_elem_of_singleton. done.
  - apply Forall_app. split.
    + eapply Forall_impl; [exact Hgen|]. intros r ?. simpl in *. lia.
    + constructor; [|done]. rewrite Hid. lia.
  - rewrite map_app. cbn [map]. rewrite Hid. apply Forall_app. split.
    + eapply Forall_impl; [exact Hfk|]. intros h ?. simpl in *.
      apply elem_of_app. by left.
    + constructor; [|done]. cbn. apply elem_of_app. right.
      by apply list_elem_of_singleton.
  - rewrite map_app. cbn [map createdEntry Sql.h_id]. apply NoDup_app.
    split; [done|]. split; [|apply NoDup_singleton].
    intros x Hx ->%list_elem_of_singleton. done.
  - apply Forall_app. split.
    + eapply Forall_impl; [exact Hhgen|]. intros h ?. simpl in *. lia.
    + constructor; [|done]. cbn. lia.
Qed.

Lemma insert_rows_consistent uid now rows db db' :
  consistent db -> Sql.insert_rows uid now rows db = inr db' -> consistent db'.
Proof.
  revert db. induction rows as [|row rows IH]; intros db Hc; cbn [Sql.insert_rows].
  - by intros [= <-].
  - intros H. apply bind_inr in H as (db1 & E & H).
    eapply IH; [|exact H]. by eapply insert_row_consistent.
Qed.

Lemma update_consistent uid now rid p db db' :
  consistent db -> Sql.update_where_id uid now rid p db = inr db' ->
  consistent db'.
Proof.
  intros [Hchk Hpk Hgen Hfk Hhpk Hhgen] H.
  apply update_where_id_inr in H
    as (written & hs & Hw & Htbl & Hh & Hn & Hids & Hhs).
  assert (Hsame : map Sql.id (written.*1) = map Sql.id (Sql.tbl_buyers db)).
  { clear -Hw. induction Hw as [|OLD w l ws E _ IH]; [done|]. cbn. f_equal; [|done].
    apply update_row_inr in E as [[-> _] | (_ & _ & r & E & -> & _)]; [done|].
    by apply (updated_meta _ _ _ now) in E as (? & _). }
  constructor; rewrite ?Htbl, ?Hh, ?Hn.
  - clear -Hw Hchk. induction Hw as [|OLD w l ws E _ IH]; [done|].
    inversion Hchk; subst. cbn. constructor; [|by apply IH].
    by apply update_row_inr in E as [[-> _] | (_ & _ & r & _ & -> & ?)].
  - by rewrite Hsame.
  - assert (Hgen' : Forall (fun i => i < Sql.next_uuid db)
                      (map Sql.id (Sql.tbl_buyers db))).
    { apply Forall_fmap. exact Hgen. }
    rewrite <- Hsame in Hgen'. apply Forall_fmap in Hgen'.
    eapply Forall_impl; [exact Hgen'|]. intros r ?. simpl in *. lia.
  - rewrite Hsame. apply Forall_app. split; [done|].
    eapply Forall_impl; [exact Hhs|].
    intros h (w & OLD & Hin & _ & -> & _). rewrite <- Hsame.
    apply list_elem_of_fmap. exists (w.1). split; [done|].
    apply list_elem_of_fmap. by exists w.
  - rewrite map_app, Hids. apply NoDup_app. split; [done|].
    split; [|apply NoDup_seq].
    intros x (h & -> & Hx)%list_elem_of_fmap Hseq.
    rewrite Forall_forall in Hhgen. specialize (Hhgen h Hx).
    apply list_elem_of_In, in_seq in Hseq. lia.
  - apply Forall_app. split.
    + eapply Forall_impl; [exact Hhgen|]. intros h ?. simpl in *. lia.
    + assert (Hs : Forall (fun i => i < Sql.next_uuid db + length hs)
                     (map Sql.h_id hs)).
      { rewrite Hids. apply Forall_forall.
        intros x Hx%list_elem_of_In%in_seq. lia. }
      apply Forall_fmap in Hs. exact Hs.
Qed.

Lemma delete_consistent uid rid db db' :
  consistent db -> Sql.delete_where_id uid rid db = inr db' -> consistent db'.
Proof.
  intros [Hchk Hpk Hgen Hfk Hhpk Hhgen]. unfold Sql.delete_where_id.
  intros [= <-].
  set (deleted := fun r : Sql.buyers =>
         bool_decide (Sql.id r = rid) && bool_decide (Sql.owner_id r = uid)).
  constructor; cbn [Sql.tbl_buyers Sql.tbl_buyer_history Sql.next_uuid].
  - apply Forall_forall. intros r [Hr _]%list_elem_of_In%filter_In.
    rewrite Forall_forall in Hchk. by apply Hchk, list_elem_of_In.
  - clear -Hpk. induction (Sql.tbl_buyers db) as [|r l IH]; [done|].
    cbn in *. apply NoDup_cons in Hpk as [Hr Hl].
    destruct (negb _); [|by apply IH]. cbn. apply NoDup_cons.
    split; [|by apply IH].
    intros (x & E & [Hx _]%list_elem_of_In%filter_In)%list_elem_of_fmap.
    apply Hr, list_elem_of_fmap. exists x. split; [done|]. by apply list_elem_of_In.
  - apply Forall_forall. intros r [Hr _]%list_elem_of_In%filter_In.
    rewrite Forall_forall in Hgen. by apply Hgen, list_elem_of_In.
  - apply Forall_forall. intros h [Hh Hkeep]%list_elem_of_In%filter_In.
    rewrite Forall_forall in Hfk.
    apply list_elem_of_In, Hfk, list_elem_of_fmap in Hh as (r & E & Hr).
    apply list_elem_of_fmap. exists r. split; [done|].
    apply list_elem_of_In, filter_In. split; [by apply list_elem_of_In|].
    change (negb (deleted r) = true).
    destruct (deleted r) eqn:Ed; [|done]. exfalso.
    apply negb_true_iff, bool_decide_eq_false in Hkeep. apply Hkeep.
    rewrite E. apply list_elem_of_fmap. exists r. split; [done|].
    apply list_elem_of_In, filter_In. split; [by apply list_elem_of_In|done].
  - clear -Hhpk. induction (Sql.tbl_buyer_history db) as [|h l IH]; [done|].
    cbn in *. apply NoDup_cons in Hhpk as [Hh Hl].
    destruct (negb _); [|by apply IH]. cbn. apply NoDup_cons.
    split; [|by apply IH].
    intros (x & E & [Hx _]%list_elem_of_In%filter_In)%list_elem_of_fmap.
    apply Hh, list_elem_of_fmap. exists x. split; [done|]. by apply list_elem_of_In.
  - apply Forall_forall. intros h [Hh _]%list_elem_of_In%filter_In.
    rewrite Forall_forall in Hhgen. by apply Hhgen, list_elem_of_In.
Qed.

Lemma serve_consistent db r : consistent db -> consistent (serve db r).
Proof.
  intros Hc. unfold serve, execute.
  destruct r as [[uid now] [rows|rid p|rid]]; cbn [fst snd].
  - destruct (Sql.insert_rows uid now rows db) eqn:E; [done|].
    by eapply insert_rows_consistent.
  - destruct (Sql.update_where_id uid now rid p db) eqn:E; [done|].
    by eapply update_consistent.
  - destruct (Sql.delete_where_id uid rid db) eqn:E; [done|].
    by eapply delete_consistent.
Qed.

(** X6. Whatever requests are served, by whatever users, the stored data keeps
    its integrity: every row of [buyers] satisfies the CHECKs of the table,
    identifiers are unique in both tables, and every history row refers to a
    Lead that is stored (deleting a Lead takes its history along).  In
    particular every state reached from the empty tables has it. *)
Theorem stored_data_keeps_its_integrity :
  (forall db requests, consistent db -> consistent (run db requests))
  /\ (forall n requests, consistent (run (Sql.mkDb [] [] n) requests)).
Proof.
  assert (Hrun : forall requests db, consistent db -> consistent (run db requests)).
  { induction requests as [|r requests IH]; intros db Hc; [done|].
    cbn [run foldl]. apply IH. by apply serve_consistent. }
  split; [intros db requests; apply Hrun|].
  intros n requests. apply Hrun. by constructor; cbn; constructor.
Qed.

(** ** The database: ownership *)

(** X7. An UPDATE sent by a user writes no row but the user's own row with the
    identifier asked for: every other row is left as it is; a row that is
    written keeps its identifier, owner and creation time and is stamped
    with the time of the request; the history only grows, by entries about
    that Lead, attributed to the user. *)
Theorem update_writes_only_the_users_row uid now rid p db db' :
  Sql.update_where_id uid now rid p db = inr db' ->
  Forall2 (fun OLD NEW =>
             Sql.id NEW = Sql.id OLD /\ Sql.owner_id NEW = Sql.owner_id OLD
             /\ Sql.created_at NEW = Sql.created_at OLD
             /\ (Sql.id OLD = rid /\ Sql.owner_id OLD = uid ->
                 Sql.updated_at NEW = now)
             /\ (~ (Sql.id OLD = rid /\ Sql.owner_id OLD = uid) -> NEW = OLD))
    (Sql.tbl_buyers db) (Sql.tbl_buyers db')
  /\ exists hs,
       Sql.tbl_buyer_history db' = Sql.tbl_buyer_history db ++ hs
       /\ Forall (fun h => Sql.buyer_id h = rid
                           /\ Sql.changed_by h = Some uid
                           /\ Sql.changed_at h = now) hs.
Proof.
  intros H. apply update_where_id_inr in H
    as (written & hs & Hw & Htbl & Hh & _ & _ & Hhs).
  split.
  - rewrite Htbl. apply Forall2_fmap_r.
    eapply Forall2_impl; [exact Hw|]. intros OLD w E. cbn beta in *.
    apply update_row_inr in E as [[-> Hno] | (Hid & Ho & r & E & -> & _)].
    + cbn [fst]. by repeat split.
    + cbn [fst]. apply (updated_meta _ _ _ now) in E as (? & ? & ? & ?).
      repeat split; try done. intros Hno. destruct Hno. done.
  - exists hs. split; [done|].
    eapply Forall_impl; [exact Hhs|].
    intros h (w & OLD & Hin & Ew & -> & -> & -> & _).
    split; [|done].
    apply list_elem_of_lookup in Hin as (i & Hi).
    destruct (Forall2_lookup_r _ _ _ _ _ Hw Hi) as (OLD' & _ & E).
    apply update_row_inr in E as [[-> _] | (Hid & _ & r & E & -> & _)]; [done|].
    cbn [fst]. by apply (updated_meta _ _ _ now) in E as (-> & _).
Qed.

Lemma update_without_match uid now rid p db :
  (forall r, r ∈ Sql.tbl_buyers db ->
             ~ (Sql.id r = rid /\ Sql.owner_id r = uid)) ->
  Sql.update_where_id uid now rid p db = inr db.
Proof.
  intros Hno. unfold Sql.update_where_id.
  assert (Hw : mapM (Sql.update_row uid now rid p) (Sql.tbl_buyers db)
               = inr (map (fun r => (r, None)) (Sql.tbl_buyers db))).
  { apply mapM_inr. apply Forall2_fmap_r, Forall2_same_length_lookup.
    split; [done|]. intros i r r' Hr Hr'. rewrite Hr in Hr'.
    injection Hr' as <-. cbn [fst].
    apply list_elem_of_lookup_2 in Hr. specialize (Hno r Hr).
    unfold Sql.update_row.
    case_bool_decide; [case_bool_decide|]; cbn [andb]; try done.
    by destruct Hno. }
  rewrite Hw, bind_ret. f_equal.
  assert (Hfold : forall l acc,
            foldl (fun acc (w : Sql.buyers * option Sql.buyers) =>
                     match w.2 with
                     | Some OLD => Sql.track_buyer_changes uid now OLD w.1 acc
                     | None => acc
                     end) acc (map (fun r => (r, None)) l) = acc).
  { induction l as [|r l IH]; intros acc; [done|]. cbn. apply IH. }
  rewrite Hfold.
  rewrite <- list_fmap_compose.
  change (fst ∘ (fun r : Sql.buyers => (r, None (A:=Sql.buyers)))) with (@id Sql.buyers).
  rewrite list_fmap_id. by destruct db.
Qed.

(** X8. When the table holds no Lead of the user with the identifier of the
    Lead the edit page loaded (the Lead was deleted meanwhile, or is not the
    user's), the submit handler writes nothing, and reports success.  The
    form is taken to hold data the table would store. *)
Theorem edit_of_a_missing_lead_reports_success
    values tagList data loaded uid now db :
  validate form values = inl data ->
  fitsTable data ->
  (forall r, r ∈ Sql.tbl_buyers db -> Sql.id r = Sql.id loaded ->
             Sql.owner_id r <> uid) ->
  handleFormSubmit
    (fun d => EditBuyer_handleSubmit (Some loaded) (Some uid) now d db)
    values tagList
  = Some (mkPageResult db
            [mkToast "Success" (text "Buyer lead updated successfully!") false]
            (Some ("/buyers/" +:+ js_id (Sql.id loaded)))).
Proof.
  intros Hv _ Hno. unfold handleFormSubmit. rewrite Hv.
  unfold EditBuyer_handleSubmit.
  rewrite update_without_match; [done|].
  intros r Hr [Hid Ho]. by apply (Hno r Hr).
Qed.

Lemma filter_none {A} (f : A -> bool) l :
  (forall x, x ∈ l -> f x = false) -> List.filter f l = [].
Proof.
  induction l as [|x l IH]; intros H; [done|]. cbn.
  rewrite (H x) by left. apply IH. intros y Hy. apply H. by right.
Qed.

Lemma filter_all {A} (f : A -> bool) l :
  (forall x, x ∈ l -> f x = true) -> List.filter f l = l.
Proof.
  induction l as [|x l IH]; intros H; [done|]. cbn.
  rewrite (H x) by left. f_equal. apply IH. intros y Hy. apply H. by right.
Qed.

(** Under a primary key, the rows with the key of a stored row are that row. *)
Lemma filter_unique {A} (key : A -> nat) (P : A -> bool) l r :
  NoDup (map key l) -> r ∈ l ->
  List.filter (fun x => bool_decide (key x = key r) && P x) l
  = if P r then [r] else [].
Proof.
  induction l as [|x l IH]; intros Hnd Hr; [by apply elem_of_nil in Hr|].
  cbn in Hnd. apply NoDup_cons in Hnd as [Hx Hl].
  apply elem_of_cons in Hr as [-> | Hr]; cbn [List.filter].
  - rewrite bool_decide_true by done. cbn [andb].
    rewrite filter_none; [done|].
    intros y Hy. rewrite bool_decide_false; [done|].
    intros E. apply Hx. rewrite <- E. apply list_elem_of_fmap. by exists y.
  - rewrite bool_decide_false.
    + cbn [andb]. by apply IH.
    + intros E. apply Hx. rewrite E. apply list_elem_of_fmap. by exists r.
Qed.

(** X9. The detail and edit pages load a Lead only for its owner: for the
    identifier of a stored Lead, [fetchBuyer] hands the Lead to its owner, and
    gives any other user the error of [.single()] and the way back to the
    list, the page keeping what it had. *)
Theorem fetchBuyer_serves_the_owner_only PGRST116 uid st db r :
  consistent db -> r ∈ Sql.tbl_buyers db ->
  fetchBuyer PGRST116 (Some (Sql.id r)) (Some uid) st db
  = if bool_decide (Sql.owner_id r = uid)
    then mkFetchResult (mkFetchState (Some r) false) [] None
    else mkFetchResult (mkFetchState (buyer st) false)
           [mkToast "Error" (text PGRST116) true] (Some "/buyers").
Proof.
  intros [_ Hpk _ _ _ _] Hr. unfold fetchBuyer, Sql.select_where_id.
  rewrite (filter_unique Sql.id (fun x => bool_decide (uid = Sql.owner_id x)))
    by done.
  repeat case_bool_decide; try done; congruence.
Qed.

(** X10. Deleting a stored Lead of one's own removes that row and every history
    row about it, and nothing else. *)
Theorem delete_removes_the_lead_and_its_history loaded uid db :
  consistent db -> loaded ∈ Sql.tbl_buyers db -> Sql.owner_id loaded = uid ->
  BuyerDetails_handleDelete (Some loaded) (Some uid) db
  = mkPageResult
      (Sql.mkDb
         (List.filter (fun r => negb (bool_decide (Sql.id r = Sql.id loaded)))
            (Sql.tbl_buyers db))
         (List.filter
            (fun h => negb (bool_decide (Sql.buyer_id h = Sql.id loaded)))
            (Sql.tbl_buyer_history db))
         (Sql.next_uuid db))
      [mkToast "Success" (text "Buyer lead deleted successfully!") false]
      (Some "/buyers").
Proof.
  intros [_ Hpk _ _ _ _] Hin Ho.
  unfold BuyerDetails_handleDelete, Sql.delete_where_id.
  rewrite (filter_unique Sql.id (fun x => bool_decide (Sql.owner_id x = uid)))
    by done.
  rewrite bool_decide_true by done. cbn [map].
  f_equal. f_equal.
  - apply filter_ext_in. intros r Hr%list_elem_of_In. f_equal.
    destruct (decide (Sql.id r = Sql.id loaded)) as [E|E].
    + assert (r = loaded) as ->; [|by rewrite !bool_decide_true].
      apply list_elem_of_lookup in Hr as (i & Hi).
      apply list_elem_of_lookup in Hin as (j & Hj).
      assert (i = j) as ->; [|congruence].
      eapply NoDup_lookup; [exact Hpk| |].
      * rewrite list_lookup_fmap, Hi. done.
      * rewrite list_lookup_fmap, Hj. cbn. by rewrite E.
    + by rewrite !(bool_decide_false (Sql.id r = Sql.id loaded)).
  - apply filter_ext. intros h. f_equal. apply bool_decide_ext.
    by rewrite list_elem_of_singleton.
Qed.

(** X11. Deleting a Lead that is not stored as one's own (it was deleted
    meanwhile, or belongs to another user) changes nothing, and reports
    success. *)
Theorem delete_of_a_missing_lead_reports_success loaded uid db :
  (forall r, r ∈ Sql.tbl_buyers db -> Sql.id r = Sql.id loaded ->
             Sql.owner_id r <> uid) ->
  BuyerDetails_handleDelete (Some loaded) (Some uid) db
  = mkPageResult db
      [mkToast "Success" (text "Buyer lead deleted successfully!") false]
      (Some "/buyers").
Proof.
  intros Hno. unfold BuyerDetails_handleDelete, Sql.delete_where_id.
  assert (Hnone : forall r, r ∈ Sql.tbl_buyers db ->
            bool_decide (Sql.id r = Sql.id loaded)
            && bool_decide (Sql.owner_id r = uid) = false).
  { intros r Hr. case_bool_decide as Hid; [|done].
    rewrite bool_decide_false; [done|]. by apply Hno. }
  rewrite (filter_none _ _ Hnone). cbn [map].
  rewrite !filter_all.
  - by destruct db.
  - intros h _. by rewrite bool_decide_false by apply not_elem_of_nil.
  - intros r Hr. by rewrite Hnone.
Qed.

(** ** The import *)

Lemma invalid_has_issues m candidate :
  Zod.status (schemaOf m candidate) <> Zod.valid ->
  Zod.issues (schemaOf m candidate) <> [].
Proof.
  intros Hnv Hnil.
  destruct (decide (Forall (fun k => fieldFails m candidate k = false) (keysOf m)))
    as [Hall | Hsome]; rewrite Forall_forall in *.
  - assert (Hk : forall k, fieldFails m candidate k = false)
      by (intros k; apply Hall, all_keys).
    rewrite schema_issues in Hnil. apply app_eq_nil in Hnil as [_ Hrules].
    unfold ruleIssues in Hrules.
    assert (Ht : typeChecks m candidate = true).
    { unfold typeChecks. apply negb_true_iff, bool_decide_eq_false.
      intros (k & _ & Ha)%z_object_aborted. specialize (Hk k).
      unfold fieldFails in Hk. apply negb_false_iff, isValid_status in Hk.
      congruence. }
    rewrite Ht in Hrules. apply Hnv, schema_valid. split; [done|].
    destruct (bhkRefinement _), (budgetRefinement _); done.
  - apply Hsome. intros k _.
    destruct (fieldFails m candidate k) eqn:E; [|done].
    destruct (failing_field_issue _ _ _ E) as (err & Herr & _).
    apply key_issue_reported in Herr. rewrite Hnil in Herr.
    by apply elem_of_nil in Herr.
Qed.

Lemma validate_inr_issues m candidate issues :
  validate m candidate = inr issues -> issues <> [].
Proof.
  intros H.
  destruct (decide (Zod.status (schemaOf m candidate) = Zod.valid)) as [Hv | Hnv].
  - exfalso. revert H. unfold validate, Zod.parse. rewrite Hv.
    rewrite schemaOf_refine_twice in *.
    destruct (refine_twice (z_object (keysOf m) (shapeOf m) candidate)
                (parsedData m candidate) candidate
                bhkRefinement (bhkIssue m) budgetRefinement (budgetIssue m))
      as (_ & _ & Hval); try (by destruct m); [apply z_object_value|].
    by rewrite (Hval Hv).
  - rewrite validate_rejects in H by done. injection H as <-.
    by apply invalid_has_issues.
Qed.

Lemma validateRows_cons uid index r rest :
  validateRows uid index (r :: rest)
  = match validate csv r with
    | inl validated =>
        ((validateRows uid (S index) rest).1,
         (validated, uid) :: (validateRows uid (S index) rest).2)
    | inr issues =>
        (map (fun err =>
                mkImportError (index + 1) (Some (join "." (Zod.path err)))
                  (Zod.message err)) issues
         ++ (validateRows uid (S index) rest).1,
         (validateRows uid (S index) rest).2)
    end.
Proof.
  cbn [validateRows]. destruct (validateRows uid (S index) rest) as [errors ok].
  change (Zod.parse csvBuyerSchema r) with (validate csv r).
  by destruct (validate csv r).
Qed.

Lemma validRowsOf_cons r rest :
  validRowsOf (r :: rest)
  = match validate csv r with
    | inl data => data :: validRowsOf rest
    | inr _ => validRowsOf rest
    end.
Proof. unfold validRowsOf. simpl. by destruct (validate csv r). Qed.

Lemma validateRows_valid uid index rows :
  (validateRows uid index rows).2 = map (fun d => (d, uid)) (validRowsOf rows).
Proof.
  revert index. induction rows as [|r rest IH]; intros index; [done|].
  rewrite validateRows_cons, validRowsOf_cons.
  destruct (validate csv r); cbn [snd map]; by rewrite IH.
Qed.

Lemma validateRows_errors uid index rows e :
  e ∈ (validateRows uid index rows).1
  <-> exists i r issues err,
        rows !! i = Some r /\ validate csv r = inr issues /\ err ∈ issues
        /\ e = mkImportError (index + i + 1) (Some (join "." (Zod.path err)))
                 (Zod.message err).
Proof.
  revert index. induction rows as [|r rest IH]; intros index.
  - split; [by intros ?%elem_of_nil|]. by intros (i & r & ? & ? & ? & _).
  - rewrite validateRows_cons. split.
    + destruct (validate csv r) as [d|issues] eqn:E; cbn [fst].
      * intros (i & r' & iss & err & Hi & Hv & Herr & ->)%IH.
        exists (S i), r', iss, err. repeat split; try done. f_equal. lia.
      * intros [H | H]%elem_of_app.
        -- apply list_elem_of_fmap in H as (err & -> & Herr).
           exists 0, r, issues, err. repeat split; try done. f_equal. lia.
        -- apply IH in H as (i & r' & iss & err & Hi & Hv & Herr & ->).
           exists (S i), r', iss, err. repeat split; try done. f_equal. lia.
    + intros (i & r' & iss & err & Hi & Hv & Herr & ->).
      destruct i as [|i]; cbn in Hi.
      * injection Hi as <-. rewrite Hv. cbn [fst]. apply elem_of_app. left.
        apply list_elem_of_fmap. exists err. split; [|done]. f_equal. lia.
      * assert (Hin : mkImportError (index + S i + 1)
                        (Some (join "." (Zod.path err))) (Zod.message err)
                      ∈ (validateRows uid (S index) rest).1).
        { apply IH. exists i, r', iss, err. repeat split; try done. f_equal. lia. }
        destruct (validate csv r); cbn [fst]; [done|].
        apply elem_of_app. by right.
Qed.

Lemma validRowsOf_length rows : length (validRowsOf rows) <= length rows.
Proof.
  induction rows as [|r rest IH]; [done|]. rewrite validRowsOf_cons.
  destruct (validate csv r); cbn; lia.
Qed.

Lemma validateRows_no_errors uid index rows :
  (validateRows uid index rows).1 = []
  <-> length (validRowsOf rows) = length rows.
Proof.
  revert index. induction rows as [|r rest IH]; intros index; [done|].
  rewrite validateRows_cons, validRowsOf_cons.
  pose proof (validRowsOf_length rest) as Hle.
  destruct (validate csv r) as [d|issues] eqn:E; cbn [fst length].
  - rewrite IH. split; lia.
  - pose proof (validate_inr_issues _ _ _ E) as Hne. split; [|lia].
    intros [H _]%app_eq_nil. by destruct issues.
Qed.

(** X12. The first pass of the import: the rows that validate are kept in
    order, as validated and stamped with the user; every issue of a row that
    does not validate becomes one error, which carries the number of the row
    in the file, counted from 1, the path of the issue joined by dots and its
    message; a row that does not validate has an error; and there is no
    error exactly when every row validates. *)
Theorem import_errors_name_the_failing_rows uid rows :
  let errors := (validateRows uid 0 rows).1 in
  let validRows := (validateRows uid 0 rows).2 in
  validRows = map (fun d => (d, uid)) (validRowsOf rows)
  /\ (forall e,
        e ∈ errors <->
        exists i r issues err,
          rows !! i = Some r /\ validate csv r = inr issues /\ err ∈ issues
          /\ e = mkImportError (i + 1) (Some (join "." (Zod.path err)))
                   (Zod.message err))
  /\ (forall i r issues,
        rows !! i = Some r -> validate csv r = inr issues ->
        exists e, e ∈ errors /\ row e = i + 1)
  /\ (errors = [] <-> length (validRowsOf rows) = length rows).
Proof.
  cbv zeta. split; [apply validateRows_valid|].
  split; [intros e; apply validateRows_errors|].
  split; [|apply validateRows_no_errors].
  intros i r issues Hi Hv.
  pose proof (validate_inr_issues _ _ _ Hv) as Hne.
  destruct issues as [|err issues]; [done|].
  eexists. split; [|shelve].
  apply validateRows_errors. exists i, r, (err :: issues), err.
  split; [done|]. split; [done|]. split; [by left|done].
  Unshelve. done.
Qed.

(** ** Export and re-import of a set of Leads *)



Lemma validRowsOf_returned rows :
  Forall (fun d => (forall k, returned k (get k d)) /\ rulesHold form d)
    (validRowsOf rows).
Proof.
  induction rows as [|r rest IH]; [constructor|]. rewrite validRowsOf_cons.
  destruct (validate csv r) as [d|] eqn:E; [|done].
  constructor; [|done]. by eapply validate_returns.
Qed.

Lemma truthy_status s : s ∈ statusValues -> truthy (JString s) = true.
Proof.
  intros H. apply list_elem_of_In in H. simpl in H.
  repeat (destruct H as [<- | H]; [done|]). done.
Qed.

Lemma dbRow_returned d uid :
  (forall k, returned k (get k d)) -> dbRow (d, uid) = (NewBuyer_row d, uid).
Proof.
  intros Hk. destruct (Hk Kstatus) as (s & E & Hs). cbn [get] in E.
  unfold dbRow, NewBuyer_row. cbn [fst snd]. rewrite E.
  unfold jsOr at 5. by rewrite truthy_status.
Qed.

Lemma storedAs_nil uid db : storedAs uid [] db db.
Proof. exists [], []. by rewrite !app_nil_r. Qed.

Lemma storedAs_app uid sent1 sent2 db db1 db2 :
  storedAs uid sent1 db db1 -> storedAs uid sent2 db1 db2 ->
  storedAs uid (sent1 ++ sent2) db db2.
Proof.
  intros (N1 & h1 & Ht1 & Hs1 & Ho1 & Hh1 & Hb1 & Hd1)
         (N2 & h2 & Ht2 & Hs2 & Ho2 & Hh2 & Hb2 & Hd2).
  exists (N1 ++ N2), (h1 ++ h2).
  rewrite Ht2, Ht1, Hh2, Hh1, !map_app, Hs1, Hs2, Hb1, Hb2, <- !app_assoc.
  repeat split; try done; by apply Forall_app.
Qed.

Lemma insert_rows_returned uid now ds db :
  Forall (fun d => (forall k, returned k (get k d)) /\ rulesHold form d) ds ->
  let rows := map dbRow (map (fun d => (d, uid)) ds) in
  (exists e, Sql.insert_rows uid now rows db = inl e /\ refusal e
             /\ ~ Forall fitsTable ds)
  \/ (exists db', Sql.insert_rows uid now rows db = inr db'
                  /\ storedAs uid (map NewBuyer_row ds) db db'
                  /\ Forall fitsTable ds).
Proof.
  intros Hds. cbv zeta. revert db.
  induction Hds as [|d ds [Hk Hrules] _ IH]; intros db.
  { right. exists db. split; [done|]. split; [apply storedAs_nil|done]. }
  cbn [map Sql.insert_rows]. rewrite dbRow_returned by done.
  assert (Hnot : ~ fitsTable d -> ~ Forall fitsTable (d :: ds))
    by (intros Hn H; by inversion H).
  destruct (insert_row_returned d uid now db Hk Hrules)
    as [(n & En & Hn & E) | [(n & En & Hn & E) | [(s & Es & Hne & Hp & E)
        | (NEW & E & Hsel & Hid & Howner & _ & _ & _ & Hfit)]]]; rewrite E.
  - left. eexists. split; [done|]. split; [right; by left|].
    apply Hnot. intros (_ & Hlo & _). specialize (Hlo n En). lia.
  - left. eexists. split; [done|]. split; [right; by right|].
    apply Hnot. intros (_ & _ & Hhi). specialize (Hhi n En). lia.
  - left. eexists. split; [done|]. split; [by left|].
    apply Hnot. intros (Hem & _). specialize (Hem s Es Hne). congruence.
  - rewrite bind_ret.
    set (db1 := Sql.mkDb _ _ _).
    assert (Hone : storedAs uid [NewBuyer_row d] db db1).
    { exists [NEW], [createdEntry (S (Sql.next_uuid db)) (Sql.next_uuid db) uid now].
      subst db1. cbn. rewrite Hsel, Hid.
      repeat split; try done; by repeat constructor. }
    destruct (IH db1) as [(e & E' & Hr & Hn) | (db' & E' & Hst & Hfits)].
    + left. exists e. split; [done|]. split; [done|].
      intros H. apply Hn. by inversion H.
    + right. exists db'. split; [done|]. split; [|by constructor].
      by apply (storedAs_app uid [NewBuyer_row d] _ db db1 db').
Qed.

(** The batches of the insert loop. *)
Lemma slices_map {A B} (f : A -> B) fuel size l :
  slices fuel size (map f l) = map (map f) (slices fuel size l).
Proof.
  revert l. induction fuel as [|fuel IH]; intros l; [done|].
  destruct l as [|x l]; [done|].
  cbn [slices]. change (map f (x :: l)) with (f <$> (x :: l)).
  destruct (f <$> x :: l) eqn:E; [done|]. rewrite <- E.
  rewrite <- fmap_take, <- fmap_drop. cbn [map]. f_equal. apply IH.
Qed.

Lemma slices_take {A} fuel size (l : list A) k :
  0 < size -> length l <= fuel -> k <= length (slices fuel size l) ->
  concat (take k (slices fuel size l)) = take (k * size) l
  /\ (k < length (slices fuel size l) -> k * size < length l)
  /\ (k = length (slices fuel size l) -> length l <= k * size).
Proof.
  intros Hs. revert l k. induction fuel as [|fuel IH]; intros l k Hf Hk.
  { destruct l; [|simpl in Hf; lia]. cbn in *.
    assert (k = 0) as -> by lia. cbn. repeat split; lia. }
  destruct l as [|x l].
  { cbn in *. assert (k = 0) as -> by lia. cbn. repeat split; lia. }
  cbn [slices] in *. destruct k as [|k].
  { cbn. repeat split; lia. }
  cbn [take concat length] in *.
  assert (Hdrop : length (drop size (x :: l)) <= fuel).
  { rewrite length_drop. cbn in *. lia. }
  destruct (IH (drop size (x :: l)) k Hdrop ltac:(lia)) as (Hc & Hlt & Heq).
  rewrite Hc, take_take_drop. rewrite length_drop in Hlt, Heq.
  split; [f_equal; lia|]. split; intros ?; cbn [length] in *; lia.
Qed.

Lemma slices_lookup {A} fuel size (l : list A) k b :
  0 < size -> length l <= fuel ->
  slices fuel size l !! k = Some b -> b = take size (drop (k * size) l).
Proof.
  intros Hs. revert l k. induction fuel as [|fuel IH]; intros l k Hf Hk; [done|].
  destruct l as [|x l]; [done|]. cbn [slices] in Hk.
  destruct k as [|k]; cbn in Hk.
  - by injection Hk as <-.
  - apply IH in Hk; [|rewrite length_drop; cbn in *; lia].
    by rewrite Hk, drop_drop.
Qed.

Lemma insertBatches_returned uid clock (bs : list (list Buyer)) imported db :
  Forall (Forall (fun d => (forall k, returned k (get k d)) /\ rulesHold form d))
    bs ->
  exists k db' failure,
    insertBatches uid clock (map (map (fun d => (d, uid))) bs) imported db
    = (imported + length (concat (take k bs)), db', failure)
    /\ k <= length bs
    /\ storedAs uid (map NewBuyer_row (concat (take k bs))) db db'
    /\ Forall fitsTable (concat (take k bs))
    /\ ((failure = None /\ k = length bs)
        \/ (exists e b, failure = Some e /\ refusal e
                        /\ bs !! k = Some b /\ ~ Forall fitsTable b)).
Proof.
  intros Hbs. revert imported db.
  induction Hbs as [|b bs Hb _ IH]; intros imported db.
  { exists 0, db, None. cbn. rewrite Nat.add_0_r.
    repeat split; try done; [apply storedAs_nil|by left]. }
  cbn [map insertBatches].
  destruct (insert_rows_returned uid (clock imported) b db Hb)
    as [(e & E & Hr & Hn) | (db1 & E & Hst & Hfits)]; cbv zeta in E; rewrite E.
  - exists 0, db, (Some e). cbn. rewrite Nat.add_0_r.
    repeat split; try done; [lia|apply storedAs_nil|].
    right. by exists e, b.
  - rewrite length_map.
    destruct (IH (imported + length b) db1)
      as (k & db' & failure & Ek & Hk & Hst' & Hfits' & Hend).
    exists (S k), db', failure. cbn [take concat length].
    rewrite length_app, map_app, Ek.
    split; [f_equal; f_equal; lia|]. split; [lia|].
    split; [by eapply storedAs_app|]. split; [by apply Forall_app|].
    destruct Hend as [[-> ->] | (e & b' & -> & Hr & Hb' & Hn)]; [by left|].
    right. by exists e, b'.
Qed.

(** The whole import by outcome. *)
Lemma import_outcome uid clock st db :
  let valid := validRowsOf (csvData st) in
  let result := validateAndImportData (Some uid) clock st db in
  let n := importSuccess (import_state result) in
  csvData st <> [] ->
  storedAs uid (map NewBuyer_row (take n valid)) db (import_db result)
  /\ Forall fitsTable (take n valid)
  /\ import_state result
     = mkImportState false (validateRows uid 0 (csvData st)).1 n (csvData st)
  /\ ((valid = [] /\ n = 0
       /\ import_toasts result
          = [mkToast "Import Failed" (text "No valid rows found to import") true]
       /\ onImportComplete result = false)
      \/ (valid <> [] /\ n = length valid
          /\ import_toasts result
             = [mkToast "Import Complete"
                  (text ("Successfully imported "
                         +:+ numberToString (Z.of_nat n) +:+ " buyer leads"))
                  false]
          /\ onImportComplete result
             = bool_decide (length valid = length (csvData st)))
      \/ (exists k e,
            n = k * 10 /\ n < length valid /\ refusal e
            /\ ~ Forall fitsTable (take 10 (drop n valid))
            /\ import_toasts result = [mkToast "Import Failed" (error_message e) true]
            /\ onImportComplete result = false)).
Proof.
  cbv zeta. intros Hne. unfold validateAndImportData.
  destruct (csvData st) as [|r0 rows0] eqn:Edata; [done|]. rewrite <- Edata.
  pose proof (validateRows_valid uid 0 (csvData st)) as Hvalid.
  pose proof (validateRows_no_errors uid 0 (csvData st)) as Herr.
  pose proof (validRowsOf_returned (csvData st)) as Hret.
  destruct (validateRows uid 0 (csvData st)) as [errors validRows].
  cbn [fst snd] in *. subst validRows.
  remember (validRowsOf (csvData st)) as valid eqn:Ev.
  destruct valid as [|d0 valid0].
  { cbn. split; [apply storedAs_nil|]. split; [done|]. split; [done|]. by left. }
  cbn [map].
  change ((d0, uid) :: map (fun d => (d, uid)) valid0)
    with (map (fun d : Buyer => (d, uid)) (d0 :: valid0)).
  assert (Hv : d0 :: valid0 <> []) by done.
  set (valid := d0 :: valid0) in *. clearbody valid. clear Ev.
  rewrite length_map, slices_map.
  set (bs := slices (length valid) 10 valid).
  assert (Hbs : Forall (Forall (fun d => (forall k, returned k (get k d))
                                        /\ rulesHold form d)) bs).
  { apply Forall_forall. intros b Hb.
    apply list_elem_of_lookup in Hb as (i & Hi).
    apply slices_lookup in Hi; [|lia|done]. subst b.
    by apply Forall_take, Forall_drop. }
  destruct (insertBatches_returned uid clock bs 0 db Hbs)
    as (k & db' & failure & E & Hk & Hst & Hfits & Hend).
  rewrite E. cbn [Nat.add].
  destruct (slices_take (length valid) 10 valid k ltac:(lia) ltac:(done) Hk)
    as (Hc & Hlt & Heq).
  fold bs in Hc, Hlt, Heq.
  assert (Hn : length (concat (take k bs)) = Nat.min (k * 10) (length valid))
    by (by rewrite Hc, length_take).
  destruct Hend as [[-> ->] | (e & b & -> & Hr & Hb & Hnf)].
  - specialize (Heq eq_refl).
    assert (Hall : concat (take (length bs) bs) = valid).
    { rewrite Hc. by apply take_ge. }
    rewrite Hall in *. cbn [import_state import_db import_toasts onImportComplete
                            importSuccess].
    rewrite take_ge by done.
    split; [done|]. split; [done|]. split; [done|]. right. left.
    split; [done|]. split; [done|]. split; [done|].
    apply bool_decide_ext. by rewrite Herr.
  - assert (Hklt : k < length bs) by (by eapply lookup_lt_Some).
    specialize (Hlt Hklt).
    cbn [import_state import_db import_toasts onImportComplete importSuccess].
    rewrite Hn, Nat.min_l by lia. rewrite <- Hc.
    split; [done|]. split; [done|]. split; [done|].
    right. right. exists k, e.
    split; [done|]. split; [done|]. split; [done|]. split; [|done].
    apply slices_lookup in Hb; [|lia|done]. by rewrite <- Hb.
Qed.

Lemma dbRows_returned uid ds :
  Forall (fun d => (forall k, returned k (get k d)) /\ rulesHold form d) ds ->
  map (fun d => (dbRow (d, uid)).1) ds = map NewBuyer_row ds.
Proof.
  induction 1 as [|d ds [Hk _] _ IH]; [done|]. cbn [map].
  by rewrite IH, dbRow_returned.
Qed.

Lemma validRowsOf_nonempty rows : validRowsOf rows <> [] -> rows <> [].
Proof. by destruct rows. Qed.

(** X13. A file whose valid rows all fit the table is imported in full: every
    row that validates is stored, in the order of the file, owned by the user
    and holding what the import sent for it, each with its "created" entry in
    the history; the rows that do not validate are reported and skipped; the
    caller is asked to refresh only when no row was skipped. *)
Theorem import_stores_every_valid_row uid clock st db :
  validRowsOf (csvData st) <> [] ->
  Forall fitsTable (validRowsOf (csvData st)) ->
  let valid := validRowsOf (csvData st) in
  let result := validateAndImportData (Some uid) clock st db in
  storedAs uid (map (fun d => (dbRow (d, uid)).1) valid) db (import_db result)
  /\ import_state result
     = mkImportState false (validateRows uid 0 (csvData st)).1 (length valid)
         (csvData st)
  /\ import_toasts result
     = [mkToast "Import Complete"
          (text ("Successfully imported "
                 +:+ numberToString (Z.of_nat (length valid)) +:+ " buyer leads"))
          false]
  /\ onImportComplete result = bool_decide (length valid = length (csvData st)).
Proof.
  intros Hne Hfits valid result.
  destruct (import_outcome uid clock st db (validRowsOf_nonempty _ Hne))
    as (Hst & _ & Hstate & Hcase).
  fold valid result in Hst, Hstate, Hcase.
  rewrite dbRows_returned by apply validRowsOf_returned.
  destruct Hcase as [(Hnil & _) | [(_ & Hn & Htoast & Hdone)
                                  | (k & e & Hn & Hlt & _ & Hnf & _)]].
  - done.
  - rewrite Hn in *. rewrite take_ge in Hst by done. done.
  - exfalso. apply Hnf. by apply Forall_take, Forall_drop.
Qed.

(** X14. When a valid row does not fit the table, the import stops at the first
    batch of ten valid rows that holds such a row: the batches before it are
    stored in full, that batch and the rows after it are not stored at all,
    and the toast shows the error of the database. *)
Theorem import_stops_at_the_first_refused_batch uid clock st db :
  ~ Forall fitsTable (validRowsOf (csvData st)) ->
  let valid := validRowsOf (csvData st) in
  let result := validateAndImportData (Some uid) clock st db in
  exists k e,
    importSuccess (import_state result) = k * 10
    /\ k * 10 < length valid
    /\ storedAs uid (map (fun d => (dbRow (d, uid)).1) (take (k * 10) valid))
         db (import_db result)
    /\ Forall fitsTable (take (k * 10) valid)
    /\ ~ Forall fitsTable (take 10 (drop (k * 10) valid))
    /\ refusal e
    /\ import_toasts result = [mkToast "Import Failed" (error_message e) true]
    /\ onImportComplete result = false.
Proof.
  intros Hnf valid result.
  assert (Hne : validRowsOf (csvData st) <> []).
  { intros E. apply Hnf. rewrite E. constructor. }
  destruct (import_outcome uid clock st db (validRowsOf_nonempty _ Hne))
    as (Hst & Hfits & Hstate & Hcase).
  fold valid result in Hst, Hfits, Hstate, Hcase.
  destruct Hcase as [(Hnil & _) | [(_ & Hn & _) | (k & e & Hn & Hlt & Hr & Hb & Ht & Hd)]].
  - done.
  - exfalso. apply Hnf. rewrite Hn, take_ge in Hfits by done. done.
  - exists k, e. rewrite Hn in *.
    rewrite dbRows_returned by apply Forall_take, validRowsOf_returned.
    done.
Qed.

(** ** The edit page *)

(** X15. The edit page hands the form [null] for the [bhk] of a Lead stored
    without one; [buyerSchema] takes a missing [bhk], not [null]: as long as
    [bhk] stays [null] the form does not validate, whatever else it holds,
    and [onSubmit] is not called. *)
Theorem edit_form_rejects_a_lead_without_bhk loaded values :
  Sql.bhk loaded = None ->
  bhk values = bhk (initialValues (initialData loaded)) ->
  exists issues,
    validate form values = inr issues
    /\ Zod.mkIssue Zod.invalid_type ["bhk"] None ∈ issues
    /\ forall (R : Type) (onSubmit : Buyer -> R) tagList,
         handleFormSubmit onSubmit values tagList = None.
Proof.
  intros Hnone Hbhk. cbn [initialData initialValues bhk] in Hbhk.
  rewrite Hnone in Hbhk. cbn in Hbhk.
  assert (Hkey : parseKey (shapeOf form) values Kbhk
                 = Zod.INVALID [Zod.mkIssue Zod.invalid_type ["bhk"] None]).
  { unfold parseKey. cbn [get shapeOf buyerShape keyName]. by rewrite Hbhk. }
  assert (Hnv : Zod.status (schemaOf form values) <> Zod.valid).
  { intros (Hkeys & _)%schema_valid. specialize (Hkeys Kbhk).
    unfold fieldFails in Hkeys. by rewrite Hkey in Hkeys. }
  exists (Zod.issues (schemaOf form values)).
  pose proof (validate_rejects form values Hnv) as Hrej.
  split; [done|]. split.
  - apply (key_issue_reported form values Kbhk). rewrite Hkey. by left.
  - intros R onSubmit tagList. unfold handleFormSubmit. by rewrite Hrej.
Qed.




Lemma enum_in_label_bhk (x : Sql.bhk_type) : Sql.enum_in (Sql.label x) = Some x.
Proof. by destruct x. Qed.








End App.

(** * The tag editor and the list page *)

Lemma trimStart_id s : startsWithWhiteSpace s = false -> trimStart s = s.
Proof. destruct s as [|c s]; [done|]. simpl. by intros ->. Qed.

Lemma trimEnd_id s : endsWithWhiteSpace s = false -> trimEnd s = s.
Proof.
  induction s as [|c s IH]; [done|]. cbn [endsWithWhiteSpace trimEnd].
  destruct s as [|d s].
  - simpl. by intros ->.
  - intros H. rewrite (IH H). done.
Qed.

Lemma trim_trim s : trim (trim s) = trim s.
Proof.
  destruct (trim_spec s) as (_ & _ & _ & _ & _ & Hst & Hend).
  unfold trim at 1. by rewrite trimStart_id, trimEnd_id.
Qed.

Lemma tidy_addTag st :
  tidy (BuyerForm.tags st) -> tidy (BuyerForm.tags (BuyerForm.addTag st)).
Proof.
  intros [Hnd Hall]. unfold BuyerForm.addTag. cbn [truthy].
  destruct (String.eqb_spec (trim (BuyerForm.tagInput st)) "") as [E|E];
    [done|]. cbn [negb andb].
  case_bool_decide as Hin; [done|]. cbn [negb BuyerForm.tags]. split.
  - apply NoDup_app. split; [done|]. split; [|apply NoDup_singleton].
    intros x Hx ->%list_elem_of_singleton. done.
  - apply Forall_app. split; [done|]. constructor; [|done].
    split; [done|apply trim_trim].
Qed.

Lemma tidy_removeTag tag st :
  tidy (BuyerForm.tags st) -> tidy (BuyerForm.tags (BuyerForm.removeTag tag st)).
Proof.
  intros [Hnd Hall]. cbn [BuyerForm.removeTag BuyerForm.tags]. split.
  - clear Hall. induction (BuyerForm.tags st) as [|t l IH]; [done|].
    apply NoDup_cons in Hnd as [Ht Hl]. cbn [List.filter].
    destruct (negb _); [|by apply IH]. apply NoDup_cons. split; [|by apply IH].
    intros [Hin _]%list_elem_of_In%filter_In. by apply Ht, list_elem_of_In.
  - apply Forall_forall. intros t [Hin _]%list_elem_of_In%filter_In.
    rewrite Forall_forall in Hall. by apply Hall, list_elem_of_In.
Qed.

(** X17. Whatever the user does in the tag editor, a tidy tag list stays tidy:
    no tag is listed twice, none is empty and none starts or ends with white
    space. *)
Theorem tag_editor_keeps_the_tags_tidy st events :
  tidy (BuyerForm.tags st) ->
  tidy (BuyerForm.tags (foldl BuyerForm.handle st events)).
Proof.
  revert st. induction events as [|e events IH]; intros st Ht; [done|].
  cbn [foldl]. apply IH. destruct e as [value|key| |tag]; cbn [BuyerForm.handle].
  - done.
  - unfold BuyerForm.handleTagKeyPress.
    destruct (String.eqb key "Enter"); [by apply tidy_addTag|done].
  - by apply tidy_addTag.
  - by apply tidy_removeTag.
Qed.

(** X18. "Add" puts the trimmed text at the end of the list and clears the
    input, unless the text is blank or the tag is listed; the cross of that
    tag then gives the list back. *)
Theorem addTag_then_removeTag st :
  trim (BuyerForm.tagInput st) <> "" ->
  trim (BuyerForm.tagInput st) ∉ BuyerForm.tags st ->
  BuyerForm.addTag st
  = BuyerForm.mkTagState "" (BuyerForm.tags st ++ [trim (BuyerForm.tagInput st)])
  /\ BuyerForm.addTag (BuyerForm.addTag st) = BuyerForm.addTag st
  /\ BuyerForm.removeTag (trim (BuyerForm.tagInput st)) (BuyerForm.addTag st)
     = BuyerForm.mkTagState "" (BuyerForm.tags st).
Proof.
  intros Hne Hnew.
  assert (Hadd : BuyerForm.addTag st
                 = BuyerForm.mkTagState ""
                     (BuyerForm.tags st ++ [trim (BuyerForm.tagInput st)])).
  { unfold BuyerForm.addTag. cbn [truthy].
    rewrite string_nonempty_eqb by done.
    by rewrite bool_decide_false by done. }
  split; [done|]. rewrite Hadd. split; [done|].
  unfold BuyerForm.removeTag. cbn [BuyerForm.tags BuyerForm.tagInput]. f_equal.
  rewrite List.filter_app. cbn [List.filter]. rewrite String.eqb_refl. cbn [negb].
  rewrite app_nil_r. apply filter_all. intros t Ht.
  destruct (String.eqb_spec t (trim (BuyerForm.tagInput st))); [|done].
  by subst.
Qed.

(** ** Filters kept in the URL *)

Lemma get_delete name name' l :
  URLSearchParams.get name' (URLSearchParams.delete name l)
  = if String.eqb name' name then None else URLSearchParams.get name' l.
Proof.
  induction l as [|[k v] l IH]; [by destruct (String.eqb name' name)|].
  cbn [URLSearchParams.delete List.filter fst].
  destruct (String.eqb_spec k name) as [-> | Hk]; cbn [negb URLSearchParams.get].
  - fold (URLSearchParams.delete name l). rewrite IH.
    destruct (String.eqb_spec name' name) as [-> | Hn]; [done|].
    by rewrite (proj2 (String.eqb_neq name name')).
  - fold (URLSearchParams.delete name l). rewrite IH.
    destruct (String.eqb_spec name' name) as [-> | Hn]; [|done].
    by rewrite (proj2 (String.eqb_neq k name)).
Qed.

Lemma get_set name value name' l :
  URLSearchParams.get name' (URLSearchParams.set name value l)
  = if String.eqb name' name then Some value else URLSearchParams.get name' l.
Proof.
  induction l as [|[k v] l IH]; cbn [URLSearchParams.set URLSearchParams.get].
  - rewrite (String.eqb_sym name name'). by destruct (String.eqb name' name).
  - destruct (String.eqb_spec k name) as [-> | Hk]; cbn [URLSearchParams.get].
    + rewrite (String.eqb_sym name name'), get_delete.
      by destruct (String.eqb name' name).
    + rewrite IH. destruct (String.eqb_spec name' name) as [-> | Hn]; [|done].
      by rewrite (proj2 (String.eqb_neq k name)).
Qed.

Lemma updateFilters_get searchParams newFilters name :
  NoDup (map fst newFilters) ->
  URLSearchParams.get name (BuyersList.updateFilters searchParams newFilters)
  = match URLSearchParams.get name newFilters with
    | Some value => if truthy (JString value) then Some value else None
    | None => URLSearchParams.get name searchParams
    end.
Proof.
  unfold BuyersList.updateFilters. revert searchParams.
  induction newFilters as [|[k v] nf IH]; intros searchParams Hnd; [done|].
  cbn [map fst] in Hnd. apply NoDup_cons in Hnd as [Hk Hnd].
  cbn [fold_left fst snd URLSearchParams.get]. rewrite IH by done.
  destruct (String.eqb_spec k name) as [-> | Hne].
  - assert (Hnone : URLSearchParams.get name nf = None).
    { clear -Hk. induction nf as [|[k' v'] nf IH]; [done|].
      cbn [URLSearchParams.get]. destruct (String.eqb_spec k' name) as [-> | ?].
      - exfalso. apply Hk. by left.
      - apply IH. intros H. apply Hk. by right. }
    rewrite Hnone. destruct (truthy (JString v)).
    + by rewrite get_set, String.eqb_refl.
    + by rewrite get_delete, String.eqb_refl.
  - destruct (URLSearchParams.get name nf); [done|].
    destruct (truthy (JString v)).
    + rewrite get_set. by rewrite (proj2 (String.eqb_neq name k)).
    + rewrite get_delete. by rewrite (proj2 (String.eqb_neq name k)).
Qed.

(** X19. Reading a name after [updateFilters]: a filter given with a value reads
    that value, a filter given as the empty text is gone, and every other
    name reads as before. *)
Theorem updateFilters_sets_and_clears searchParams newFilters name :
  NoDup (map fst newFilters) ->
  URLSearchParams.get name (BuyersList.updateFilters searchParams newFilters)
  = match URLSearchParams.get name newFilters with
    | Some value => if truthy (JString value) then Some value else None
    | None => URLSearchParams.get name searchParams
    end.
Proof. apply updateFilters_get. Qed.

(** X20. Choosing a value in one of the four filter selects shows the first page
    of the Leads with that value, and leaves the other filters and the search
    as they were. *)
Theorem filter_change_returns_to_the_first_page name value searchParams :
  name <> "page" -> value <> "" ->
  let searchParams' := BuyersList.onValueChange name value searchParams in
  BuyersList.currentPage searchParams' = JNumber 1
  /\ BuyersList.getOr name "" searchParams' = value
  /\ forall other, other <> name -> other <> "page" ->
       URLSearchParams.get other searchParams'
       = URLSearchParams.get other searchParams.
Proof.
  intros Hname Hvalue. cbv zeta. unfold BuyersList.onValueChange.
  cbn [truthy]. rewrite string_nonempty_eqb by done. cbn [negb].
  assert (Hnd : NoDup (map fst [(name, value); ("page", "1")])).
  { cbn. apply NoDup_cons. split; [|apply NoDup_singleton].
    by intros ->%list_elem_of_singleton. }
  split; [|split].
  - unfold BuyersList.currentPage, BuyersList.getOr.
    rewrite updateFilters_get by done. cbn [URLSearchParams.get].
    rewrite (proj2 (String.eqb_neq name "page")) by done. done.
  - unfold BuyersList.getOr. rewrite updateFilters_get by done.
    cbn [URLSearchParams.get]. rewrite String.eqb_refl. cbn [truthy].
    rewrite string_nonempty_eqb by done. cbn [negb].
    by rewrite string_nonempty_eqb.
  - intros other Ho Hp. rewrite updateFilters_get by done.
    cbn [URLSearchParams.get].
    rewrite (proj2 (String.eqb_neq name other)) by done.
    by rewrite (proj2 (String.eqb_neq "page" other)) by done.
Qed.

(** ** Paging *)

Lemma totalPages_spec totalCount :
  let pages := BuyersList.totalPages totalCount in
  ((pages - 1) * 10 < totalCount <= pages * 10)%Z.
Proof.
  cbv zeta. unfold BuyersList.totalPages, ceilDiv, BuyersList.PAGE_SIZE.
  pose proof (Z.div_mod (- totalCount) 10 ltac:(lia)).
  pose proof (Z.mod_pos_bound (- totalCount) 10 ltac:(lia)). lia.
Qed.

(** X21. The pages tile the result: with [totalCount] rows, pages 1 to
    [totalPages] ask for ranges of ten rows that follow one another from row
    0, every row lies in the range of exactly one of these pages, and none of
    these pages is empty; "previous" and "next" stay within them. *)
Theorem pages_tile_the_result totalCount :
  (0 < totalCount)%Z ->
  let pages := BuyersList.totalPages totalCount in
  (1 <= pages)%Z
  /\ BuyersList.from 1 = 0%Z
  /\ (forall p, BuyersList.to p = (BuyersList.from p + 9)%Z
                /\ BuyersList.from (p + 1) = (BuyersList.to p + 1)%Z)
  /\ (forall p, (1 <= p <= pages)%Z ->
                (0 <= BuyersList.from p < totalCount)%Z)
  /\ (forall i, (0 <= i < totalCount)%Z ->
        exists p, (1 <= p <= pages)%Z
                  /\ (BuyersList.from p <= i <= BuyersList.to p)%Z
                  /\ forall q, (BuyersList.from q <= i <= BuyersList.to q)%Z ->
                               q = p)
  /\ (forall p, (1 <= p <= pages)%Z ->
        (1 <= BuyersList.previousPage p <= pages)%Z
        /\ (1 <= BuyersList.nextPage totalCount p <= pages)%Z
        /\ (BuyersList.previousPage p = p <-> p = 1%Z)
        /\ (BuyersList.nextPage totalCount p = p <-> p = pages)).
Proof.
  intros Hpos. cbv zeta. pose proof (totalPages_spec totalCount) as Hp.
  cbv zeta in Hp. unfold BuyersList.to, BuyersList.from, BuyersList.PAGE_SIZE,
    BuyersList.previousPage, BuyersList.nextPage.
  set (pages := BuyersList.totalPages totalCount) in *. clearbody pages.
  split; [lia|]. split; [lia|]. split; [intros p; lia|].
  split; [intros p ?; lia|]. split.
  - intros i Hi. exists (i / 10 + 1)%Z.
    pose proof (Z.div_mod i 10 ltac:(lia)).
    pose proof (Z.mod_pos_bound i 10 ltac:(lia)).
    split; [lia|]. split; [lia|]. intros q Hq. lia.
  - intros p Hpp. lia.
Qed.

(** [parseInt(s, 10)] reads a non-empty string of decimal digits as the
    number it denotes. *)
Lemma parseIntRadix_digits s :
  s <> EmptyString -> allChars isDigit s = true ->
  parseIntRadix s 10 = JNumber (Z.of_N (decimalValue s)).
Proof.
  destruct s as [|c s]; [done|]. intros _ H.
  pose proof H as [Hc Hs]%andb_true_iff.
  destruct (isDigit_facts c Hc) as (Hw & Hm & Hp & _ & _ & d & Hv & Hd).
  unfold parseIntRadix. cbn [N.eqb N.ltb N.compare Pos.compare Pos.compare_cont orb].
  simpl trimStart. rewrite Hw, Hm, Hp.
  assert (Hpre : match s with
                 | String c1 r =>
                     if (10 =? 16)%positive && Ascii.eqb c "0"
                        && (Ascii.eqb c1 "x" || Ascii.eqb c1 "X")
                     then r else String c s
                 | EmptyString => String c s
                 end = String c s) by (by destruct s).
  rewrite Hpre. unfold decimalValue.
  assert (Hne : takeDigits 10 (String c s) <> []).
  { simpl. rewrite Hv. apply N.ltb_lt in Hd. by rewrite Hd. }
  by destruct (takeDigits 10 (String c s)).
Qed.

Lemma page_written_and_read q searchParams :
  (0 < q)%Z ->
  let searchParams' :=
    BuyersList.updateFilters searchParams [("page", numberToString q)] in
  BuyersList.currentPage searchParams' = JNumber q
  /\ forall other, other <> "page" ->
       URLSearchParams.get other searchParams'
       = URLSearchParams.get other searchParams.
Proof.
  intros Hq. cbv zeta. destruct q as [|p|p]; [lia| |lia].
  destruct (numberToString_pos p) as (Hne & Hd & Hv). cbv zeta in Hne, Hd, Hv.
  assert (Hnd : NoDup (map fst [("page", numberToString (Z.pos p))]))
    by apply NoDup_singleton.
  split.
  - unfold BuyersList.currentPage, BuyersList.getOr.
    rewrite updateFilters_get by done. cbn [URLSearchParams.get].
    rewrite String.eqb_refl. cbn [truthy].
    rewrite string_nonempty_eqb by done. cbn [negb].
    rewrite string_nonempty_eqb by done. cbn [negb].
    rewrite parseIntRadix_digits by done. by rewrite Hv.
  - intros other Ho. rewrite updateFilters_get by done.
    cbn [URLSearchParams.get].
    by rewrite (proj2 (String.eqb_neq "page" other)) by done.
Qed.

(** X22. A page link, "previous" and "next" write the page into the URL
    as decimal text, and the list reads it back as that number: the link of
    page [page] shows page [page], "previous" the page before it (page 1
    stays), "next" the page after it (the last page stays); the filters and
    the search are left as they were.  Page numbers are taken to be integers
    that JavaScript represents exactly. *)
Theorem page_links_lead_to_their_page totalCount page searchParams :
  (0 < totalCount <= MAX_SAFE_INTEGER)%Z ->
  (1 <= page <= BuyersList.totalPages totalCount)%Z ->
  BuyersList.currentPage (BuyersList.onPageLink page searchParams)
  = JNumber page
  /\ BuyersList.currentPage (BuyersList.onPrevious page searchParams)
     = JNumber (if (page =? 1)%Z then 1 else page - 1)%Z
  /\ BuyersList.currentPage (BuyersList.onNext totalCount page searchParams)
     = JNumber (if (page =? BuyersList.totalPages totalCount)%Z
                then page else page + 1)%Z
  /\ forall other, other <> "page" ->
       URLSearchParams.get other (BuyersList.onPageLink page searchParams)
       = URLSearchParams.get other searchParams
       /\ URLSearchParams.get other (BuyersList.onPrevious page searchParams)
          = URLSearchParams.get other searchParams
       /\ URLSearchParams.get other
            (BuyersList.onNext totalCount page searchParams)
          = URLSearchParams.get other searchParams.
Proof.
  intros Hcount Hpage.
  unfold BuyersList.onPageLink, BuyersList.onPrevious, BuyersList.onNext.
  assert (Hprev : BuyersList.previousPage page
                  = (if (page =? 1)%Z then 1 else page - 1)%Z).
  { unfold BuyersList.previousPage. destruct (Z.eqb_spec page 1); lia. }
  assert (Hnext : BuyersList.nextPage totalCount page
                  = (if (page =? BuyersList.totalPages totalCount)%Z
                     then page else page + 1)%Z).
  { unfold BuyersList.nextPage.
    destruct (Z.eqb_spec page (BuyersList.totalPages totalCount)); lia. }
  assert (H0 : (0 < BuyersList.previousPage page)%Z)
    by (unfold BuyersList.previousPage; lia).
  assert (H1 : (0 < BuyersList.nextPage totalCount page)%Z)
    by (unfold BuyersList.nextPage; lia).
  destruct (page_written_and_read page searchParams ltac:(lia)) as [E1 O1].
  destruct (page_written_and_read _ searchParams H0) as [E2 O2].
  destruct (page_written_and_read _ searchParams H1) as [E3 O3].
  rewrite <- Hprev, <- Hnext. split; [exact E1|]. split; [exact E2|].
  split; [exact E3|]. intros other Ho. auto.
Qed.

(** * Closed examples

    The schemas are run with [Sql.email_pattern] as the email pattern and
    [decimalStringToNumber] as the reading of strings as numbers; none of the
    examples depends on that choice beyond accepting "john@example.com" and
    "asha@example.com". *)



Lemma bhk_rule_witness :
  typeChecks Sql.email_pattern form rejectExample = true
  /\ (propertyType rejectExample = JString "Apartment"
      \/ propertyType rejectExample = JString "Villa")
  /\ absent (bhk rejectExample)
  /\ exists issues,
       validate Sql.email_pattern decimalStringToNumber form rejectExample
       = inr issues
       /\ bhkIssue form ∈ issues
       /\ (form = form -> attributedTo Kbhk (bhkIssue form)).
Proof.
  split; [reflexivity|]. split; [left; reflexivity|].
  split; [left; reflexivity|].
  apply (proj1 (bhk_rule Sql.email_pattern decimalStringToNumber));
    [reflexivity | left; reflexivity | left; reflexivity].
Defined.

(** C6 as stated fails.  A form candidate for an Apartment without [bhk]
    whose city lies outside the closed set gets the city error only; a CSV
    row for an Apartment with an empty [bhk] cell and nothing else wrong gets
    one error that carries no field.  Neither list holds an error attributed
    to [bhk]. *)
Lemma bhk_rule_counterexample :
  (propertyType unknownCityCandidate = JString "Apartment"
   /\ bhk unknownCityCandidate = JUndefined
   /\ ~ exists err,
         err ∈ errorsOf (validate Sql.email_pattern decimalStringToNumber form
                           unknownCityCandidate)
         /\ attributedTo Kbhk err)
  /\ (propertyType csvApartmentNoBhkRow = JString "Apartment"
      /\ bhk csvApartmentNoBhkRow = JString ""
      /\ ~ exists err,
            err ∈ errorsOf (validate Sql.email_pattern decimalStringToNumber csv
                              csvApartmentNoBhkRow)
            /\ attributedTo Kbhk err).
Proof.
  split; (split; [reflexivity|]; split; [reflexivity|]);
    intros (err & Herr & Hat); vm_compute in Herr;
    apply list_elem_of_singleton in Herr as ->; discriminate Hat.
Qed.

Lemma budget_rule_witness :
  budgetCell form (budgetMin minAboveMaxCandidate) 5
  /\ budgetCell form (budgetMax minAboveMaxCandidate) 3
  /\ (3 < 5)%Z /\ 5%Z <> 0%Z /\ 3%Z <> 0%Z
  /\ typeChecks Sql.email_pattern form minAboveMaxCandidate = true
  /\ (exists issues,
        validate Sql.email_pattern decimalStringToNumber form
          minAboveMaxCandidate = inr issues
        /\ budgetIssue form ∈ issues
        /\ (form = form -> attributedTo KbudgetMax (budgetIssue form)))
  /\ budgetCell form (budgetMin zeroBudgetData) 0
  /\ budgetCell form (budgetMax zeroBudgetData) 0
  /\ (0 <= 0)%Z
  /\ forall err,
       err ∈ errorsOf (validate Sql.email_pattern decimalStringToNumber form
                         zeroBudgetData) ->
       ~ attributedTo KbudgetMin err /\ ~ attributedTo KbudgetMax err
       /\ (bhkRefinement zeroBudgetData = true -> Zod.code err <> Zod.custom).
Proof.
  assert (H5 : budgetCell form (budgetMin minAboveMaxCandidate) 5).
  { split; [unfold MAX_SAFE_INTEGER; lia | reflexivity]. }
  assert (H3 : budgetCell form (budgetMax minAboveMaxCandidate) 3).
  { split; [unfold MAX_SAFE_INTEGER; lia | reflexivity]. }
  assert (H0 : budgetCell form (budgetMin zeroBudgetData) 0).
  { split; [unfold MAX_SAFE_INTEGER; lia | reflexivity]. }
  assert (H0' : budgetCell form (budgetMax zeroBudgetData) 0).
  { split; [unfold MAX_SAFE_INTEGER; lia | reflexivity]. }
  split; [exact H5|]. split; [exact H3|].
  split; [lia|]. split; [lia|]. split; [lia|]. split; [reflexivity|].
  split.
  - apply (proj1 (budget_rule Sql.email_pattern decimalStringToNumber form
                    minAboveMaxCandidate 5 3 H5 H3));
      [lia | lia | lia | reflexivity].
  - split; [exact H0|]. split; [exact H0'|]. split; [lia|].
    apply (proj2 (budget_rule Sql.email_pattern decimalStringToNumber form
                    zeroBudgetData 0 0 H0 H0')); lia.
Defined.

(** C3 as stated fails.  With [budgetMin] 5 and [budgetMax] 0 the form
    candidate is accepted: no error at all, although 0 < 5.  With budgets 5
    and 3, a form candidate whose city lies outside the closed set gets the
    city error only, and a CSV row gets one error that carries no field.  No
    list holds an error attributed to [budgetMax].  With budgets -5 and -3
    the form candidate gets an error attributed to [budgetMin] and one
    attributed to [budgetMax], although -3 >= -5. *)
Lemma budget_rule_counterexample :
  (budgetMin zeroMaxCandidate = JNumber 5
   /\ budgetMax zeroMaxCandidate = JNumber 0
   /\ errorsOf (validate Sql.email_pattern decimalStringToNumber form
                  zeroMaxCandidate) = [])
  /\ (budgetMin unknownCityCandidate = JNumber 5
      /\ budgetMax unknownCityCandidate = JNumber 3
      /\ ~ exists err,
            err ∈ errorsOf (validate Sql.email_pattern decimalStringToNumber
                              form unknownCityCandidate)
            /\ attributedTo KbudgetMax err)
  /\ (budgetMin csvMinAboveMaxRow = JString "5"
      /\ budgetMax csvMinAboveMaxRow = JString "3"
      /\ ~ exists err,
            err ∈ errorsOf (validate Sql.email_pattern decimalStringToNumber
                              csv csvMinAboveMaxRow)
            /\ attributedTo KbudgetMax err)
  /\ (budgetMin negativeBudgetsCandidate = JNumber (-5)
      /\ budgetMax negativeBudgetsCandidate = JNumber (-3)
      /\ (-5 <= -3)%Z
      /\ (exists err,
            err ∈ errorsOf (validate Sql.email_pattern decimalStringToNumber
                              form negativeBudgetsCandidate)
            /\ attributedTo KbudgetMin err)
      /\ (exists err,
            err ∈ errorsOf (validate Sql.email_pattern decimalStringToNumber
                              form negativeBudgetsCandidate)
            /\ attributedTo KbudgetMax err)).
Proof.
  split; [by repeat split|].
  split; [|split];
    [split; [reflexivity|]; split; [reflexivity|];
       intros (err & Herr & Hat); vm_compute in Herr;
       apply list_elem_of_singleton in Herr as ->; discriminate Hat..|].
  split; [reflexivity|]. split; [reflexivity|]. split; [lia|].
  split; eexists.
  - split; [vm_compute; left | reflexivity].
  - split; [vm_compute; right; left | reflexivity].
Qed.

Lemma csv_tags_split_and_trimmed_witness :
  tags sampleCsvRow = JString "urgent, family"
  /\ exists data,
       validate Sql.email_pattern decimalStringToNumber csv sampleCsvRow
       = inl data
       /\ tags data = JArray ["urgent"; "family"].
Proof.
  split; [reflexivity|]. eexists. split; [vm_compute; reflexivity|].
  apply (proj2 (csv_tags_split_and_trimmed Sql.email_pattern
                  decimalStringToNumber) sampleCsvRow);
    [reflexivity | vm_compute; reflexivity].
Defined.

(** C7 at the failing input.  A CSV row that is valid in every other cell
    and whose [status] cell is empty is rejected with one error, on
    [status]; the same row without the [status] key is accepted with status
    New, and the empty [bhk] and [notes] cells of a row are accepted. *)
Theorem csv_empty_status_cell_is_rejected :
  status csvEmptyStatusRow = JString ""
  /\ validate Sql.email_pattern decimalStringToNumber csv csvEmptyStatusRow
     = inr [Zod.mkIssue Zod.invalid_enum_value ["status"] None]
  /\ (exists data,
        validate Sql.email_pattern decimalStringToNumber csv csvMissingStatusRow
        = inl data /\ status data = JString "New")
  /\ (exists data,
        validate Sql.email_pattern decimalStringToNumber csv
          (csvRowOf "Plot" "" "" "" "" "New") = inl data).
Proof.
  split; [reflexivity|]. split; [reflexivity|].
  split; eexists; [split|]; vm_compute; reflexivity.
Qed.

Lemma zero_budget_and_empty_text_stored_as_null_witness :
  exists db',
    Sql.insert_row 7 100%Z (NewBuyer_row zeroBudgetData, 7) emptyDb = inr db'
    /\ exists NEW,
         Sql.tbl_buyers db' = Sql.tbl_buyers emptyDb ++ [NEW]
         /\ storedAsNull zeroBudgetData NEW.
Proof.
  eexists. split; [vm_compute; reflexivity|].
  apply (proj1 (proj2 zero_budget_and_empty_text_stored_as_null)
           zeroBudgetData 7 100%Z emptyDb _ (NewBuyer_row zeroBudgetData));
    [left; reflexivity | vm_compute; reflexivity].
Defined.

Lemma oversized_batch_rejected_witness :
  200 < length rows201
  /\ let upload := handleFileUpload (Some (complete rows201)) idleImport in
     csvData upload.1 = []
     /\ importErrors upload.1 = []
     /\ importSuccess upload.1 = 0
     /\ upload.2 = [mkToast "Error"
                      (text "CSV file cannot contain more than 200 rows") true]
     /\ validateAndImportData Sql.email_pattern decimalStringToNumber (Some 7)
          (fun _ => 100%Z) upload.1 emptyDb
        = mkImportResult upload.1 emptyDb [] false.
Proof.
  split; [vm_compute; lia|].
  apply (oversized_batch_rejected Sql.email_pattern decimalStringToNumber).
  vm_compute; lia.
Defined.

Lemma update_diff_tracks_changed_fields_witness :
  tracked c_status = true
  /\ differs c_status plainLead concurrentlyChangedLead = true
  /\ Sql.track_buyer_changes 7 200%Z plainLead concurrentlyChangedLead emptyDb
     = Sql.insert_history 7 200%Z (Sql.id concurrentlyChangedLead)
         (Sql.track_buyer_changes_diff plainLead concurrentlyChangedLead)
         emptyDb
  /\ Sql.track_buyer_changes_diff plainLead concurrentlyChangedLead !! "status"
     = Some (changeEntry c_status plainLead concurrentlyChangedLead).
Proof.
  split; [reflexivity|]. split; [reflexivity|]. split.
  - apply (proj2 (proj2 (proj2 (update_diff_tracks_changed_fields
                                  plainLead concurrentlyChangedLead)))
             7 200%Z emptyDb c_status); reflexivity.
  - apply (proj1 (update_diff_tracks_changed_fields
                    plainLead concurrentlyChangedLead) c_status).
Defined.

(** C5 as stated fails.  [updatedAt] is a field of the Lead other than [id],
    [ownerId] and [createdAt]; between a row and the same row stamped later
    its value differs, yet the diff has no entry for it: the diff is empty and
    no history entry is written. *)
Lemma update_diff_counterexample :
  let previous := plainLead in
  let next := Sql.update_updated_at_column 300%Z plainLead in
  mutableAsListed c_updated_at = true
  /\ differs c_updated_at previous next = true
  /\ Sql.track_buyer_changes_diff previous next !! column_name c_updated_at = None
  /\ Sql.track_buyer_changes_diff previous next = ∅
  /\ Sql.track_buyer_changes 7 300%Z previous next emptyDb = emptyDb.
Proof.
  cbv zeta. split; [reflexivity|]. split; [reflexivity|].
  assert (H : Sql.track_buyer_changes_diff plainLead
                (Sql.update_updated_at_column 300%Z plainLead) = ∅)
    by (vm_compute; reflexivity).
  split; [by rewrite H|]. split; [done|].
  unfold Sql.track_buyer_changes. rewrite H. reflexivity.
Qed.



(** C2 at the failing input.  The stored row was changed to Contacted at
    time 200 after the editor loaded it at time 100.  The editor's form still
    carries the [updatedAt] it loaded, the submit handler never sends it, and
    the update succeeds: the concurrent change is overwritten (status back to
    Qualified) and nothing reports a stale record. *)
Theorem stale_edit_overwrites :
  updatedAt (initialData plainLead) = 100%Z
  /\ Sql.updated_at concurrentlyChangedLead = 200%Z
  /\ Sql.tbl_buyers concurrentlyChangedDb = [concurrentlyChangedLead]
  /\ exists result,
       handleFormSubmit Sql.email_pattern decimalStringToNumber
         (fun data =>
            EditBuyer_handleSubmit (Some plainLead) (Some 7) 300%Z data
              concurrentlyChangedDb)
         staleEdit ["urgent"; "family"]
       = Some result
       /\ page_toasts result
          = [mkToast "Success" (text "Buyer lead updated successfully!") false]
       /\ Sql.tbl_buyers (page_db result)
          = [Sql.mkBuyers 1 "Asha Rao" (Some "asha@example.com") "9876543210"
               Sql.Mohali Sql.Apartment (Some Sql.bhk_2) Sql.Buy
               (Some 5000000%Z) (Some 7000000%Z) Sql.m0_3 Sql.Referral
               Sql.Qualified (Some "Call back on Monday")
               (Some ["urgent"; "family"]) 7 100%Z 300%Z].
Proof.
  split; [reflexivity|]. split; [reflexivity|]. split; [reflexivity|].
  eexists. split; [vm_compute; reflexivity|]. split; reflexivity.
Qed.

(** The submit handler does not look at the [updated_at] of the row the page
    loaded: two sessions that loaded the row at different times write
    alike. *)
Lemma EditBuyer_ignores_updated_at loaded stamp user now data db :
  EditBuyer_handleSubmit (Some (Sql.update_updated_at_column stamp loaded))
    user now data db
  = EditBuyer_handleSubmit (Some loaded) user now data db.
Proof. reflexivity. Qed.

(** ** Further closed examples *)

Lemma twoOwnersDb_consistent : consistent twoOwnersDb.
Proof.
  constructor; cbn.
  - by repeat constructor.
  - apply NoDup_cons. split; [|apply NoDup_singleton].
    by intros H%list_elem_of_singleton.
  - repeat constructor.
  - repeat constructor.
  - apply NoDup_cons. split; [|apply NoDup_singleton].
    by intros H%list_elem_of_singleton.
  - repeat constructor.
Qed.


Lemma schema_accepts_iff_witness :
  safeBudgets csv sampleCsvRow
  /\ (validate Sql.email_pattern decimalStringToNumber csv sampleCsvRow
      = inl (normalisedData csv sampleCsvRow)
      <-> (forall k, accepted Sql.email_pattern csv k (get k sampleCsvRow))
          /\ rulesHold csv sampleCsvRow
          /\ normalisedData csv sampleCsvRow = normalisedData csv sampleCsvRow).
Proof.
  assert (H : safeBudgets csv sampleCsvRow).
  { intros _ k s [-> | ->] [= <-]; vm_compute; discriminate. }
  split; [exact H|].
  apply (schema_accepts_iff Sql.email_pattern decimalStringToNumber csv
           sampleCsvRow (normalisedData csv sampleCsvRow) H).
Defined.

Lemma buyerSchema_idempotent_witness :
  exists data,
    validate Sql.email_pattern decimalStringToNumber form acceptExample
    = inl data
    /\ validate Sql.email_pattern decimalStringToNumber form data = inl data.
Proof.
  eexists. split; [vm_compute; reflexivity|].
  apply (buyerSchema_idempotent Sql.email_pattern decimalStringToNumber
           acceptExample).
  vm_compute; reflexivity.
Defined.

Lemma csv_data_is_form_data_witness :
  exists data,
    validate Sql.email_pattern decimalStringToNumber csv sampleCsvRow
    = inl data
    /\ bhk data <> JString ""
    /\ validate Sql.email_pattern decimalStringToNumber form data
       = inl (normalisedData form data).
Proof.
  eexists. split; [vm_compute; reflexivity|]. split; [discriminate|].
  apply (csv_data_is_form_data Sql.email_pattern decimalStringToNumber
           sampleCsvRow); [vm_compute; reflexivity | discriminate].
Defined.

Lemma validated_form_creates_the_lead_witness :
  exists data,
    validate Sql.email_pattern decimalStringToNumber form acceptExample
    = inl data
    /\ fitsTable data
    /\ exists NEW,
         handleFormSubmit Sql.email_pattern decimalStringToNumber
           (fun d => NewBuyer_handleSubmit (Some 7) 100%Z d emptyDb)
           acceptExample ["urgent"]
         = Some (mkPageResult
                   (Sql.mkDb [NEW] [createdEntry 2 1 7 100%Z] 3)
                   [mkToast "Success"
                      (text "Buyer lead created successfully!") false]
                   (Some "/buyers"))
         /\ selected NEW = NewBuyer_row (withTags data ["urgent"])
         /\ Sql.id NEW = 1 /\ Sql.owner_id NEW = 7
         /\ Sql.created_at NEW = 100%Z /\ Sql.updated_at NEW = 100%Z.
Proof.
  eexists. split; [vm_compute; reflexivity|].
  match goal with |- fitsTable ?d /\ _ => assert (Hfits : fitsTable d) end.
  { split; [|split]; intros ? H; discriminate H. }
  split; [exact Hfits|].
  apply (validated_form_creates_the_lead Sql.email_pattern
           decimalStringToNumber acceptExample ["urgent"] _ 7 100%Z emptyDb);
    [vm_compute; reflexivity | exact Hfits].
Defined.


Lemma stored_data_keeps_its_integrity_witness :
  consistent twoOwnersDb
  /\ consistent (run twoOwnersDb
                   [(7, 300%Z, st_delete 1);
                    (8, 400%Z, st_update 2 (selected neighbourLead));
                    (7, 500%Z, st_delete 2)]).
Proof.
  split; [exact twoOwnersDb_consistent|].
  apply (proj1 stored_data_keeps_its_integrity twoOwnersDb).
  exact twoOwnersDb_consistent.
Defined.

Lemma update_writes_only_the_users_row_witness :
  exists db',
    Sql.update_where_id 7 300%Z 1 (selected concurrentlyChangedLead)
      twoOwnersDb = inr db'
    /\ Forall2 (fun OLD NEW =>
                  Sql.id NEW = Sql.id OLD /\ Sql.owner_id NEW = Sql.owner_id OLD
                  /\ Sql.created_at NEW = Sql.created_at OLD
                  /\ (Sql.id OLD = 1 /\ Sql.owner_id OLD = 7 ->
                      Sql.updated_at NEW = 300%Z)
                  /\ (~ (Sql.id OLD = 1 /\ Sql.owner_id OLD = 7) -> NEW = OLD))
         (Sql.tbl_buyers twoOwnersDb) (Sql.tbl_buyers db')
    /\ exists hs,
         Sql.tbl_buyer_history db' = Sql.tbl_buyer_history twoOwnersDb ++ hs
         /\ Forall (fun h => Sql.buyer_id h = 1
                             /\ Sql.changed_by h = Some 7
                             /\ Sql.changed_at h = 300%Z) hs.
Proof.
  eexists. split; [vm_compute; reflexivity|].
  apply (update_writes_only_the_users_row 7 300%Z 1
           (selected concurrentlyChangedLead) twoOwnersDb).
  vm_compute; reflexivity.
Defined.

Lemma edit_of_a_missing_lead_reports_success_witness :
  exists data,
    validate Sql.email_pattern decimalStringToNumber form staleEdit = inl data
    /\ fitsTable data
    /\ (forall r, r ∈ Sql.tbl_buyers twoOwnersDb ->
                  Sql.id r = Sql.id plainLead -> Sql.owner_id r <> 8)
    /\ handleFormSubmit Sql.email_pattern decimalStringToNumber
         (fun d => EditBuyer_handleSubmit (Some plainLead) (Some 8) 300%Z d
                     twoOwnersDb)
         staleEdit ["urgent"; "family"]
       = Some (mkPageResult twoOwnersDb
                 [mkToast "Success" (text "Buyer lead updated successfully!")
                    false]
                 (Some ("/buyers/" +:+ js_id (Sql.id plainLead)))).
Proof.
  eexists. split; [vm_compute; reflexivity|].
  match goal with |- fitsTable ?d /\ _ => assert (Hfits : fitsTable d) end.
  { split; [|split].
    - intros s [= <-] _. vm_compute. reflexivity.
    - intros n [= <-]. lia.
    - intros n [= <-]. lia. }
  assert (Hno : forall r, r ∈ Sql.tbl_buyers twoOwnersDb ->
                  Sql.id r = Sql.id plainLead -> Sql.owner_id r <> 8).
  { intros r Hr Hid.
    apply elem_of_cons in Hr as [-> | ->%list_elem_of_singleton];
      [discriminate | discriminate Hid]. }
  split; [exact Hfits|]. split; [exact Hno|].
  eapply (edit_of_a_missing_lead_reports_success Sql.email_pattern
            decimalStringToNumber staleEdit ["urgent"; "family"] _ plainLead 8
            300%Z twoOwnersDb);
    [vm_compute; reflexivity | exact Hfits | exact Hno].
Defined.

Lemma fetchBuyer_serves_the_owner_only_witness :
  consistent twoOwnersDb
  /\ plainLead ∈ Sql.tbl_buyers twoOwnersDb
  /\ fetchBuyer "JSON object requested, multiple (or no) rows returned"
       (Some (Sql.id plainLead)) (Some 8) (mkFetchState None true) twoOwnersDb
     = mkFetchResult (mkFetchState None false)
         [mkToast "Error"
            (text "JSON object requested, multiple (or no) rows returned")
            true]
         (Some "/buyers").
Proof.
  assert (Hin : plainLead ∈ Sql.tbl_buyers twoOwnersDb) by left.
  split; [exact twoOwnersDb_consistent|]. split; [exact Hin|].
  apply (fetchBuyer_serves_the_owner_only
           "JSON object requested, multiple (or no) rows returned" 8
           (mkFetchState None true) twoOwnersDb plainLead
           twoOwnersDb_consistent Hin).
Defined.

Lemma delete_removes_the_lead_and_its_history_witness :
  consistent twoOwnersDb
  /\ plainLead ∈ Sql.tbl_buyers twoOwnersDb
  /\ Sql.owner_id plainLead = 7
  /\ BuyerDetails_handleDelete (Some plainLead) (Some 7) twoOwnersDb
     = mkPageResult
         (Sql.mkDb [neighbourLead] [createdEntry 4 2 8 100%Z] 5)
         [mkToast "Success" (text "Buyer lead deleted successfully!") false]
         (Some "/buyers").
Proof.
  assert (Hin : plainLead ∈ Sql.tbl_buyers twoOwnersDb) by left.
  split; [exact twoOwnersDb_consistent|]. split; [exact Hin|].
  split; [reflexivity|].
  apply (delete_removes_the_lead_and_its_history plainLead 7 twoOwnersDb
           twoOwnersDb_consistent Hin eq_refl).
Defined.

Lemma delete_of_a_missing_lead_reports_success_witness :
  (forall r, r ∈ Sql.tbl_buyers twoOwnersDb ->
             Sql.id r = Sql.id neighbourLead -> Sql.owner_id r <> 7)
  /\ BuyerDetails_handleDelete (Some neighbourLead) (Some 7) twoOwnersDb
     = mkPageResult twoOwnersDb
         [mkToast "Success" (text "Buyer lead deleted successfully!") false]
         (Some "/buyers").
Proof.
  assert (Hno : forall r, r ∈ Sql.tbl_buyers twoOwnersDb ->
                  Sql.id r = Sql.id neighbourLead -> Sql.owner_id r <> 7).
  { intros r Hr Hid.
    apply elem_of_cons in Hr as [-> | ->%list_elem_of_singleton];
      [discriminate Hid | discriminate]. }
  split; [exact Hno|].
  apply (delete_of_a_missing_lead_reports_success neighbourLead 7 twoOwnersDb
           Hno).
Defined.

Lemma import_stores_every_valid_row_witness :
  let valid :=
    validRowsOf Sql.email_pattern decimalStringToNumber (csvData mixedFile) in
  let result :=
    validateAndImportData Sql.email_pattern decimalStringToNumber (Some 7)
      (fun _ => 100%Z) mixedFile emptyDb in
  valid <> [] /\ Forall fitsTable valid
  /\ storedAs 7 (map (fun d => (dbRow (d, 7)).1) valid) emptyDb
       (import_db result)
  /\ import_state result
     = mkImportState false
         (validateRows Sql.email_pattern decimalStringToNumber 7 0
            (csvData mixedFile)).1
         (length valid) (csvData mixedFile)
  /\ import_toasts result
     = [mkToast "Import Complete"
          (text ("Successfully imported "
                 +:+ numberToString (Z.of_nat (length valid))
                 +:+ " buyer leads"))
          false]
  /\ onImportComplete result
     = bool_decide (length valid = length (csvData mixedFile)).
Proof.
  cbv zeta.
  assert (Hv : validRowsOf Sql.email_pattern decimalStringToNumber
                 (csvData mixedFile) = [normalisedData csv sampleCsvRow])
    by (vm_compute; reflexivity).
  assert (Hne : validRowsOf Sql.email_pattern decimalStringToNumber
                  (csvData mixedFile) <> []) by (rewrite Hv; discriminate).
  assert (Hfits : Forall fitsTable
                    (validRowsOf Sql.email_pattern decimalStringToNumber
                       (csvData mixedFile))).
  { rewrite Hv. constructor; [|constructor]. split; [|split].
    - intros s [= <-] _. vm_compute. reflexivity.
    - intros n [= <-]. lia.
    - intros n [= <-]. lia. }
  split; [exact Hne|]. split; [exact Hfits|].
  apply (import_stores_every_valid_row Sql.email_pattern decimalStringToNumber
           7 (fun _ => 100%Z) mixedFile emptyDb Hne Hfits).
Defined.

Lemma import_stops_at_the_first_refused_batch_witness :
  let valid :=
    validRowsOf Sql.email_pattern decimalStringToNumber (csvData overflowFile) in
  let result :=
    validateAndImportData Sql.email_pattern decimalStringToNumber (Some 7)
      (fun _ => 100%Z) overflowFile emptyDb in
  ~ Forall fitsTable valid
  /\ exists k e,
       importSuccess (import_state result) = k * 10
       /\ k * 10 < length valid
       /\ storedAs 7 (map (fun d => (dbRow (d, 7)).1) (take (k * 10) valid))
            emptyDb (import_db result)
       /\ Forall fitsTable (take (k * 10) valid)
       /\ ~ Forall fitsTable (take 10 (drop (k * 10) valid))
       /\ refusal e
       /\ import_toasts result
          = [mkToast "Import Failed" (error_message e) true]
       /\ onImportComplete result = false.
Proof.
  cbv zeta.
  assert (Hv : validRowsOf Sql.email_pattern decimalStringToNumber
                 (csvData overflowFile)
               = [normalisedData csv sampleCsvRow;
                  normalisedData csv csvOverflowRow])
    by (vm_compute; reflexivity).
  assert (Hnf : ~ Forall fitsTable
                    (validRowsOf Sql.email_pattern decimalStringToNumber
                       (csvData overflowFile))).
  { rewrite Hv. intros [_ [(_ & Hlo & _) _]%Forall_cons]%Forall_cons.
    specialize (Hlo 3000000000%Z eq_refl). lia. }
  split; [exact Hnf|].
  apply (import_stops_at_the_first_refused_batch Sql.email_pattern
           decimalStringToNumber 7 (fun _ => 100%Z) overflowFile emptyDb Hnf).
Defined.

Lemma edit_form_rejects_a_lead_without_bhk_witness :
  Sql.bhk neighbourLead = None
  /\ exists issues,
       validate Sql.email_pattern decimalStringToNumber form
         (initialValues (initialData neighbourLead)) = inr issues
       /\ Zod.mkIssue Zod.invalid_type ["bhk"] None ∈ issues
       /\ forall (R : Type) (onSubmit : Buyer -> R) tagList,
            handleFormSubmit Sql.email_pattern decimalStringToNumber onSubmit
              (initialValues (initialData neighbourLead)) tagList = None.
Proof.
  split; [reflexivity|].
  apply (edit_form_rejects_a_lead_without_bhk Sql.email_pattern
           decimalStringToNumber neighbourLead
           (initialValues (initialData neighbourLead)));
    reflexivity.
Defined.


Lemma tag_editor_keeps_the_tags_tidy_witness :
  tidy ["urgent"]
  /\ tidy (BuyerForm.tags
             (foldl BuyerForm.handle (BuyerForm.mkTagState "" ["urgent"])
                [BuyerForm.onChange " vip "; BuyerForm.clickAdd;
                 BuyerForm.onChange "vip"; BuyerForm.onKeyPress "Enter";
                 BuyerForm.onChange " "; BuyerForm.clickAdd;
                 BuyerForm.clickRemove "urgent"])).
Proof.
  assert (H : tidy ["urgent"]).
  { split; [apply NoDup_singleton|]. by repeat constructor. }
  split; [exact H|].
  apply (tag_editor_keeps_the_tags_tidy (BuyerForm.mkTagState "" ["urgent"]) _ H).
Defined.

Lemma addTag_then_removeTag_witness :
  let st := BuyerForm.mkTagState " vip " ["urgent"] in
  trim (BuyerForm.tagInput st) <> ""
  /\ (trim (BuyerForm.tagInput st) ∉ BuyerForm.tags st)
  /\ BuyerForm.addTag st = BuyerForm.mkTagState "" ["urgent"; "vip"]
  /\ BuyerForm.addTag (BuyerForm.addTag st) = BuyerForm.addTag st
  /\ BuyerForm.removeTag "vip" (BuyerForm.addTag st)
     = BuyerForm.mkTagState "" ["urgent"].
Proof.
  cbv zeta.
  assert (H1 : trim (BuyerForm.tagInput (BuyerForm.mkTagState " vip " ["urgent"]))
               <> "") by (vm_compute; discriminate).
  assert (H2 : trim (BuyerForm.tagInput (BuyerForm.mkTagState " vip " ["urgent"]))
               ∉ BuyerForm.tags (BuyerForm.mkTagState " vip " ["urgent"])).
  { intros H%list_elem_of_singleton. vm_compute in H. discriminate H. }
  split; [exact H1|]. split; [exact H2|].
  apply (addTag_then_removeTag (BuyerForm.mkTagState " vip " ["urgent"]) H1 H2).
Defined.

Lemma updateFilters_sets_and_clears_witness :
  let searchParams := [("city", "Mohali"); ("status", "New"); ("page", "3")] in
  let newFilters := [("city", ""); ("page", "1")] in
  NoDup (map fst newFilters)
  /\ URLSearchParams.get "city"
       (BuyersList.updateFilters searchParams newFilters) = None.
Proof.
  cbv zeta.
  assert (H : NoDup (map fst [("city", ""); ("page", "1")])).
  { cbn. apply NoDup_cons. split; [|apply NoDup_singleton].
    by intros H%list_elem_of_singleton. }
  split; [exact H|].
  apply (updateFilters_sets_and_clears
           [("city", "Mohali"); ("status", "New"); ("page", "3")]
           [("city", ""); ("page", "1")] "city" H).
Defined.

Lemma filter_change_returns_to_the_first_page_witness :
  let searchParams := [("search", "rao"); ("page", "3")] in
  let searchParams' := BuyersList.onValueChange "city" "Mohali" searchParams in
  "city" <> "page" /\ "Mohali" <> ""
  /\ BuyersList.currentPage searchParams' = JNumber 1
  /\ BuyersList.getOr "city" "" searchParams' = "Mohali"
  /\ forall other, other <> "city" -> other <> "page" ->
       URLSearchParams.get other searchParams'
       = URLSearchParams.get other searchParams.
Proof.
  cbv zeta. split; [discriminate|]. split; [discriminate|].
  apply (filter_change_returns_to_the_first_page "city" "Mohali"
           [("search", "rao"); ("page", "3")]); discriminate.
Defined.

Lemma pages_tile_the_result_witness :
  (0 < 25)%Z
  /\ let pages := BuyersList.totalPages 25 in
     (1 <= pages)%Z
     /\ BuyersList.from 1 = 0%Z
     /\ (forall p, BuyersList.to p = (BuyersList.from p + 9)%Z
                   /\ BuyersList.from (p + 1) = (BuyersList.to p + 1)%Z)
     /\ (forall p, (1 <= p <= pages)%Z -> (0 <= BuyersList.from p < 25)%Z)
     /\ (forall i, (0 <= i < 25)%Z ->
           exists p, (1 <= p <= pages)%Z
                     /\ (BuyersList.from p <= i <= BuyersList.to p)%Z
                     /\ forall q,
                          (BuyersList.from q <= i <= BuyersList.to q)%Z ->
                          q = p)
     /\ (forall p, (1 <= p <= pages)%Z ->
           (1 <= BuyersList.previousPage p <= pages)%Z
           /\ (1 <= BuyersList.nextPage 25 p <= pages)%Z
           /\ (BuyersList.previousPage p = p <-> p = 1%Z)
           /\ (BuyersList.nextPage 25 p = p <-> p = pages)).
Proof.
  split; [lia|]. apply (pages_tile_the_result 25). lia.
Defined.

Lemma page_links_lead_to_their_page_witness :
  (0 < 25 <= MAX_SAFE_INTEGER)%Z
  /\ (1 <= 3 <= BuyersList.totalPages 25)%Z
  /\ BuyersList.currentPage
       (BuyersList.onPageLink 3 [("city", "Mohali"); ("page", "1")])
     = JNumber 3
  /\ BuyersList.currentPage
       (BuyersList.onPrevious 3 [("city", "Mohali"); ("page", "1")])
     = JNumber 2
  /\ BuyersList.currentPage
       (BuyersList.onNext 25 3 [("city", "Mohali"); ("page", "1")])
     = JNumber 3
  /\ forall other, other <> "page" ->
       URLSearchParams.get other
         (BuyersList.onPageLink 3 [("city", "Mohali"); ("page", "1")])
       = URLSearchParams.get other [("city", "Mohali"); ("page", "1")]
       /\ URLSearchParams.get other
            (BuyersList.onPrevious 3 [("city", "Mohali"); ("page", "1")])
          = URLSearchParams.get other [("city", "Mohali"); ("page", "1")]
       /\ URLSearchParams.get other
            (BuyersList.onNext 25 3 [("city", "Mohali"); ("page", "1")])
          = URLSearchParams.get other [("city", "Mohali"); ("page", "1")].
Proof.
  assert (H1 : (0 < 25 <= MAX_SAFE_INTEGER)%Z)
    by (unfold MAX_SAFE_INTEGER; lia).
  assert (H2 : (1 <= 3 <= BuyersList.totalPages 25)%Z)
    by (vm_compute; split; discriminate).
  split; [exact H1|]. split; [exact H2|].
  apply (page_links_lead_to_their_page 25 3
           [("city", "Mohali"); ("page", "1")] H1 H2).
Defined.
